(** * pagerduty-mtta-analysis: a shallow embedding of
      [src/pagerduty-mtta-analysis.py] and the properties of its
      unit conversion, date window, resilient fetch loop, row processor and
      spreadsheet update loop. *)

From Stdlib Require Import ZArith Lia Bool Ascii String DecimalString.
From Stdlib Require Import Floats.SpecFloat.
From Stdlib Require DecimalN.
From stdpp Require Import gmap strings list fin_maps.

Local Open Scope string_scope.
Local Open Scope Z_scope.

(* ===================================================================== *)
(** * Python values                                                       *)
(* ===================================================================== *)

(** The values the script handles: what [response.json()] returns, what
    an openpyxl cell holds, what [seconds_to_minutes] receives.  A [float]
    is an IEEE-754 binary64 number ([spec_float] of the Standard Library,
    with 53 bits of precision); an [int] is unbounded.  A [dict] is kept as
    an association list with string keys (the keys of a JSON object). *)
#[warnings="-register-all"]
Inductive pyval :=
| PNone
| PBool (b : bool)
| PInt (z : Z)
| PFloat (f : spec_float)
| PStr (s : string)
| PList (l : list pyval)
| PDict (kv : list (string * pyval)).

(** Python exceptions raised somewhere in the script or its libraries. *)
Inductive exn :=
| Timeout                 (* requests.exceptions.Timeout *)
| ConnectionError         (* requests.exceptions.ConnectionError *)
| HTTPError (status : Z)  (* raised by response.raise_for_status() *)
| JSONDecodeError         (* requests.exceptions.JSONDecodeError, a
                             RequestException since requests 2.27 *)
| RequestException (msg : string) (* any other / the wrapping exception *)
| ValueError (msg : string)
| TypeError
| KeyError
| AttributeError
| IndexError
| OverflowError
| OutOfFuel.              (* the loop bound of the model, never reached:
                             see [retry_loop_fuel], [fetch_within_fuel] *)

(** [except requests.exceptions.RequestException] catches the whole
    hierarchy of the requests library. *)
Definition is_request_exception (e : exn) : bool :=
  match e with
  | Timeout | ConnectionError | HTTPError _ | JSONDecodeError
  | RequestException _ => true
  | _ => false
  end.

Inductive res (A : Type) :=
| Ok (a : A)
| Raise (e : exn).
Arguments Ok {A} a.
Arguments Raise {A} e.

(** Python truthiness ([if x:], [not x], [x and y]). *)
Definition sf_is_zero (f : spec_float) : bool :=
  match f with S754_zero _ => true | _ => false end.

Definition truthy (v : pyval) : bool :=
  match v with
  | PNone => false
  | PBool b => b
  | PInt z => negb (z =? 0)
  | PFloat f => negb (sf_is_zero f)
  | PStr s => negb (String.eqb s "")
  | PList l => match l with [] => false | _ => true end
  | PDict kv => match kv with [] => false | _ => true end
  end.

Definition is_none (v : pyval) : bool :=
  match v with PNone => true | _ => false end.

(** [v == s] for a string literal [s]: only an equal [str] compares equal. *)
Definition eq_str (v : pyval) (s : string) : bool :=
  match v with PStr t => String.eqb t s | _ => false end.

(* ===================================================================== *)
(** * binary64 arithmetic used by the script                              *)
(* ===================================================================== *)

Module Float64.

Definition prec : Z := 53.
Definition emax : Z := 1024.

(** [float(z)]: the nearest double, ties to even. *)
Definition of_Z (z : Z) : spec_float := binary_normalize prec emax z 0 false.

Definition div (x y : spec_float) : spec_float := SFdiv prec emax x y.

Definition is_finite (x : spec_float) : bool :=
  match x with S754_zero _ | S754_finite _ _ _ => true | _ => false end.

(** Round half to even of the rational [n / d] ([d > 0]) to an integer. *)
Definition round_half_even (n d : Z) : Z :=
  let q := n / d in
  let r := n mod d in
  match 2 * r ?= d with
  | Lt => q
  | Gt => q + 1
  | Eq => if Z.even q then q else q + 1
  end.

(** The number of hundredths nearest to the exact value [m * 2^e]. *)
Definition hundredths (m : positive) (e : Z) : Z :=
  match e with
  | Zneg p => round_half_even (100 * Zpos m) (2 ^ Zpos p)
  | _ => 100 * Zpos m * 2 ^ e
  end.

(** [round(x, 2)] on a float (CPython's [double_round]): the exact binary
    value is rounded to two decimals, half to even, and the decimal
    result is converted back to the nearest double.  Infinities and NaN
    round to themselves; the sign of a zero result is the sign of [x]. *)
Definition round2 (x : spec_float) : spec_float :=
  match x with
  | S754_finite s m e =>
      match hundredths m e with
      | Zpos k => SFdiv prec emax (S754_finite s k 0) (S754_finite false 100 0)
      | _ => S754_zero s
      end
  | _ => x
  end.

(** [a / b] for two [int]s: the correctly rounded quotient, or
    [OverflowError] when it does not fit a double, [ZeroDivisionError]
    never arising here since the script divides by the literal 60. *)
Definition int_truediv (a : Z) (b : positive) : res spec_float :=
  match a with
  | Z0 => Ok (S754_zero false)
  | Zpos p =>
      let q := SFdiv prec emax (S754_finite false p 0) (S754_finite false b 0) in
      if is_finite q then Ok q else Raise OverflowError
  | Zneg p =>
      let q := SFdiv prec emax (S754_finite true p 0) (S754_finite false b 0) in
      if is_finite q then Ok q else Raise OverflowError
  end.

Definition mul (x y : spec_float) : spec_float := SFmul prec emax x y.

Definition add (x y : spec_float) : spec_float := SFadd prec emax x y.

Definition is_nan (x : spec_float) : bool :=
  match x with S754_nan => true | _ => false end.

(** An [int] that meets a [float] in arithmetic is converted to the
    nearest double; one that is too large for a double is an
    [OverflowError]. *)
Definition of_int (z : Z) : res spec_float :=
  if is_finite (of_Z z) then Ok (of_Z z) else Raise OverflowError.

(** [a + f] and [a * f] for an [int] [a] and a [float] [f]. *)
Definition int_add (a : Z) (f : spec_float) : res spec_float :=
  match of_int a with
  | Ok fa => Ok (add fa f)
  | Raise e => Raise e
  end.

Definition int_mul (a : Z) (f : spec_float) : res spec_float :=
  match of_int a with
  | Ok fa => Ok (mul fa f)
  | Raise e => Raise e
  end.


End Float64.

(** [x / 60] for a Python value [x] ([bool] is a subclass of [int]). *)
Definition truediv_60 (x : pyval) : res spec_float :=
  match x with
  | PInt z => Float64.int_truediv z 60
  | PBool b => Float64.int_truediv (if b then 1 else 0) 60
  | PFloat f => Ok (Float64.div f (Float64.of_Z 60))
  | _ => Raise TypeError
  end.

(* ===================================================================== *)
(** * TimeConverter: [seconds_to_minutes]                                 *)
(* ===================================================================== *)

(** [None] stands for Python's [None]. *)
Definition seconds_to_minutes (seconds : pyval) : res (option spec_float) :=
  if is_none seconds then Ok None
  else
    match truediv_60 seconds with
    | Ok minutes => Ok (Some (Float64.round2 minutes))
    | Raise e => Raise e
    end.

(** The operation as the specification words it: absence propagates,
    otherwise [round(seconds / 60, 2)]. *)
Definition toMinutes_spec (seconds : option pyval) : res (option spec_float) :=
  match seconds with
  | None => Ok None
  | Some x =>
      match truediv_60 x with
      | Ok q => Ok (Some (Float64.round2 q))
      | Raise e => Raise e
      end
  end.

(** The double a decimal literal with two decimals denotes, such as
    [2.00] or [1.50]: the one nearest to [n / 100]. *)
Definition hundredths_literal (n : Z) : spec_float :=
  Float64.div (Float64.of_Z n) (Float64.of_Z 100).

(* ===================================================================== *)
(** * DateRangeResolver: [get_date_range_for_month]                       *)
(* ===================================================================== *)

Definition month_map : gmap string Z :=
  list_to_map
    [("Jan", 1); ("Feb", 2); ("Mar", 3); ("Apr", 4);
     ("May", 5); ("Jun", 6); ("Jul", 7); ("Aug", 8);
     ("Sep", 9); ("Oct", 10); ("Nov", 11); ("Dec", 12)].

(** ** The pieces of [calendar] and [datetime] the function calls *)

Definition isleap (year : Z) : bool :=
  (year mod 4 =? 0) && (negb (year mod 100 =? 0) || (year mod 400 =? 0)).

Definition mdays : list Z := [0; 31; 28; 31; 30; 31; 30; 31; 31; 30; 31; 30; 31].

(** [calendar.monthrange(year, month)[1]]. *)
Definition monthrange_ndays (year month : Z) : res Z :=
  if (1 <=? month) && (month <=? 12) then
    Ok (default 0 (mdays !! Z.to_nat month)
        + (if (month =? 2) && isleap year then 1 else 0))
  else Raise (ValueError "bad month number; must be 1-12").

Record datetime := mk_datetime {
  dt_year : Z; dt_month : Z; dt_day : Z;
  dt_hour : Z; dt_minute : Z; dt_second : Z
}.

Definition MINYEAR : Z := 1.
Definition MAXYEAR : Z := 9999.

Definition in_range (lo x hi : Z) : bool := (lo <=? x) && (x <=? hi).

(** The arguments of [datetime(...)] are first converted to C [int]s:
    one that does not fit is an [OverflowError]. *)
Definition fits_c_int (z : Z) : bool := (- 2 ^ 31 <=? z) && (z <? 2 ^ 31).

(** The [datetime(...)] constructor with its range checks. *)
Definition new_datetime (year month day hour minute second : Z) : res datetime :=
  if negb (forallb fits_c_int [year; month; day; hour; minute; second])
  then Raise OverflowError
  else if negb (in_range MINYEAR year MAXYEAR) then Raise (ValueError "year is out of range")
  else if negb (in_range 1 month 12) then Raise (ValueError "month must be in 1..12")
  else
    match monthrange_ndays year month with
    | Raise e => Raise e
    | Ok dim =>
        if negb (in_range 1 day dim) then Raise (ValueError "day is out of range for month")
        else if negb (in_range 0 hour 23) then Raise (ValueError "hour must be in 0..23")
        else if negb (in_range 0 minute 59) then Raise (ValueError "minute must be in 0..59")
        else if negb (in_range 0 second 59) then Raise (ValueError "second must be in 0..59")
        else Ok (mk_datetime year month day hour minute second)
    end.

Definition decimal (n : Z) : string := NilZero.string_of_uint (N.to_uint (Z.to_N n)).

Definition pad2 (n : Z) : string :=
  if n <? 10 then "0" ++ decimal n else decimal n.

(** [dt.strftime("%Y-%m-%dT00:00:00.000000Z")]: only the date fields of
    [dt] are directives, the time of day is literal text of the format.
    [%Y] is rendered as the C library does, without padding (this only
    shows for years below 1000). *)
Definition strftime_midnight (dt : datetime) : string :=
  decimal (dt_year dt) ++ "-" ++ pad2 (dt_month dt) ++ "-" ++ pad2 (dt_day dt)
  ++ "T00:00:00.000000Z".

Definition month_num_of (month_name : string) : Z :=
  default 1 (month_map !! month_name).

Definition first_day_of (year month_num : Z) : res datetime :=
  new_datetime year month_num 1 0 0 0.

Definition last_day_of (year month_num : Z) : res datetime :=
  match monthrange_ndays year month_num with
  | Raise e => Raise e
  | Ok n => new_datetime year month_num n 23 59 59
  end.

Definition get_date_range_for_month (month_name : string) (year : Z)
  : res (string * string) :=
  let month_num := month_num_of month_name in
  match first_day_of year month_num with
  | Raise e => Raise e
  | Ok first_day =>
      match last_day_of year month_num with
      | Raise e => Raise e
      | Ok last_day =>
          let start_date := strftime_midnight first_day in
          let end_date := strftime_midnight last_day in
          Ok (start_date, end_date)
      end
  end.

(** ** The calendar rule in the specification's words *)

Definition leap_year_std (year : Z) : bool :=
  if year mod 400 =? 0 then true
  else if year mod 100 =? 0 then false
  else year mod 4 =? 0.

Definition days_in_month_std (year month : Z) : Z :=
  match month with
  | 1 | 3 | 5 | 7 | 8 | 10 | 12 => 31
  | 4 | 6 | 9 | 11 => 30
  | 2 => if leap_year_std year then 29 else 28
  | _ => 0
  end.

(* ===================================================================== *)
(** * The outside world: HTTP, clock, randomness, console                 *)
(* ===================================================================== *)

Record payload := mk_payload {
  escalation_policy_ids : list pyval;
  created_at_start : string;
  created_at_end : string
}.

(** One [requests.post(url, headers=..., json=..., timeout=30, verify=...)]. *)
Record request := mk_request {
  req_url : string;
  req_headers : list (string * string);
  req_json : payload;
  req_timeout : Z;
  req_verify : bool
}.

(** What the script looks at in a response: the status, the
    [Retry-After] header when there is one, and the body as parsed by
    [response.json()] ([None] when the body is not JSON). *)
Record response := mk_response {
  status_code : Z;
  retry_after_header : option string;
  json_body : option pyval
}.

Inductive post_outcome :=
| PostRaises (e : exn)
| PostResponse (r : response).

(** The behaviour of the network and of the random generator are
    parameters of a run: the outcome of the [n]-th POST of the run, which
    may depend on the request, and the [n]-th raw random draw. *)
Record world := mk_world {
  http : nat -> request -> post_outcome;
  random_bits : nat -> N
}.

Inductive message :=
| MsgUsingMock
| MsgMakingRequest (url : string)
| MsgRequestPayload (p : payload)
| MsgRateLimited (retry_after : Z)
| MsgNon200 (status : Z)
| MsgResponseHeaders
| MsgResponseContent
| MsgTimedOut
| MsgConnectionError
| MsgRetrying (e : exn) (wait_time : pyval) (attempt : Z)
| MsgAllRetriesFailed (e : exn)
| MsgFoundMean (mean_seconds : pyval)
| MsgNoData
| MsgRowError (e : exn)
| MsgTraceback
| MsgFileNotFound
| MsgLoading
| MsgColumnNotFound (month : string)
| MsgAvailableColumns (headers : list pyval)
| MsgTokenNotSet
| MsgUsingToken (first4 : string)
| MsgNoToken
| MsgRowRange (first_row last_row total : Z)
| MsgSkipNoId (row : Z)
| MsgSkipExists (row : Z) (name id_value : pyval) (month : string) (existing : pyval)
| MsgProcessing (name id_value : pyval)
| MsgUpdated (month : string) (minutes : spec_float)
| MsgFailedUpdate (month : string) (name : pyval)
| MsgKeeping (existing : pyval)
| MsgSaved
| MsgMockMode
| MsgDelay (delay : spec_float)
| MsgSSLWarning.

(** What a run does that can be observed.  [EProcessed row v] is a ghost
    event: it marks that the orchestrator called [process_row] for [row]
    and that the call returned [v]. *)
Inductive event :=
| EPrint (m : message)
| ESleep (seconds : pyval)
| EPost (r : request)
| EProcessed (row : Z) (minutes_value : option spec_float)
| EWrite (row col : Z) (v : spec_float)
| ESave.

Record io := mk_io {
  posts : nat;           (* POSTs issued so far *)
  draws : nat;           (* random draws made so far *)
  trace : list event
}.

Definition io0 : io := mk_io 0 0 [].

Definition log (e : event) (s : io) : io :=
  mk_io (posts s) (draws s) (trace s ++ [e]).

(** ** A state and exception monad over [io] *)

Definition M (A : Type) : Type := io -> res A * io.

Definition ret {A} (a : A) : M A := fun s => (Ok a, s).

Definition raise {A} (e : exn) : M A := fun s => (Raise e, s).

Definition bind {A B} (m : M A) (k : A -> M B) : M B :=
  fun s =>
    match m s with
    | (Ok a, s') => k a s'
    | (Raise e, s') => (Raise e, s')
    end.

(** [try: body  except ... as e: handler e]; a handler that does not
    match re-raises, and what [body] did before raising stays done. *)
Definition try_catch {A} (body : M A) (handler : exn -> M A) : M A :=
  fun s =>
    match body s with
    | (Ok a, s') => (Ok a, s')
    | (Raise e, s') => handler e s'
    end.

Definition lift {A} (r : res A) : M A := fun s => (r, s).

Declare Scope io_scope.
Delimit Scope io_scope with io.
Notation "x <- m ;; k" := (bind m (fun x => k))
  (at level 100, m at next level, right associativity) : io_scope.
Notation "m ;;; k" := (bind m (fun _ => k))
  (at level 100, right associativity) : io_scope.

Definition emit (e : event) : M unit := fun s => (Ok tt, log e s).

Definition print (m : message) : M unit := emit (EPrint m).

(** What [time.sleep(secs)] does with its argument before it sleeps
    (CPython 3.11 on 64-bit Linux).  The length is turned into a number of
    nanoseconds held in a signed 64-bit integer: an [int] is multiplied by
    [10^9], with an [OverflowError] when the product does not fit; a
    [float] is multiplied by [1e9] in binary64 and rounded away from zero
    (which changes neither its sign nor how it compares with [2^63]), with
    a [ValueError] for a NaN and an [OverflowError] outside
    [-2^63 .. 2^63]; the product [2^63] itself converts to the least
    integer.  A negative number of nanoseconds is a [ValueError]. *)
Definition check_sleep (secs : pyval) : res unit :=
  let check_int (n : Z) : res unit :=
    if (n <? -9223372036) || (9223372036 <? n) then Raise OverflowError
    else if n <? 0 then Raise (ValueError "sleep length must be non-negative")
    else Ok tt in
  match secs with
  | PFloat f =>
      if Float64.is_nan f then Raise (ValueError "Invalid value NaN (not a number)")
      else
        let d := Float64.mul f (Float64.of_Z (10 ^ 9)) in
        if negb (SFleb (Float64.of_Z (- 2 ^ 63)) d && SFleb d (Float64.of_Z (2 ^ 63)))
        then Raise OverflowError
        else if SFltb d (S754_zero false) || SFeqb d (Float64.of_Z (2 ^ 63))
        then Raise (ValueError "sleep length must be non-negative")
        else Ok tt
  | PInt n => check_int n
  | PBool b => check_int (if b then 1 else 0)
  | _ => Raise TypeError
  end.

(** [time.sleep(secs)] *)
Definition sleep (secs : pyval) : M unit :=
  fun s =>
    match check_sleep secs with
    | Ok _ => (Ok tt, log (ESleep secs) s)
    | Raise e => (Raise e, s)
    end.

Section World.

Variable w : world.

Definition draw : M N :=
  fun s => (Ok (random_bits w (draws s)), mk_io (posts s) (S (draws s)) (trace s)).

(** [random.randint(a, b)] for [a <= b]: an integer of [a..b]. *)
Definition randint (a b : Z) : M Z :=
  (n <- draw ;; ret (a + Z.of_N n mod (b - a + 1)))%io.

(** [random.random()]: a 53-bit fraction [k / 2^53] of [0, 1), which is
    a double. *)
Definition random : M spec_float :=
  (n <- draw ;;
   ret (binary_normalize Float64.prec Float64.emax (Z.of_N n mod 2 ^ 53) (-53) false))%io.

(** [random.uniform(a, b)] for two [int]s: [a + (b - a) * random()], in
    binary64. *)
Definition uniform (a b : Z) : M spec_float :=
  (r <- random ;;
   x <- lift (Float64.int_mul (b - a) r) ;;
   lift (Float64.int_add a x))%io.

Definition post (r : request) : M response :=
  fun s =>
    let s' := mk_io (S (posts s)) (draws s) (trace s ++ [EPost r]) in
    match http w (posts s) r with
    | PostRaises e => (Raise e, s')
    | PostResponse resp => (Ok resp, s')
    end.

End World.

(* ===================================================================== *)
(** * [int(...)] on a header value                                        *)
(* ===================================================================== *)

(** White space as [int] sees it in a [str], for the characters a
    header value can hold (code points below 256): the six ASCII ones, and
    NEL and the no-break space.  The separators 28 to 31, which [str.strip]
    removes, are not among them. *)
Definition is_space (c : ascii) : bool :=
  let n := nat_of_ascii c in
  orb (orb (Nat.eqb n 32) (andb (Nat.leb 9 n) (Nat.leb n 13)))
      (orb (Nat.eqb n 133) (Nat.eqb n 160)).

Definition digit_of (c : ascii) : option Z :=
  let n := nat_of_ascii c in
  if andb (Nat.leb 48 n) (Nat.leb n 57) then Some (Z.of_nat n - 48) else None.

Fixpoint lstrip (s : string) : string :=
  match s with
  | String c s' => if is_space c then lstrip s' else s
  | EmptyString => s
  end.

Definition strip (s : string) : string :=
  String.rev (lstrip (String.rev (lstrip s))).

(** The longest run of decimal digits at the head of [s], single
    underscores allowed between two digits: its value, the number of its
    digits and what follows it.  [None] when there is no digit, or when an
    underscore does not stand between two digits. *)
Fixpoint scan_digits (s : string) (acc digits : Z) (after_digit : bool)
  : option (Z * Z * string) :=
  match s with
  | EmptyString => if after_digit then Some (acc, digits, s) else None
  | String c s' =>
      match digit_of c with
      | Some d => scan_digits s' (10 * acc + d) (digits + 1) true
      | None =>
          if Ascii.eqb c "_" then
            if after_digit then scan_digits s' acc digits false else None
          else if after_digit then Some (acc, digits, s) else None
      end
  end.

(** The most digits [int] converts (the default of
    [sys.set_int_max_str_digits]). *)
Definition max_str_digits : Z := 4300.

(** [int(s)] for a [str]: surrounding white space, an optional sign,
    decimal digits.  More digits than the limit are a [ValueError], found
    before what follows the digits is looked at; anything else that is not
    a number is a [ValueError] too. *)
Definition int_of_str (s : string) : res Z :=
  let t := strip s in
  let '(negative, r) :=
    match t with
    | String "+" r => (false, r)
    | String "-" r => (true, r)
    | _ => (false, t)
    end in
  match scan_digits r 0 0 false with
  | None => Raise (ValueError "invalid literal for int() with base 10")
  | Some (value, digits, rest) =>
      if max_str_digits <? digits
      then Raise (ValueError "Exceeds the limit (4300 digits) for integer string conversion")
      else
        match rest with
        | EmptyString => Ok (if negative then - value else value)
        | _ => Raise (ValueError "invalid literal for int() with base 10")
        end
  end.

(* ===================================================================== *)
(** * ResilientFetcher: [make_api_request]                                *)
(* ===================================================================== *)

Definition max_retries : Z := 7.

(** How one pass through the body of the [while] loop ends. *)
Inductive loop_step :=
| Return (data : pyval)
| Continue (retry_count retry_delay : Z).

(** [int(response.headers.get('Retry-After', retry_delay))] *)
Definition retry_after_of (r : response) (retry_delay : Z) : res Z :=
  match retry_after_header r with
  | None => Ok retry_delay
  | Some h => int_of_str h
  end.

(** [response.raise_for_status()] *)
Definition raise_for_status (r : response) : M unit :=
  if (400 <=? status_code r) && (status_code r <? 600)
  then raise (HTTPError (status_code r))
  else ret tt.

(** [response.json()] *)
Definition response_json (r : response) : M pyval :=
  match json_body r with
  | Some v => ret v
  | None => raise JSONDecodeError
  end.

Definition mock_response (mean_seconds total_incident_count : Z) : pyval :=
  PDict [("data",
          PList [PDict [("mean_seconds_to_first_ack", PInt mean_seconds);
                        ("total_incident_count", PInt total_incident_count)]])].

Section Fetcher.

Variable w : world.
Variables (url : string) (headers : list (string * string)) (payload : payload).
Variables (delay : spec_float) (verify_ssl : bool).

Local Open Scope io_scope.

(** The [try] block of one pass, from the point where [requests.post]
    has returned [response]. *)
Definition on_response (response : response) (retry_count retry_delay : Z)
  : M loop_step :=
  if status_code response =? 429 then
    retry_after <- lift (retry_after_of response retry_delay) ;;
    print (MsgRateLimited retry_after) ;;;
    sleep (PInt retry_after) ;;;
    ret (Continue (retry_count + 1) (Z.min (retry_delay * 2) 120))
  else
    (if negb (status_code response =? 200) then
       print (MsgNon200 (status_code response)) ;;;
       print MsgResponseHeaders ;;;
       print MsgResponseContent
     else ret tt) ;;;
    raise_for_status response ;;;
    data <- response_json response ;;
    ret (Return data).

(** The [try] block of one pass. *)
Definition try_body (retry_count retry_delay : Z) : M loop_step :=
  sleep (PFloat delay) ;;;
  print (MsgMakingRequest url) ;;;
  print (MsgRequestPayload payload) ;;;
  response <- post w (mk_request url headers payload 30 verify_ssl) ;;
  on_response response retry_count retry_delay.

(** The three [except] clauses, in the order of the source. *)
Definition handlers (retry_count retry_delay : Z) (e : exn) : M loop_step :=
  match e with
  | Timeout =>
      print MsgTimedOut ;;;
      let retry_count := retry_count + 1 in
      if retry_count >=? max_retries then
        raise (RequestException "Request timed out after 7 retries")
      else
        let wait_time := PInt (retry_delay * 2) in
        print (MsgRetrying e wait_time retry_count) ;;;
        sleep wait_time ;;;
        ret (Continue retry_count (Z.min (retry_delay * 2) 120))
  | ConnectionError =>
      print MsgConnectionError ;;;
      let retry_count := retry_count + 1 in
      if retry_count >=? max_retries then
        raise (RequestException "Connection error after 7 retries")
      else
        jitter <- uniform w 0 2 ;;
        wait_time <- lift (Float64.int_add retry_delay jitter) ;;
        print (MsgRetrying e (PFloat wait_time) retry_count) ;;;
        sleep (PFloat wait_time) ;;;
        ret (Continue retry_count (Z.min (retry_delay * 2) 120))
  | _ =>
      if is_request_exception e then
        let retry_count := retry_count + 1 in
        if retry_count >=? max_retries then
          print (MsgAllRetriesFailed e) ;;;
          raise e
        else
          jitter <- uniform w 0 2 ;;
          wait_time <- lift (Float64.int_add retry_delay jitter) ;;
          print (MsgRetrying e (PFloat wait_time) retry_count) ;;;
          sleep (PFloat wait_time) ;;;
          ret (Continue retry_count (Z.min (retry_delay * 2) 120))
      else raise e
  end.

(** One pass through the [try] statement. *)
Definition pass (retry_count retry_delay : Z) : M loop_step :=
  try_catch (try_body retry_count retry_delay)
            (handlers retry_count retry_delay).

(** [while retry_count < max_retries: ...], then the final [raise]. *)
Fixpoint retry_loop (fuel : nat) (retry_count retry_delay : Z) : M pyval :=
  if retry_count <? max_retries then
    match fuel with
    | O => raise OutOfFuel
    | S fuel' =>
        step <- pass retry_count retry_delay ;;
        match step with
        | Return data => ret data
        | Continue retry_count' retry_delay' =>
            retry_loop fuel' retry_count' retry_delay'
        end
    end
  else raise (RequestException "Failed after 7 retries").

Definition make_api_request (mock_api : bool) : M pyval :=
  if mock_api then
    print MsgUsingMock ;;;
    mean_seconds <- randint w 120 7200 ;;
    total_incident_count <- randint w 5 20 ;;
    ret (mock_response mean_seconds total_incident_count)
  else
    retry_loop (Z.to_nat max_retries) 0 3.

End Fetcher.

(* ===================================================================== *)
(** * RowProcessor: [process_row]                                         *)
(* ===================================================================== *)

Definition dict_get (kv : list (string * pyval)) (k : string) : option pyval :=
  snd <$> List.find (fun p => String.eqb (fst p) k) kv.

Fixpoint has_substring (sub s : string) : bool :=
  orb (String.prefix sub s)
      match s with
      | String _ s' => has_substring sub s'
      | EmptyString => false
      end.

(** [k in x] for a string literal [k]. *)
Definition py_contains (k : string) (x : pyval) : res bool :=
  match x with
  | PDict kv => Ok (bool_decide (is_Some (dict_get kv k)))
  | PList l => Ok (existsb (fun v => eq_str v k) l)
  | PStr s => Ok (has_substring k s)
  | _ => Raise TypeError
  end.

(** [x[k]] for a string literal [k]. *)
Definition py_getitem_str (x : pyval) (k : string) : res pyval :=
  match x with
  | PDict kv => match dict_get kv k with Some v => Ok v | None => Raise KeyError end
  | _ => Raise TypeError
  end.

(** [len(x)] *)
Definition py_len (x : pyval) : res Z :=
  match x with
  | PDict kv => Ok (Z.of_nat (length kv))
  | PList l => Ok (Z.of_nat (length l))
  | PStr s => Ok (Z.of_nat (String.length s))
  | _ => Raise TypeError
  end.

(** [x[0]]; the keys of a parsed JSON object are strings, so the integer
    key 0 is never found in a [dict]. *)
Definition py_getitem_0 (x : pyval) : res pyval :=
  match x with
  | PList (v :: _) => Ok v
  | PList [] => Raise IndexError
  | PStr (String c _) => Ok (PStr (String c EmptyString))
  | PStr EmptyString => Raise IndexError
  | PDict _ => Raise KeyError
  | _ => Raise TypeError
  end.

(** [x.get(k)] *)
Definition py_get (x : pyval) (k : string) : res pyval :=
  match x with
  | PDict kv => Ok (default PNone (dict_get kv k))
  | _ => Raise AttributeError
  end.

Section RowProcessor.

Variable w : world.

Local Open Scope io_scope.

(** The body of the [try] of [process_row], after the fetch. *)
Definition extract_minutes (data : pyval) : M (option spec_float) :=
  has_data <- lift (py_contains "data" data) ;;
  mean_seconds <-
    (if has_data then
       items <- lift (py_getitem_str data "data") ;;
       n <- lift (py_len items) ;;
       if n >? 0 then
         items <- lift (py_getitem_str data "data") ;;
         first <- lift (py_getitem_0 items) ;;
         mean_seconds <- lift (py_get first "mean_seconds_to_first_ack") ;;
         print (MsgFoundMean mean_seconds) ;;;
         ret mean_seconds
       else
         print MsgNoData ;;; ret PNone
     else
       print MsgNoData ;;; ret PNone) ;;
  lift (seconds_to_minutes mean_seconds).

Definition process_row (row : Z) (id_value name : pyval) (month_col_idx : Z)
    (url : string) (headers : list (string * string)) (payload : payload)
    (mock_api : bool) (delay : spec_float) (verify_ssl : bool)
  : io -> option spec_float * io :=
  fun s =>
    match (data <- make_api_request w url headers payload delay verify_ssl mock_api ;;
           extract_minutes data) s with
    | (Ok minutes_value, s') => (minutes_value, s')
    | (Raise e, s') =>
        (None, log (EPrint MsgTraceback) (log (EPrint (MsgRowError e)) s'))
    end.

End RowProcessor.

(* ===================================================================== *)
(** * The spreadsheet                                                     *)
(* ===================================================================== *)

(** The active worksheet of the workbook: cells addressed by
    (row, column), both counted from 1; a cell that was never set reads
    as [None]. *)
Record worksheet := mk_worksheet {
  cells : gmap (Z * Z) pyval;
  number_formats : gmap (Z * Z) string;
  max_row : Z;
  max_column : Z
}.

Definition cell_value (sheet : worksheet) (row column : Z) : pyval :=
  default PNone (cells sheet !! (row, column)).

(** [cell.value = v; cell.number_format = fmt] on [sheet.cell(row, column)]. *)
Definition set_cell (sheet : worksheet) (row column : Z) (v : pyval) (fmt : string)
  : worksheet :=
  mk_worksheet (<[(row, column) := v]> (cells sheet))
               (<[(row, column) := fmt]> (number_formats sheet))
               (Z.max (max_row sheet) row)
               (Z.max (max_column sheet) column).

Definition header_row (sheet : worksheet) : list pyval :=
  (fun col => cell_value sheet 1 col) <$> seqZ 1 (max_column sheet).

(** [headers.index(name)], counted from 0; [None] stands for the
    [ValueError] of a missing element. *)
Fixpoint index_of (name : string) (headers : list pyval) : option Z :=
  match headers with
  | [] => None
  | v :: rest =>
      if eq_str v name then Some 0 else Z.succ <$> index_of name rest
  end.

(** The file system and the process environment, as far as the script
    looks at them. *)
Record environment := mk_environment {
  excel_file : option worksheet;        (* [None]: the file does not exist *)
  PAGERDUTY_API_TOKEN : option string
}.

(* ===================================================================== *)
(** * UpdateOrchestrator: [fetch_and_update_pagerduty_metrics]            *)
(* ===================================================================== *)

Inductive run_outcome :=
| AbortFileNotFound       (* [return] after "Excel file not found" *)
| AbortColumnNotFound     (* [return] after "Column ... not found" *)
| AbortTokenNotSet        (* [return] after "... variable not set" *)
| Crashed (e : exn)       (* an exception nobody caught *)
| Completed.              (* the end of the function, after [wb.save] *)

(** The result of a run: how it ended, the spreadsheet file as it is on
    disk afterwards, and everything observable that happened. *)
Record run_result := mk_run_result {
  outcome : run_outcome;
  disk : option worksheet;
  final : io
}.

Definition api_headers (api_token : option string) : list (string * string) :=
  [("Authorization", "Token token=" ++ default "None" api_token);
   ("Content-Type", "application/json");
   ("Accept", "application/vnd.pagerduty+json;version=2");
   ("User-Agent", "PagerDuty-MTTA-Analysis/1.0")].

(** Truthiness of [os.environ.get(...)]: unset and empty are both false. *)
Definition token_set (api_token : option string) : bool :=
  match api_token with
  | Some t => negb (String.eqb t "")
  | None => false
  end.

Definition analytics_url : string :=
  "https://api.pagerduty.com/analytics/metrics/incidents/all".

(** "Determine row range": [start_row] and [end_row] are [None] or an
    [int], and [x and ...] is false for [None] and for 0. *)
Definition row_range (start_row end_row : option Z) (sheet_max_row : Z) : Z * Z :=
  let first_row := 2 in
  let last_row := sheet_max_row in
  let first_row :=
    match start_row with
    | Some r => if negb (r =? 0) && (r >? first_row) then r else first_row
    | None => first_row
    end in
  let last_row :=
    match end_row with
    | Some r => if negb (r =? 0) && (r <? last_row) then r else last_row
    | None => last_row
    end in
  (first_row, last_row).

(** [range(first_row, last_row + 1)] *)
Definition rows_of (first_row last_row : Z) : list Z :=
  seqZ first_row (last_row + 1 - first_row).

Section Orchestrator.

Variable w : world.
Variables (mock_api : bool) (month : string) (force_update : bool).
Variables (delay : spec_float) (verify_ssl : bool).
Variables (id_col_idx month_col_idx : Z) (headers : list (string * string)).

(** The cell is considered to hold a value already. *)
Definition has_value (existing_value : pyval) : bool :=
  negb (is_none existing_value) && negb (eq_str existing_value "").

(** The body of the [for row in range(...)] loop. *)
Definition row_body (row : Z) (sheet : worksheet) (s : io) : res worksheet * io :=
  let id_value := cell_value sheet row id_col_idx in
  if negb (truthy id_value) then
    (Ok sheet, log (EPrint (MsgSkipNoId row)) s)
  else
    let existing_value := cell_value sheet row month_col_idx in
    if has_value existing_value && negb force_update then
      (Ok sheet,
       log (EPrint (MsgSkipExists row (cell_value sheet row 1) id_value
                                  month existing_value)) s)
    else
      let name := cell_value sheet row 1 in
      let s := log (EPrint (MsgProcessing name id_value)) s in
      let url := analytics_url in
      match get_date_range_for_month month 2025 with
      | Raise e => (Raise e, s)
      | Ok (start_date, end_date) =>
          let payload := mk_payload [id_value] start_date end_date in
          let '(minutes_value, s) :=
            process_row w row id_value name month_col_idx
                        url headers payload mock_api delay verify_ssl s in
          let s := log (EProcessed row minutes_value) s in
          match minutes_value with
          | Some v =>
              let sheet := set_cell sheet row month_col_idx (PFloat v) "0.00" in
              let s := log (EWrite row month_col_idx v) s in
              (Ok sheet, log (EPrint (MsgUpdated month v)) s)
          | None =>
              let s := log (EPrint (MsgFailedUpdate month name)) s in
              (Ok sheet,
               if truthy existing_value
               then log (EPrint (MsgKeeping existing_value)) s
               else s)
          end
      end.

Fixpoint for_rows (rows : list Z) (sheet : worksheet) (s : io)
  : res worksheet * io :=
  match rows with
  | [] => (Ok sheet, s)
  | row :: rest =>
      match row_body row sheet s with
      | (Ok sheet', s') => for_rows rest sheet' s'
      | (Raise e, s') => (Raise e, s')
      end
  end.

End Orchestrator.

Definition fetch_and_update_pagerduty_metrics (w : world)
    (mock_api : bool) (month : string) (force_update : bool) (delay : spec_float)
    (start_row end_row : option Z) (verify_ssl : bool)
    (env : environment) (s : io) : run_result :=
  match excel_file env with
  | None => mk_run_result AbortFileNotFound (excel_file env)
                          (log (EPrint MsgFileNotFound) s)
  | Some sheet =>
      let s := log (EPrint MsgLoading) s in
      let headers := header_row sheet in
      match index_of "id" headers with
      | None => mk_run_result (Crashed (ValueError "'id' is not in list"))
                              (excel_file env) s
      | Some i =>
          let id_col_idx := i + 1 in
          match index_of month headers with
          | None =>
              mk_run_result AbortColumnNotFound (excel_file env)
                (log (EPrint (MsgAvailableColumns headers))
                     (log (EPrint (MsgColumnNotFound month)) s))
          | Some j =>
              let month_col_idx := j + 1 in
              let api_token := PAGERDUTY_API_TOKEN env in
              if negb (token_set api_token) && negb mock_api then
                mk_run_result AbortTokenNotSet (excel_file env)
                              (log (EPrint MsgTokenNotSet) s)
              else
                let headers := api_headers api_token in
                let s :=
                  if token_set api_token
                  then log (EPrint (MsgUsingToken
                                      (String.substring 0 4 (default "" api_token)))) s
                  else log (EPrint MsgNoToken) s in
                let '(first_row, last_row) :=
                  row_range start_row end_row (max_row sheet) in
                let s := log (EPrint (MsgRowRange first_row last_row
                                                  (last_row - first_row + 1))) s in
                match for_rows w mock_api month force_update delay verify_ssl
                               id_col_idx month_col_idx headers
                               (rows_of first_row last_row) sheet s with
                | (Raise e, s) => mk_run_result (Crashed e) (excel_file env) s
                | (Ok sheet, s) =>
                    mk_run_result Completed (Some sheet)
                                  (log (EPrint MsgSaved) (log ESave s))
                end
          end
      end
  end.

(** ** The command line *)

(** [2.5], the default of [delay] and of [--delay]. *)
Definition default_delay : spec_float :=
  Float64.div (Float64.of_Z 5) (Float64.of_Z 2).

Record args := mk_args {
  arg_mock : bool;
  arg_month : string;
  arg_force : bool;
  arg_year : Z;
  arg_delay : spec_float;
  arg_start_row : option Z;
  arg_end_row : option Z;
  arg_no_verify_ssl : bool
}.

(** The [__main__] block after [parser.parse_args()]. *)
Definition main (w : world) (a : args) (env : environment) (s : io) : run_result :=
  let s := if arg_mock a then log (EPrint MsgMockMode) s
           else log (EPrint (MsgDelay (arg_delay a))) s in
  let s := if arg_no_verify_ssl a then log (EPrint MsgSSLWarning) s else s in
  fetch_and_update_pagerduty_metrics w
    (arg_mock a) (arg_month a) (arg_force a) (arg_delay a)
    (arg_start_row a) (arg_end_row a) (negb (arg_no_verify_ssl a)) env s.

(* ===================================================================== *)
(** * Vocabulary of the properties                                        *)
(* ===================================================================== *)

(** What [process_row] returns once the fetch has returned [data]. *)
Definition minutes_of (data : pyval) : option spec_float :=
  match fst (extract_minutes data io0) with
  | Ok minutes_value => minutes_value
  | Raise _ => None
  end.


(** The results of the calls of [process_row] for [row], oldest first. *)
Fixpoint results_for (row : Z) (t : list event) : list (option spec_float) :=
  match t with
  | [] => []
  | EProcessed r v :: t' =>
      if r =? row then v :: results_for row t' else results_for row t'
  | _ :: t' => results_for row t'
  end.

Definition is_print (e : event) : Prop :=
  match e with EPrint _ => True | _ => False end.

Definition is_write (e : event) : Prop :=
  match e with EWrite _ _ _ => True | _ => False end.

(** The row is one the orchestrator fetches for: it has an id and,
    unless an update is forced, no value yet. *)
Definition eligible (force_update : bool) (id_col_idx month_col_idx : Z)
    (sheet : worksheet) (row : Z) : bool :=
  truthy (cell_value sheet row id_col_idx)
  && (force_update || negb (has_value (cell_value sheet row month_col_idx))).

(** What the pass of the loop for [row] may put on the trace. *)
Definition row_event_ok (row month_col_idx : Z) (window : string * string)
    (e : event) : Prop :=
  match e with
  | EPrint _ | ESleep _ => True
  | EPost r =>
      created_at_start (req_json r) = fst window
      /\ created_at_end (req_json r) = snd window
  | EProcessed r _ => r = row
  | EWrite r c _ => r = row /\ c = month_col_idx
  | ESave => False
  end.

(** The value of the month cell once the row has been dealt with. *)
Definition cell_after (results : list (option spec_float)) (before : pyval) : pyval :=
  match results with
  | [Some v] => PFloat v
  | _ => before
  end.

(** The two lines with which the loop of the orchestrator skips a row. *)
Definition is_row_skip (m : message) : bool :=
  match m with
  | MsgSkipNoId _ | MsgSkipExists _ _ _ _ _ => true
  | _ => false
  end.

(** The row for which a pass of the loop of the orchestrator left the
    event: one of the two lines that skip the row, or the mark of the call
    of [process_row] for it. *)
Definition row_of_event (e : event) : option Z :=
  match e with
  | EPrint (MsgSkipNoId row) => Some row
  | EPrint (MsgSkipExists row _ _ _ _) => Some row
  | EProcessed row _ => Some row
  | _ => None
  end.

(** The rows the loop went through, oldest first. *)
Definition rows_visited (t : list event) : list Z := omap row_of_event t.

(** Console output, sleeping and HTTP requests: what a fetch may do. *)
Definition is_fetch_io (e : event) : Prop :=
  match e with EPrint _ | ESleep _ | EPost _ => True | _ => False end.

(** The request carries the date window [window]. *)
Definition posts_window (window : string * string) (e : event) : Prop :=
  match e with
  | EPost r =>
      created_at_start (req_json r) = fst window
      /\ created_at_end (req_json r) = snd window
  | _ => True
  end.

Definition with_year (year : Z) (a : args) : args :=
  mk_args (arg_mock a) (arg_month a) (arg_force a) year (arg_delay a)
          (arg_start_row a) (arg_end_row a) (arg_no_verify_ssl a).

(** The state in which the answer to a POST is handled: the pass has
    slept for the throttle delay, printed two lines and sent the request. *)
Definition posted (url : string) (headers : list (string * string))
    (payload : payload) (delay : spec_float) (verify_ssl : bool) (s : io) : io :=
  mk_io (S (posts s)) (draws s)
        (trace s ++ [ESleep (PFloat delay); EPrint (MsgMakingRequest url);
                     EPrint (MsgRequestPayload payload);
                     EPost (mk_request url headers payload 30 verify_ssl)]).

(** Whenever [m] returns a value, the value satisfies [Q]. *)
Definition yields {A} (Q : A -> Prop) (m : M A) : Prop :=
  forall s a s', m s = (Ok a, s') -> Q a.

(** A pass that goes on has counted one more attempt. *)
Definition counts_one (retry_count : Z) (step : loop_step) : Prop :=
  match step with
  | Continue retry_count' _ => retry_count' = retry_count + 1
  | Return _ => True
  end.

(** Whenever [m] raises, the exception satisfies [Q]. *)
Definition raises_only {A} (Q : exn -> Prop) (m : M A) : Prop :=
  forall s e s', m s = (Raise e, s') -> Q e.

(** [m] only appends to the trace, and only events satisfying [P]. *)
Definition emits {A} (P : event -> Prop) (m : M A) : Prop :=
  forall s, exists t : list event,
    trace (snd (m s)) = (trace s ++ t)%list /\ Forall P t.


(* ===================================================================== *)
(** * Vocabulary of the further properties                                *)
(* ===================================================================== *)

(** The number of requests on a trace. *)
Fixpoint count_posts (t : list event) : nat :=
  match t with
  | [] => 0
  | EPost _ :: t' => S (count_posts t')
  | _ :: t' => count_posts t'
  end.

(** [m] sends at most [n] requests: it only appends to the trace, at most
    [n] of the events it appends are requests, and the counter of the
    requests sent moves by as many. *)
Definition sends_at_most {A} (n : nat) (m : M A) : Prop :=
  forall s, exists t : list event,
    trace (snd (m s)) = (trace s ++ t)%list
    /\ posts (snd (m s)) = (posts s + count_posts t)%nat
    /\ (count_posts t <= n)%nat.


(** From [s] to [s'] the trace has only grown, by events that satisfy
    [P], at most [n] of them requests, and the counter of the requests
    sent has moved by as many. *)
Definition advances (P : event -> Prop) (n : nat) (s s' : io) : Prop :=
  exists t : list event,
    trace s' = (trace s ++ t)%list
    /\ Forall P t
    /\ posts s' = (posts s + count_posts t)%nat
    /\ (count_posts t <= n)%nat.

(** Neither a request nor a pause. *)
Definition is_offline (e : event) : Prop :=
  match e with EPost _ | ESleep _ => False | _ => True end.

(** A request as the orchestrator composes it: to the analytics
    endpoint, with the four headers built from the credential, a timeout of
    30 seconds, the TLS flag of the run, and a filter of one policy id. *)
Definition well_composed (api_token : option string) (verify_ssl : bool)
    (e : event) : Prop :=
  match e with
  | EPost r =>
      req_url r = analytics_url
      /\ req_headers r = api_headers api_token
      /\ req_timeout r = 30
      /\ req_verify r = verify_ssl
      /\ length (escalation_policy_ids (req_json r)) = 1%nat
  | _ => True
  end.

(** The number of rows the loop of a run goes through: none when the
    file is missing. *)
Definition rows_in_range (env : environment) (start_row end_row : option Z) : nat :=
  match excel_file env with
  | Some sheet =>
      length (rows_of (fst (row_range start_row end_row (max_row sheet)))
                      (snd (row_range start_row end_row (max_row sheet))))
  | None => 0
  end.

(** [lo <= v <= hi] on doubles, for integers [lo] and [hi]. *)
Definition minutes_between (lo hi : Z) (v : spec_float) : bool :=
  SFleb (Float64.of_Z lo) v && SFleb v (Float64.of_Z hi).

(** What a run in simulate mode may put on the trace: no request, no
    pause, and every row it deals with gets from 2 to 120 minutes. *)
Definition is_simulated (e : event) : Prop :=
  match e with
  | EPost _ | ESleep _ => False
  | EProcessed _ v => exists x, v = Some x /\ minutes_between 2 120 x = true
  | _ => True
  end.

(** [sheet'] is [sheet] but for cells of column [column] in the rows
    [rows], each of which holds a float formatted with two decimals; the
    dimensions are those of [sheet]. *)
Definition touched_only (rows : list Z) (column : Z) (sheet sheet' : worksheet)
  : Prop :=
  max_row sheet' = max_row sheet
  /\ max_column sheet' = max_column sheet
  /\ forall r c,
      (cells sheet' !! (r, c) = cells sheet !! (r, c)
       /\ number_formats sheet' !! (r, c) = number_formats sheet !! (r, c))
      \/ (In r rows /\ c = column
          /\ (exists x, cells sheet' !! (r, c) = Some (PFloat x))
          /\ number_formats sheet' !! (r, c) = Some "0.00").






(** The same double, bit for bit (unlike [==], which equates the two
    zeros and tells a NaN from itself). *)
Definition sf_same (x y : spec_float) : bool :=
  match x, y with
  | S754_zero a, S754_zero b => Bool.eqb a b
  | S754_infinity a, S754_infinity b => Bool.eqb a b
  | S754_nan, S754_nan => true
  | S754_finite s m e, S754_finite s' m' e' =>
      Bool.eqb s s' && Pos.eqb m m' && Z.eqb e e'
  | _, _ => false
  end.



(* ===================================================================== *)
(** * Properties of the TimeConverter                                     *)
(* ===================================================================== *)

Lemma seconds_to_minutes_not_none (x : pyval) :
  x <> PNone -> seconds_to_minutes x = toMinutes_spec (Some x).
Proof.
  intros Hx. unfold seconds_to_minutes, toMinutes_spec.
  destruct x; simpl; try reflexivity. congruence.
Qed.

(** C10. [seconds_to_minutes] propagates [None]; 120 seconds are 2.00
    minutes and 90 seconds are 1.50 minutes, whether given as [int] or as
    [float]; and for every other argument the result is
    [round(seconds / 60, 2)], as the specification words it. *)
Theorem seconds_to_minutes_rounds (x : pyval) (Hx : x <> PNone) :
  seconds_to_minutes PNone = Ok None
  /\ seconds_to_minutes (PInt 120) = Ok (Some (hundredths_literal 200))
  /\ seconds_to_minutes (PInt 90) = Ok (Some (hundredths_literal 150))
  /\ seconds_to_minutes (PFloat (Float64.of_Z 120)) = Ok (Some (hundredths_literal 200))
  /\ seconds_to_minutes (PFloat (Float64.of_Z 90)) = Ok (Some (hundredths_literal 150))
  /\ seconds_to_minutes x = toMinutes_spec (Some x)
  /\ seconds_to_minutes x =
       match truediv_60 x with
       | Ok q => Ok (Some (Float64.round2 q))
       | Raise e => Raise e
       end.
Proof.
  split; [reflexivity |].
  do 4 (split; [vm_compute; reflexivity |]).
  split.
  - now apply seconds_to_minutes_not_none.
  - now rewrite seconds_to_minutes_not_none.
Qed.

Lemma seconds_to_minutes_rounds_witness :
  PInt 100 <> PNone
  /\ seconds_to_minutes (PInt 100) = Ok (Some (hundredths_literal 167)).
Proof.
  split; [discriminate |].
  destruct (seconds_to_minutes_rounds (PInt 100)) as (_ & _ & _ & _ & _ & _ & H);
    [discriminate |].
  rewrite H. vm_compute. reflexivity.
Defined.

(* ===================================================================== *)
(** * Properties of the DateRangeResolver                                 *)
(* ===================================================================== *)

Lemma isleap_std (year : Z) : isleap year = leap_year_std year.
Proof.
  unfold isleap, leap_year_std.
  destruct (Z.eqb_spec (year mod 400) 0), (Z.eqb_spec (year mod 100) 0),
    (Z.eqb_spec (year mod 4) 0); simpl; try reflexivity; exfalso;
    Z.div_mod_to_equations; lia.
Qed.

Ltac month_cases m :=
  let Hc := fresh "Hc" in
  assert (Hc : m = 1 \/ m = 2 \/ m = 3 \/ m = 4 \/ m = 5 \/ m = 6 \/ m = 7
               \/ m = 8 \/ m = 9 \/ m = 10 \/ m = 11 \/ m = 12) by lia;
  decompose [or] Hc; clear Hc; subst m.

Lemma month_map_range (name : string) (m : Z) :
  month_map !! name = Some m -> 1 <= m <= 12.
Proof.
  intros H. unfold month_map in H.
  apply elem_of_list_to_map_2 in H.
  repeat (apply elem_of_cons in H as [H | H]; [injection H as -> ->; lia |]).
  now apply elem_of_nil in H.
Qed.

Lemma monthrange_std (year m : Z) :
  1 <= m <= 12 -> monthrange_ndays year m = Ok (days_in_month_std year m).
Proof.
  intros H. unfold monthrange_ndays. month_cases m; cbn;
    rewrite ?isleap_std; try destruct (leap_year_std year); reflexivity.
Qed.

Lemma days_in_month_bounds (year m : Z) :
  1 <= m <= 12 -> 28 <= days_in_month_std year m <= 31.
Proof.
  intros H. month_cases m; cbn; try destruct (leap_year_std year); lia.
Qed.

Lemma new_datetime_ok (year m d H Mi S : Z) :
  1 <= year <= 9999 -> 1 <= m <= 12 ->
  1 <= d <= days_in_month_std year m ->
  0 <= H <= 23 -> 0 <= Mi <= 59 -> 0 <= S <= 59 ->
  new_datetime year m d H Mi S = Ok (mk_datetime year m d H Mi S).
Proof.
  intros Hy Hm Hd HH HM HS. unfold new_datetime.
  pose proof (days_in_month_bounds year m Hm) as Hb.
  replace (forallb fits_c_int [year; m; d; H; Mi; S]) with true
    by (symmetry; cbn [forallb]; unfold fits_c_int;
        rewrite !andb_true_iff; repeat split; lia).
  cbn [negb].
  rewrite (monthrange_std year m Hm).
  assert (Em : in_range 1 m 12 = true) by (apply andb_true_iff; lia).
  unfold in_range in *. unfold MINYEAR, MAXYEAR.
  replace ((1 <=? year) && (year <=? 9999)) with true by (symmetry; apply andb_true_iff; lia).
  rewrite Em.
  replace ((1 <=? d) && (d <=? days_in_month_std year m)) with true
    by (symmetry; apply andb_true_iff; lia).
  replace ((0 <=? H) && (H <=? 23)) with true by (symmetry; apply andb_true_iff; lia).
  replace ((0 <=? Mi) && (Mi <=? 59)) with true by (symmetry; apply andb_true_iff; lia).
  replace ((0 <=? S) && (S <=? 59)) with true by (symmetry; apply andb_true_iff; lia).
  reflexivity.
Qed.

Lemma date_range_of_month_num (name : string) (year m : Z) :
  month_num_of name = m -> 1 <= m <= 12 -> 1 <= year <= 9999 ->
  first_day_of year m = Ok (mk_datetime year m 1 0 0 0)
  /\ last_day_of year m
     = Ok (mk_datetime year m (days_in_month_std year m) 23 59 59)
  /\ get_date_range_for_month name year
     = Ok (decimal year ++ "-" ++ pad2 m ++ "-01T00:00:00.000000Z",
           decimal year ++ "-" ++ pad2 m ++ "-"
             ++ pad2 (days_in_month_std year m) ++ "T00:00:00.000000Z")%string.
Proof.
  intros Hn Hm Hy.
  pose proof (days_in_month_bounds year m Hm) as Hb.
  assert (E1 : first_day_of year m = Ok (mk_datetime year m 1 0 0 0)).
  { unfold first_day_of. apply new_datetime_ok; auto; lia. }
  assert (E2 : last_day_of year m
               = Ok (mk_datetime year m (days_in_month_std year m) 23 59 59)).
  { unfold last_day_of. rewrite (monthrange_std year m Hm).
    apply new_datetime_ok; auto; lia. }
  repeat split; auto.
  unfold get_date_range_for_month. rewrite Hn, E1, E2.
  unfold strftime_midnight. reflexivity.
Qed.

(** C4. For a recognised month code and a year that [datetime] accepts,
    the start of the window is the first day of the month at 00:00:00.000000
    and the end is the last day of the month by the usual calendar rule,
    29 for February 2024; the last day is built with the time 23:59:59 but
    rendered, like the first, with a literal midnight. *)
Theorem month_window_first_to_last_midnight (name : string) (m year : Z)
    (Hname : month_map !! name = Some m) (Hyear : 1 <= year <= 9999) :
  first_day_of year m = Ok (mk_datetime year m 1 0 0 0)
  /\ last_day_of year m
     = Ok (mk_datetime year m (days_in_month_std year m) 23 59 59)
  /\ get_date_range_for_month name year
     = Ok (decimal year ++ "-" ++ pad2 m ++ "-01T00:00:00.000000Z",
           decimal year ++ "-" ++ pad2 m ++ "-"
             ++ pad2 (days_in_month_std year m) ++ "T00:00:00.000000Z")%string
  /\ days_in_month_std 2024 2 = 29
  /\ get_date_range_for_month "Feb" 2024
     = Ok ("2024-02-01T00:00:00.000000Z", "2024-02-29T00:00:00.000000Z").
Proof.
  pose proof (month_map_range name m Hname) as Hm.
  assert (Hn : month_num_of name = m) by (unfold month_num_of; now rewrite Hname).
  destruct (date_range_of_month_num name year m Hn Hm Hyear) as (E1 & E2 & E3).
  repeat split; auto.
Qed.

Lemma month_window_first_to_last_midnight_witness :
  get_date_range_for_month "Feb" 2025
  = Ok ("2025-02-01T00:00:00.000000Z", "2025-02-28T00:00:00.000000Z").
Proof.
  destruct (month_window_first_to_last_midnight "Feb" 2 2025) as (_ & _ & H & _).
  - reflexivity.
  - lia.
  - rewrite H. reflexivity.
Defined.

(** C9. A month code outside the twelve recognised ones does not make
    the function fail: for a year that [datetime] accepts the result is
    the window of January of that year. *)
Theorem unknown_month_defaults_to_january (name : string) (year : Z)
    (Hname : month_map !! name = None) (Hyear : 1 <= year <= 9999) :
  get_date_range_for_month name year = get_date_range_for_month "Jan" year
  /\ get_date_range_for_month name year
     = Ok (decimal year ++ "-01-01T00:00:00.000000Z",
           decimal year ++ "-01-31T00:00:00.000000Z")%string.
Proof.
  assert (Hn : month_num_of name = 1) by (unfold month_num_of; now rewrite Hname).
  assert (Hm : 1 <= 1 <= 12) by lia.
  destruct (date_range_of_month_num name year 1 Hn Hm Hyear) as (_ & _ & E).
  destruct (date_range_of_month_num "Jan" year 1 eq_refl Hm Hyear) as (_ & _ & E').
  split; [congruence |]. rewrite E. reflexivity.
Qed.

Lemma unknown_month_defaults_to_january_witness :
  get_date_range_for_month "jan" 2025
  = Ok ("2025-01-01T00:00:00.000000Z", "2025-01-31T00:00:00.000000Z")
  /\ get_date_range_for_month "Smarch" 2025 = get_date_range_for_month "Jan" 2025.
Proof.
  split.
  - destruct (unknown_month_defaults_to_january "jan" 2025) as (_ & H);
      [reflexivity | lia |].
    rewrite H. reflexivity.
  - apply (unknown_month_defaults_to_january "Smarch" 2025); [reflexivity | lia].
Defined.

(** The window the orchestrator asks for never fails to be computed, and
    both of its ends are dates of 2025. *)
Lemma window_2025_total (month : string) :
  exists rest1 rest2 : string,
    get_date_range_for_month month 2025
    = Ok ("2025-" ++ rest1, "2025-" ++ rest2)%string.
Proof.
  assert (Hy : 1 <= 2025 <= 9999) by lia.
  assert (Hm : 1 <= month_num_of month <= 12).
  { unfold month_num_of. destruct (month_map !! month) as [m |] eqn:E.
    - now apply (month_map_range month).
    - cbn. lia. }
  destruct (date_range_of_month_num month 2025 _ eq_refl Hm Hy) as (_ & _ & H).
  change (decimal 2025) with "2025" in H.
  do 2 eexists. rewrite H. reflexivity.
Qed.

(* ===================================================================== *)
(** * The simulated fetch                                                 *)
(* ===================================================================== *)

Lemma randint_bounds (w : world) (a b : Z) (s : io) :
  a <= b ->
  exists n, randint w a b s = (Ok n, mk_io (posts s) (S (draws s)) (trace s))
            /\ a <= n <= b.
Proof.
  intros Hab. unfold randint, bind, draw, ret.
  eexists. split; [reflexivity |].
  pose proof (Z.mod_pos_bound (Z.of_N (random_bits w (draws s))) (b - a + 1)).
  lia.
Qed.

(** C6. In simulate mode the fetch returns, without raising, a response
    whose [data[0]] has [mean_seconds_to_first_ack] in 120..7200 and
    [total_incident_count] in 5..20; it sends no request and does not
    sleep: it prints one line and draws two random numbers. *)
Theorem mock_fetch_in_range (w : world) (url : string)
    (headers : list (string * string)) (payload : payload)
    (delay : spec_float) (verify_ssl : bool) (s : io) :
  exists (data items first : pyval) (mean_seconds total : Z),
    make_api_request w url headers payload delay verify_ssl true s
    = (Ok data, mk_io (posts s) (S (S (draws s))) (trace s ++ [EPrint MsgUsingMock]))
    /\ py_getitem_str data "data" = Ok items
    /\ py_getitem_0 items = Ok first
    /\ py_get first "mean_seconds_to_first_ack" = Ok (PInt mean_seconds)
    /\ py_get first "total_incident_count" = Ok (PInt total)
    /\ 120 <= mean_seconds <= 7200
    /\ 5 <= total <= 20.
Proof.
  unfold make_api_request, print, emit.
  set (s1 := log (EPrint MsgUsingMock) s).
  destruct (randint_bounds w 120 7200 s1) as (ms & E1 & B1); [lia |].
  set (s2 := mk_io (posts s1) (S (draws s1)) (trace s1)) in *.
  destruct (randint_bounds w 5 20 s2) as (tic & E2 & B2); [lia |].
  exists (mock_response ms tic), (PList [PDict [("mean_seconds_to_first_ack", PInt ms);
                                            ("total_incident_count", PInt tic)]]),
    (PDict [("mean_seconds_to_first_ack", PInt ms); ("total_incident_count", PInt tic)]),
    ms, tic.
  split.
  - unfold bind at 1. fold s1. unfold bind at 1. rewrite E1. fold s2.
    unfold bind at 1. rewrite E2. reflexivity.
  - repeat split; try reflexivity; lia.
Qed.

(* ===================================================================== *)
(** * The row range                                                       *)
(* ===================================================================== *)

(** The two [if]s on the bounds, as one expression: a bound that is 0
    is falsy and counts as not given. *)
Lemma row_range_eq (start_row end_row : option Z) (sheet_max_row : Z) :
  row_range start_row end_row sheet_max_row
  = (Z.max 2 (default 2 start_row),
     match end_row with
     | Some r => if r =? 0 then sheet_max_row else Z.min sheet_max_row r
     | None => sheet_max_row
     end).
Proof.
  unfold row_range.
  destruct start_row as [a |], end_row as [b |]; cbn [default];
    repeat match goal with
           | |- context [?x =? ?y] => destruct (Z.eqb_spec x y)
           | |- context [?x >? ?y] => destruct (Z.gtb_spec x y)
           | |- context [?x <? ?y] => destruct (Z.ltb_spec x y)
           end; cbn [negb andb]; cbv zeta; f_equal; unfold id; lia.
Qed.

(* ===================================================================== *)
(** * What a fetch can do to the trace                                    *)
(* ===================================================================== *)

Local Open Scope list_scope.

Section Emits.

Variable P : event -> Prop.

Lemma emits_ret {A} (a : A) : emits P (ret a).
Proof. intros s. exists []. cbn. rewrite app_nil_r. auto. Qed.

Lemma emits_raise {A} (e : exn) : emits P (@raise A e).
Proof. intros s. exists []. cbn. rewrite app_nil_r. auto. Qed.

Lemma emits_lift {A} (r : res A) : emits P (lift r).
Proof. intros s. exists []. cbn. rewrite app_nil_r. auto. Qed.

Lemma emits_emit (e : event) : P e -> emits P (emit e).
Proof. intros He s. exists [e]. cbn. auto. Qed.

Lemma emits_print (m : message) : P (EPrint m) -> emits P (print m).
Proof. apply emits_emit. Qed.

Lemma emits_sleep (secs : pyval) : P (ESleep secs) -> emits P (sleep secs).
Proof.
  intros He s. unfold sleep. destruct (check_sleep secs).
  - exists [ESleep secs]. cbn. auto.
  - exists []. cbn. rewrite app_nil_r. auto.
Qed.

Lemma emits_bind {A B} (m : M A) (k : A -> M B) :
  emits P m -> (forall a, emits P (k a)) -> emits P (bind m k).
Proof.
  intros Hm Hk s. unfold bind. destruct (Hm s) as (t1 & E1 & F1).
  destruct (m s) as [[a | e] s1]; cbn in E1.
  - destruct (Hk a s1) as (t2 & E2 & F2). exists (t1 ++ t2). split.
    + rewrite E2, E1. now rewrite app_assoc.
    + now apply Forall_app.
  - exists t1. auto.
Qed.

Lemma emits_try_catch {A} (body : M A) (handler : exn -> M A) :
  emits P body -> (forall e, emits P (handler e)) -> emits P (try_catch body handler).
Proof.
  intros Hm Hk s. unfold try_catch. destruct (Hm s) as (t1 & E1 & F1).
  destruct (body s) as [[a | e] s1]; cbn in E1.
  - exists t1. auto.
  - destruct (Hk e s1) as (t2 & E2 & F2). exists (t1 ++ t2). split.
    + rewrite E2, E1. now rewrite app_assoc.
    + now apply Forall_app.
Qed.

Lemma emits_draw (w : world) : emits P (draw w).
Proof. intros s. exists []. cbn. rewrite app_nil_r. auto. Qed.

Lemma emits_randint (w : world) (a b : Z) : emits P (randint w a b).
Proof. apply emits_bind; [apply emits_draw | intros; apply emits_ret]. Qed.

Lemma emits_random (w : world) : emits P (random w).
Proof. apply emits_bind; [apply emits_draw | intros; apply emits_ret]. Qed.

Lemma emits_uniform (w : world) (a b : Z) : emits P (uniform w a b).
Proof.
  apply emits_bind; [apply emits_random | intros r].
  apply emits_bind; [apply emits_lift | intros x; apply emits_lift].
Qed.

Lemma emits_post (w : world) (r : request) : P (EPost r) -> emits P (post w r).
Proof.
  intros He s. exists [EPost r]. unfold post.
  destruct (http w (posts s) r); cbn; auto.
Qed.

End Emits.

Ltac emits_step :=
  lazymatch goal with
  | |- emits _ (bind _ _) => apply emits_bind; [| intros ?]
  | |- emits _ (try_catch _ _) => apply emits_try_catch; [| intros ?]
  | |- emits _ (ret _) => apply emits_ret
  | |- emits _ (raise _) => apply emits_raise
  | |- emits _ (lift _) => apply emits_lift
  | |- emits _ (print _) => apply emits_print; auto
  | |- emits _ (emit _) => apply emits_emit; auto
  | |- emits _ (sleep _) => apply emits_sleep; auto
  | |- emits _ (post _ _) => apply emits_post; auto
  | |- emits _ (uniform _ _ _) => apply emits_uniform
  | |- emits _ (randint _ _ _) => apply emits_randint
  | |- emits _ (if ?b then _ else _) => destruct b
  | |- emits _ (match ?x with _ => _ end) => destruct x
  end.

Section FetchEmits.

Variable P : event -> Prop.
Variable w : world.
Variables (url : string) (headers : list (string * string)) (payload : payload).
Variables (delay : spec_float) (verify_ssl : bool).

Hypothesis P_print : forall m, is_row_skip m = false -> P (EPrint m).
Hypothesis P_sleep : forall q, P (ESleep q).
Hypothesis P_post : P (EPost (mk_request url headers payload 30 verify_ssl)).

Lemma emits_try_body (rc rd : Z) :
  emits P (try_body w url headers payload delay verify_ssl rc rd).
Proof.
  unfold try_body, on_response, raise_for_status, response_json.
  repeat emits_step.
Qed.

Lemma emits_handlers (rc rd : Z) (e : exn) :
  emits P (handlers w rc rd e).
Proof. unfold handlers. repeat emits_step. Qed.

Lemma emits_retry_loop (fuel : nat) :
  forall rc rd, emits P (retry_loop w url headers payload delay verify_ssl fuel rc rd).
Proof.
  induction fuel as [| fuel IH]; intros rc rd; cbn [retry_loop].
  - repeat emits_step.
  - destruct (rc <? max_retries); [| apply emits_raise].
    apply emits_bind.
    + unfold pass.
      apply emits_try_catch; [apply emits_try_body | apply emits_handlers].
    + intros [data | rc' rd']; [apply emits_ret | apply IH].
Qed.

Lemma emits_make_api_request (mock_api : bool) :
  emits P (make_api_request w url headers payload delay verify_ssl mock_api).
Proof.
  unfold make_api_request. destruct mock_api.
  - repeat emits_step.
  - apply emits_retry_loop.
Qed.

Lemma emits_extract_minutes (data : pyval) : emits P (extract_minutes data).
Proof. unfold extract_minutes. repeat emits_step. Qed.

Lemma process_row_emits (row : Z) (id_value name : pyval) (mc : Z)
    (mock_api : bool) (s : io) :
  exists t : list event,
    trace (snd (process_row w row id_value name mc url headers payload
                            mock_api delay verify_ssl s))
    = (trace s ++ t)%list
    /\ Forall P t.
Proof.
  unfold process_row.
  assert (H : emits P (bind (make_api_request w url headers payload delay verify_ssl mock_api)
                            (fun data => extract_minutes data))).
  { apply emits_bind; [apply emits_make_api_request | intros; apply emits_extract_minutes]. }
  destruct (H s) as (t & E & F).
  destruct (bind _ _ s) as [[v | e] s1]; cbn in E |- *.
  - eauto.
  - exists (t ++ [EPrint (MsgRowError e); EPrint MsgTraceback]). split.
    + rewrite E. now rewrite <- !app_assoc.
    + apply Forall_app. split; auto.
Qed.

End FetchEmits.

(* ===================================================================== *)
(** * Concrete worlds and sheets for the examples                         *)
(* ===================================================================== *)

Definition ok_response (mean_seconds : Z) : response :=
  mk_response 200 None (Some (mock_response mean_seconds 7)).

(** Six connection errors, then a 200 whose mean is 120 seconds. *)
Definition world_six_errors : world :=
  mk_world (fun n _ => if (n <? 6)%nat then PostRaises ConnectionError
                       else PostResponse (ok_response 120))
           (fun _ => 0%N).

(** The network is down for good. *)
Definition world_down : world :=
  mk_world (fun _ _ => PostRaises ConnectionError) (fun _ => 0%N).

(** Every answer is a 429 without a [Retry-After] header. *)
Definition world_429 : world :=
  mk_world (fun _ _ => PostResponse (mk_response 429 None None)) (fun _ => 0%N).

(** Every answer is a 429 whose [Retry-After] is an HTTP date, the other
    form the header may take. *)
Definition world_429_date : world :=
  mk_world (fun _ _ => PostResponse
                         (mk_response 429 (Some "Wed, 21 Oct 2015 07:28:00 GMT") None))
           (fun _ => 0%N).

Definition example_payload : payload :=
  mk_payload [PStr "P1"] "2025-01-01T00:00:00.000000Z" "2025-01-31T00:00:00.000000Z".

(** A sheet with the columns name, id, Jan: row 2 already has a value,
    row 3 has none, row 4 has no id, row 5 has an empty string. *)
Definition example_sheet : worksheet :=
  mk_worksheet
    (list_to_map
       [((1, 1), PStr "name"); ((1, 2), PStr "id"); ((1, 3), PStr "Jan");
        ((2, 1), PStr "Alpha"); ((2, 2), PStr "P1"); ((2, 3), PFloat (hundredths_literal 450));
        ((3, 1), PStr "Bravo"); ((3, 2), PStr "P2");
        ((4, 1), PStr "Charlie");
        ((5, 1), PStr "Delta"); ((5, 2), PStr "P4"); ((5, 3), PStr "")])
    ∅ 5 3.

Definition example_env : environment :=
  mk_environment (Some example_sheet) (Some "u+Abcdefgh").

(** A sheet without a Jan column. *)
Definition sheet_without_month : worksheet :=
  mk_worksheet
    (list_to_map
       [((1, 1), PStr "name"); ((1, 2), PStr "id");
        ((2, 1), PStr "Alpha"); ((2, 2), PStr "P1")])
    ∅ 2 2.

(** A sheet of 100 rows: the header row, and a policy in row 5. *)
Definition sheet_100_rows : worksheet :=
  mk_worksheet
    (list_to_map
       [((1, 1), PStr "name"); ((1, 2), PStr "id"); ((1, 3), PStr "Jan");
        ((5, 1), PStr "Echo"); ((5, 2), PStr "P5")])
    ∅ 100 3.

(** A sheet with neither an id column nor a Jan column. *)
Definition sheet_without_id : worksheet :=
  mk_worksheet
    (list_to_map
       [((1, 1), PStr "name"); ((1, 2), PStr "policy");
        ((2, 1), PStr "Alpha"); ((2, 2), PStr "P1")])
    ∅ 2 2.

(* ===================================================================== *)
(** * How large the result of a binary64 operation can be                 *)
(* ===================================================================== *)





Lemma Zdigits2_nonneg (m : Z) : 0 <= Zdigits2 m.
Proof. destruct m; cbn; lia. Qed.















(* ===================================================================== *)
(** * The lengths [time.sleep] accepts                                    *)
(* ===================================================================== *)

Lemma sleep_ok (secs : pyval) (s : io) :
  check_sleep secs = Ok tt -> sleep secs s = (Ok tt, log (ESleep secs) s).
Proof. intros H. unfold sleep. now rewrite H. Qed.



Section Jitter.

Variable w : world.

Local Open Scope io_scope.







End Jitter.

(* ===================================================================== *)
(** * One pass of the retry loop                                          *)
(* ===================================================================== *)

Section Pass.

Variable w : world.
Variables (url : string) (headers : list (string * string)) (payload : payload).
Variables (delay : spec_float) (verify_ssl : bool).
Hypothesis delay_ok : check_sleep (PFloat delay) = Ok tt.

Local Abbreviation req := (mk_request url headers payload 30 verify_ssl).

Local Abbreviation after_post := (posted url headers payload delay verify_ssl).

Lemma pass_unfold (rc rd : Z) (s : io) :
  pass w url headers payload delay verify_ssl rc rd s
  = match http w (posts s) req with
    | PostRaises e => handlers w rc rd e (after_post s)
    | PostResponse r =>
        try_catch (on_response r rc rd) (handlers w rc rd) (after_post s)
    end.
Proof.
  unfold pass, try_catch, try_body.
  unfold bind at 1. rewrite (sleep_ok _ _ delay_ok).
  unfold bind at 1. unfold print at 1, emit at 1.
  unfold bind at 1. unfold print at 1, emit at 1.
  unfold bind at 1. unfold post. cbn [posts log draws trace].
  unfold posted. rewrite <- !app_assoc. cbn [app].
  destruct (http w (posts s) req) as [e | r]; reflexivity.
Qed.










End Pass.

(* ===================================================================== *)
(** * The loop bound of the model is never reached                        *)
(* ===================================================================== *)

Section Yields.

Context {A : Type} (Q : A -> Prop).

Lemma yields_ret (a : A) : Q a -> yields Q (ret a).
Proof. intros H s a' s' E. injection E as <- _. exact H. Qed.

Lemma yields_raise (e : exn) : yields Q (raise e).
Proof. intros s a s' E. discriminate E. Qed.

Lemma yields_bind {B} (m : M B) (k : B -> M A) :
  (forall b, yields Q (k b)) -> yields Q (bind m k).
Proof.
  intros Hk s a s' E. unfold bind in E.
  destruct (m s) as [[b | e] s1]; [| discriminate E].
  exact (Hk b s1 a s' E).
Qed.

Lemma yields_try_catch (body : M A) (handler : exn -> M A) :
  yields Q body -> (forall e, yields Q (handler e)) ->
  yields Q (try_catch body handler).
Proof.
  intros Hb Hh s a s' E. unfold try_catch in E.
  destruct (body s) as [[b | e] s1] eqn:Eb.
  - injection E as <- <-. exact (Hb s b s1 Eb).
  - exact (Hh e s1 a s' E).
Qed.

End Yields.

Ltac yields_step :=
  lazymatch goal with
  | |- yields _ (bind _ _) => apply yields_bind; intros ?
  | |- yields _ (ret _) => apply yields_ret; cbn; auto
  | |- yields _ (raise _) => apply yields_raise
  | |- yields _ (if ?b then _ else _) => destruct b
  | |- yields _ (match ?x with _ => _ end) => destruct x
  end.

Section Fuel.

Variable w : world.
Variables (url : string) (headers : list (string * string)) (payload : payload).
Variables (delay : spec_float) (verify_ssl : bool).

(** Whatever happens in a pass, going on means one more on the counter. *)
Lemma pass_counts_one (rc rd : Z) :
  yields (counts_one rc) (pass w url headers payload delay verify_ssl rc rd).
Proof.
  unfold pass. apply yields_try_catch.
  - unfold try_body, on_response. repeat yields_step.
  - intros e. unfold handlers. repeat yields_step.
Qed.

(** Seven units of fuel are enough: more fuel changes nothing. *)
Lemma retry_loop_fuel (fuel : nat) :
  forall (extra : nat) (rc rd : Z) (s : io),
    max_retries - rc <= Z.of_nat fuel ->
    retry_loop w url headers payload delay verify_ssl (fuel + extra) rc rd s
    = retry_loop w url headers payload delay verify_ssl fuel rc rd s.
Proof.
  induction fuel as [| fuel IH]; intros extra rc rd s Hrc.
  - assert (E : (rc <? max_retries) = false) by lia.
    destruct extra; cbn [retry_loop Nat.add]; rewrite E; reflexivity.
  - cbn [retry_loop Nat.add]. destruct (rc <? max_retries) eqn:E; [| reflexivity].
    unfold bind.
    destruct (pass w url headers payload delay verify_ssl rc rd s)
      as [[[data | rc' rd'] | e] s1] eqn:Ep; try reflexivity.
    apply IH. apply pass_counts_one in Ep. cbn in Ep. lia.
Qed.

(** [make_api_request] with any larger loop bound is the same function:
    the bound is never what ends the loop. *)
Lemma make_api_request_fuel (extra : nat) (s : io) :
  retry_loop w url headers payload delay verify_ssl
             (Z.to_nat max_retries + extra) 0 3 s
  = make_api_request w url headers payload delay verify_ssl false s.
Proof. unfold make_api_request. apply retry_loop_fuel. cbn. lia. Qed.

End Fuel.

(** ** The bound of the model is not an outcome *)

Section RaisesOnly.

Context {A : Type} (Q : exn -> Prop).

Lemma raises_ret (a : A) : raises_only Q (ret a).
Proof. intros s e s' E. discriminate E. Qed.

Lemma raises_raise (e : exn) : Q e -> raises_only Q (@raise A e).
Proof. intros H s e' s' E. injection E as <- _. exact H. Qed.

Lemma raises_lift (r : res A) :
  (forall e, r = Raise e -> Q e) -> raises_only Q (lift r).
Proof. intros H s e s' E. injection E as -> _. now apply H. Qed.

Lemma raises_bind {B} (m : M B) (k : B -> M A) :
  raises_only Q m -> (forall b, raises_only Q (k b)) -> raises_only Q (bind m k).
Proof.
  intros Hm Hk s e s' E. unfold bind in E.
  destruct (m s) as [[b | e0] s1] eqn:Em.
  - exact (Hk b s1 e s' E).
  - injection E as <- <-. exact (Hm s e0 s1 Em).
Qed.

Lemma raises_try_catch (body : M A) (handler : exn -> M A) :
  raises_only Q body -> (forall e, Q e -> raises_only Q (handler e)) ->
  raises_only Q (try_catch body handler).
Proof.
  intros Hb Hh s e s' E. unfold try_catch in E.
  destruct (body s) as [[b | e0] s1] eqn:Eb; [discriminate E |].
  exact (Hh e0 (Hb s e0 s1 Eb) s1 e s' E).
Qed.

End RaisesOnly.

Section WithinFuel.

Variable w : world.
Variables (url : string) (headers : list (string * string)) (payload : payload).
Variables (delay : spec_float) (verify_ssl : bool).

Local Abbreviation in_python e := (e <> OutOfFuel).

Hypothesis world_in_python : forall n rq e, http w n rq = PostRaises e -> in_python e.

Lemma raises_emit (e : event) : raises_only (fun e => in_python e) (emit e).
Proof. intros s e' s' E. discriminate E. Qed.

Lemma check_sleep_in_python (secs : pyval) (e : exn) :
  check_sleep secs = Raise e -> in_python e.
Proof.
  unfold check_sleep. intros E.
  repeat match type of E with
         | (if ?b then _ else _) = _ => destruct b
         | match ?x with _ => _ end = _ => destruct x
         end;
    first [discriminate E | injection E as <-; discriminate].
Qed.

Lemma raises_sleep (secs : pyval) : raises_only (fun e => in_python e) (sleep secs).
Proof.
  intros s e s' E. unfold sleep in E.
  destruct (check_sleep secs) eqn:Ec; [discriminate E |].
  injection E as <- _. exact (check_sleep_in_python _ _ Ec).
Qed.

Lemma of_int_in_python (z : Z) (e : exn) :
  Float64.of_int z = Raise e -> in_python e.
Proof.
  unfold Float64.of_int. destruct (Float64.is_finite _); intros E;
    [discriminate E | injection E as <-; discriminate].
Qed.

Lemma raises_int_add (a : Z) (f : spec_float) :
  raises_only (fun e => in_python e) (lift (Float64.int_add a f)).
Proof.
  apply raises_lift. intros e. unfold Float64.int_add.
  destruct (Float64.of_int a) eqn:E; [discriminate |].
  intros [= <-]. exact (of_int_in_python _ _ E).
Qed.

Lemma raises_int_mul (a : Z) (f : spec_float) :
  raises_only (fun e => in_python e) (lift (Float64.int_mul a f)).
Proof.
  apply raises_lift. intros e. unfold Float64.int_mul.
  destruct (Float64.of_int a) eqn:E; [discriminate |].
  intros [= <-]. exact (of_int_in_python _ _ E).
Qed.

Lemma raises_uniform (a b : Z) : raises_only (fun e => in_python e) (uniform w a b).
Proof.
  unfold uniform. apply raises_bind.
  - intros s e s' E. discriminate E.
  - intros r. apply raises_bind; [apply raises_int_mul | intros x; apply raises_int_add].
Qed.

Lemma raises_post (rq : request) : raises_only (fun e => in_python e) (post w rq).
Proof.
  intros s e s' E. unfold post in E.
  destruct (http w (posts s) rq) as [e0 | r] eqn:Eh; [| discriminate E].
  injection E as <- _. exact (world_in_python _ _ _ Eh).
Qed.

Lemma int_of_str_in_python (h : string) (e : exn) :
  int_of_str h = Raise e -> in_python e.
Proof.
  unfold int_of_str. intros E.
  repeat match type of E with
         | (if ?b then _ else _) = _ => destruct b
         | (let '(_, _) := ?x in _) = _ => destruct x
         | match ?x with _ => _ end = _ => destruct x
         end;
    first [discriminate E | injection E as <-; discriminate].
Qed.

Lemma pass_in_python (rc rd : Z) :
  raises_only (fun e => in_python e) (pass w url headers payload delay verify_ssl rc rd).
Proof.
  unfold pass. apply raises_try_catch.
  - unfold try_body.
    apply raises_bind; [apply raises_sleep | intros _].
    apply raises_bind; [apply raises_emit | intros _].
    apply raises_bind; [apply raises_emit | intros _].
    apply raises_bind; [apply raises_post | intros r].
    unfold on_response, raise_for_status, response_json, retry_after_of.
    destruct (status_code r =? 429).
    + apply raises_bind.
      * apply raises_lift. destruct (retry_after_header r); [| discriminate].
        apply int_of_str_in_python.
      * intros ra. apply raises_bind; [apply raises_emit | intros _].
        apply raises_bind; [apply raises_sleep | intros _]. apply raises_ret.
    + apply raises_bind.
      * destruct (negb _); [| apply raises_ret].
        repeat (apply raises_bind; [apply raises_emit | intros _]). apply raises_emit.
      * intros _. apply raises_bind.
        -- destruct (_ && _); [apply raises_raise; discriminate | apply raises_ret].
        -- intros _. apply raises_bind; [| intros; apply raises_ret].
           destruct (json_body r); [apply raises_ret | apply raises_raise; discriminate].
  - intros e He. unfold handlers.
    destruct e; cbn [is_request_exception];
      try (apply raises_raise; exact He);
      try (apply raises_bind; [apply raises_emit | intros _]);
      destruct (_ >=? _);
      repeat first [ apply raises_raise; first [exact He | discriminate]
                   | apply raises_ret
                   | apply raises_bind; [first [apply raises_emit | apply raises_sleep
                                               | apply raises_uniform
                                               | apply raises_int_add] | intros ?] ].
Qed.

(** With the seven units of fuel it is given, the loop never ends for
    want of fuel. *)
Lemma retry_loop_within_fuel (fuel : nat) :
  forall (rc rd : Z),
    max_retries - rc <= Z.of_nat fuel ->
    raises_only (fun e => in_python e)
                (retry_loop w url headers payload delay verify_ssl fuel rc rd).
Proof.
  induction fuel as [| fuel IH]; intros rc rd Hrc s e s' E; cbn [retry_loop] in E.
  - assert (Ef : (rc <? max_retries) = false) by lia. rewrite Ef in E.
    injection E as <- _. discriminate.
  - destruct (rc <? max_retries) eqn:Ef; [| injection E as <- _; discriminate].
    unfold bind in E.
    destruct (pass w url headers payload delay verify_ssl rc rd s)
      as [[[data | rc' rd'] | e0] s1] eqn:Ep.
    + discriminate E.
    + apply pass_counts_one in Ep. cbn in Ep.
      apply (IH rc' rd' ltac:(lia) s1 e s' E).
    + injection E as <- <-. exact (pass_in_python rc rd s e0 s1 Ep).
Qed.

Lemma fetch_within_fuel (mock_api : bool) :
  raises_only (fun e => in_python e)
              (make_api_request w url headers payload delay verify_ssl mock_api).
Proof.
  unfold make_api_request. destruct mock_api.
  - intros s e s' E. discriminate E.
  - apply retry_loop_within_fuel. cbn. lia.
Qed.

End WithinFuel.

(* ===================================================================== *)
(** * The row processor on top of the fetch                               *)
(* ===================================================================== *)

Lemma extract_minutes_value (data : pyval) (s : io) :
  fst (extract_minutes data s) = fst (extract_minutes data io0).
Proof.
  unfold extract_minutes. cbv [bind lift print emit ret].
  destruct (py_contains "data" data) as [[|] | e];
    repeat match goal with
           | |- _ => reflexivity
           | |- context [py_getitem_str ?a ?b] => destruct (py_getitem_str a b)
           | |- context [py_len ?a] => destruct (py_len a)
           | |- context [?n >? 0] => destruct (n >? 0)
           | |- context [py_getitem_0 ?a] => destruct (py_getitem_0 a)
           | |- context [py_get ?a ?b] => destruct (py_get a b)
           | |- context [seconds_to_minutes ?a] => destruct (seconds_to_minutes a)
           end.
Qed.

Section ProcessRow.

Variable w : world.
Variables (row : Z) (id_value name : pyval) (month_col_idx : Z).
Variables (url : string) (headers : list (string * string)) (payload : payload).
Variables (mock_api : bool) (delay : spec_float) (verify_ssl : bool).

Lemma process_row_fetched (data : pyval) (s s1 : io) :
  make_api_request w url headers payload delay verify_ssl mock_api s = (Ok data, s1) ->
  fst (process_row w row id_value name month_col_idx url headers payload
                   mock_api delay verify_ssl s)
  = minutes_of data.
Proof.
  intros E. unfold process_row, minutes_of. unfold bind at 1. rewrite E.
  rewrite <- (extract_minutes_value data s1).
  destruct (extract_minutes data s1) as [[v | e] s2]; reflexivity.
Qed.

Lemma process_row_fetch_failed (e : exn) (s s1 : io) :
  make_api_request w url headers payload delay verify_ssl mock_api s = (Raise e, s1) ->
  fst (process_row w row id_value name month_col_idx url headers payload
                   mock_api delay verify_ssl s)
  = None.
Proof. intros E. unfold process_row. unfold bind at 1. rewrite E. reflexivity. Qed.

End ProcessRow.

(* ===================================================================== *)
(** * One row of the sheet                                                *)
(* ===================================================================== *)

Lemma results_for_app (row : Z) (t1 t2 : list event) :
  results_for row (t1 ++ t2) = results_for row t1 ++ results_for row t2.
Proof.
  induction t1 as [| e t1 IH]; [reflexivity |].
  destruct e; cbn; auto. destruct (row0 =? row); cbn; now rewrite IH.
Qed.

Lemma results_for_fetch_io (row : Z) (t : list event) :
  Forall is_fetch_io t -> results_for row t = [].
Proof.
  induction 1 as [| e t He _ IH]; [reflexivity |].
  destruct e; cbn in *; auto; contradiction.
Qed.

Lemma no_write_fetch_io (t : list event) (r c : Z) (x : spec_float) :
  Forall is_fetch_io t -> ~ In (EWrite r c x) t.
Proof.
  intros F H. rewrite Forall_forall in F.
  apply list_elem_of_In in H. apply F in H. exact H.
Qed.

Lemma other_row_untouched (r0 mc : Z) (window : string * string)
    (t : list event) (r : Z) :
  Forall (row_event_ok r0 mc window) t -> r <> r0 ->
  results_for r t = [] /\ forall c x, ~ In (EWrite r c x) t.
Proof.
  induction 1 as [| e t He _ IH]; intros Hne; [split; [reflexivity | intros c x []] |].
  destruct (IH Hne) as [IH1 IH2]. split.
  - destruct e; cbn in *; auto. subst. destruct (Z.eqb_spec r0 r); [congruence | auto].
  - intros c x [H | H]; [| exact (IH2 c x H)].
    subst e. cbn in He. destruct He. congruence.
Qed.

Lemma updated_events (row mc : Z) (window : string * string)
    (tf : list event) (x : spec_float) (m1 m2 : message) :
  Forall is_fetch_io tf -> Forall (row_event_ok row mc window) tf ->
  let t := EPrint m1 :: tf ++ [EProcessed row (Some x); EWrite row mc x; EPrint m2] in
  results_for row t = [Some x]
  /\ Forall (row_event_ok row mc window) t
  /\ forall c y, In (EWrite row c y) t <-> c = mc /\ [Some x] = [Some y].
Proof.
  intros Fio Fok t. subst t. split; [| split].
  - cbn. rewrite results_for_app, (results_for_fetch_io row tf Fio).
    cbn. now rewrite Z.eqb_refl.
  - constructor; [exact I |]. apply Forall_app. split; [exact Fok |].
    repeat constructor.
  - intros c y. cbn. rewrite in_app_iff. cbn. split.
    + intros [H | [H | [H | [H | [H | []]]]]]; try discriminate H.
      * now apply no_write_fetch_io in H.
      * injection H as -> ->. auto.
    + intros [-> H]. injection H as ->. auto.
Qed.

Lemma failed_events (row mc : Z) (window : string * string)
    (tf tail : list event) (m1 : message) :
  Forall is_fetch_io tf -> Forall (row_event_ok row mc window) tf ->
  Forall is_print tail ->
  let t := EPrint m1 :: tf ++ EProcessed row None :: tail in
  results_for row t = [None]
  /\ Forall (row_event_ok row mc window) t
  /\ forall c y, In (EWrite row c y) t <-> c = mc /\ [None] = [Some y].
Proof.
  intros Fio Fok Ftail t. subst t.
  assert (Ftail' : Forall is_fetch_io tail).
  { eapply Forall_impl; [exact Ftail |]. intros []; cbn; auto. }
  split; [| split].
  - cbn. rewrite results_for_app, (results_for_fetch_io row tf Fio).
    cbn. rewrite Z.eqb_refl. now rewrite (results_for_fetch_io row tail Ftail').
  - constructor; [exact I |]. apply Forall_app. split; [exact Fok |].
    constructor; [reflexivity |].
    eapply Forall_impl; [exact Ftail |]. intros []; cbn; auto; contradiction.
  - intros c y. cbn. rewrite in_app_iff. cbn. split.
    + intros [H | [H | [H | H]]]; try discriminate H.
      * now apply no_write_fetch_io in H.
      * now apply no_write_fetch_io in H.
    + intros [_ H]. discriminate H.
Qed.

Lemma cell_value_set_cell (sheet : worksheet) (r c : Z) (v : pyval) (fmt : string)
    (r' c' : Z) :
  cell_value (set_cell sheet r c v fmt) r' c'
  = if (r' =? r) && (c' =? c) then v else cell_value sheet r' c'.
Proof.
  unfold cell_value, set_cell. cbn [cells].
  destruct (Z.eqb_spec r' r) as [-> | Hr]; cbn [andb].
  - destruct (Z.eqb_spec c' c) as [-> | Hc].
    + now rewrite lookup_insert_eq.
    + rewrite lookup_insert_ne by congruence. reflexivity.
  - rewrite lookup_insert_ne by congruence. reflexivity.
Qed.

Lemma row_event_posts_window (r mc : Z) (window : string * string) (t : list event) :
  Forall (row_event_ok r mc window) t -> Forall (posts_window window) t /\ ~ In ESave t.
Proof.
  induction 1 as [| e t He _ [IH1 IH2]]; [split; [constructor | intros []] |].
  split.
  - constructor; [| exact IH1]. destruct e; cbn in *; auto.
  - intros [H | H]; [subst e; exact He | exact (IH2 H)].
Qed.

Ltac skipped_row :=
  cbn; split; [reflexivity |]; split; [reflexivity |];
  split; [repeat constructor |];
  split; [intros _; reflexivity |];
  split; [intros H; discriminate H |];
  intros c x; split;
  [ intros [H | []]; discriminate H | intros [_ H]; discriminate H ].

Section RowBody.

Variable w : world.
Variables (mock_api : bool) (month : string) (force_update : bool).
Variables (delay : spec_float) (verify_ssl : bool).
Variables (id_col_idx month_col_idx : Z) (headers : list (string * string)).
Variable window : string * string.
Hypothesis window_ok : get_date_range_for_month month 2025 = Ok window.

Local Abbreviation body :=
  (row_body w mock_api month force_update delay verify_ssl
            id_col_idx month_col_idx headers).

Lemma row_body_facts (row : Z) (sheet : worksheet) (s : io) :
  exists (s' : io) (t : list event),
    let results := results_for row t in
    body row sheet s
    = (Ok match results with
          | [Some v] => set_cell sheet row month_col_idx (PFloat v) "0.00"
          | _ => sheet
          end, s')
    /\ trace s' = trace s ++ t
    /\ Forall (row_event_ok row month_col_idx window) t
    /\ (eligible force_update id_col_idx month_col_idx sheet row = false ->
        results = [])
    /\ (eligible force_update id_col_idx month_col_idx sheet row = true ->
        let id_value := cell_value sheet row id_col_idx in
        let name := cell_value sheet row 1 in
        results
        = [fst (process_row w row id_value name month_col_idx analytics_url headers
                            (mk_payload [id_value] (fst window) (snd window))
                            mock_api delay verify_ssl
                            (log (EPrint (MsgProcessing name id_value)) s))])
    /\ (forall c x, In (EWrite row c x) t <-> c = month_col_idx /\ results = [Some x]).
Proof.
  unfold row_body, eligible.
  destruct (truthy (cell_value sheet row id_col_idx)); cbn [negb andb].
  2:{ exists (log (EPrint (MsgSkipNoId row)) s), [EPrint (MsgSkipNoId row)].
      skipped_row. }
  destruct (has_value (cell_value sheet row month_col_idx)) eqn:Ehas,
    force_update; cbn [negb andb orb].
  2:{ match goal with
      | |- context [log ?e s] => exists (log e s), [e]
      end.
      skipped_row. }
  all: rewrite window_ok; destruct window as [sd ed]; cbn [fst snd].
  all: match goal with
       | |- context [process_row ?w ?r ?i ?n ?m ?u ?h ?p ?mk ?d ?v ?st] =>
           destruct (process_row_emits
                       (row_event_ok row month_col_idx (sd, ed))
                       w u h p d v
                       ltac:(intros; exact I) ltac:(intros; exact I)
                       ltac:(split; reflexivity)
                       r i n m mk st) as (tf & Etf & Ftf);
           destruct (process_row_emits is_fetch_io w u h p d v
                       ltac:(intros; exact I) ltac:(intros; exact I) I
                       r i n m mk st) as (tf' & Etf' & Ftf');
           destruct (process_row w r i n m u h p mk d v st) as [[x |] s2]
       end.
  all: cbn [snd] in Etf, Etf'; rewrite Etf in Etf'; apply app_inv_head in Etf'; subst tf'.
  all: cbn [log trace] in Etf.
  all: try match goal with
       | |- context [log (EPrint ?m2) (log (EWrite ?row ?mc ?x) _)] =>
           destruct (updated_events row mc (sd, ed) tf x
                       (MsgProcessing (cell_value sheet row 1)
                                      (cell_value sheet row id_col_idx))
                       m2 Ftf' Ftf) as (R & F & W);
           eexists;
           exists (EPrint (MsgProcessing (cell_value sheet row 1)
                                         (cell_value sheet row id_col_idx))
                     :: tf ++ [EProcessed row (Some x); EWrite row mc x; EPrint m2]);
           cbv zeta; rewrite R;
           split; [reflexivity |];
           split; [cbn [log trace]; rewrite Etf, <- !app_assoc; reflexivity |];
           split; [exact F |];
           split; [intros H; discriminate H |];
           split; [intros _; reflexivity |];
           exact W
       end.
  all: match goal with
       | |- context [if ?b then log ?e (log ?f (log (EProcessed ?row None) _)) else _] =>
           destruct (failed_events row month_col_idx (sd, ed) tf
                       (f :: (if b then [e] else []))
                       (MsgProcessing (cell_value sheet row 1)
                                      (cell_value sheet row id_col_idx))
                       Ftf' Ftf) as (R & F & W);
           [ destruct b; repeat constructor |];
           eexists;
           exists (EPrint (MsgProcessing (cell_value sheet row 1)
                                         (cell_value sheet row id_col_idx))
                     :: tf ++ EProcessed row None :: f :: (if b then [e] else []));
           cbv zeta; rewrite R;
           split; [reflexivity |];
           split; [destruct b; cbn [log trace]; rewrite Etf, <- !app_assoc; reflexivity |];
           split; [exact F |];
           split; [intros H; discriminate H |];
           split; [intros _; reflexivity |];
           exact W
       end.
Qed.

(** ** The whole loop *)

Local Abbreviation loop :=
  (for_rows w mock_api month force_update delay verify_ssl
            id_col_idx month_col_idx headers).

Local Abbreviation fetched sheet r :=
  (eligible force_update id_col_idx month_col_idx sheet r).

Lemma for_rows_facts (rows : list Z) :
  NoDup rows ->
  forall (sheet : worksheet) (s : io),
  exists (sheet' : worksheet) (s' : io) (t : list event),
    loop rows sheet s = (Ok sheet', s')
    /\ trace s' = trace s ++ t
    /\ Forall (posts_window window) t
    /\ ~ In ESave t
    /\ forall r,
        let results := results_for r t in
        (In r rows -> fetched sheet r = true -> exists v, results = [v])
        /\ (~ In r rows \/ fetched sheet r = false -> results = [])
        /\ (forall c x, In (EWrite r c x) t <-> c = month_col_idx /\ results = [Some x])
        /\ (forall c, cell_value sheet' r c
                      = if c =? month_col_idx
                        then cell_after results (cell_value sheet r month_col_idx)
                        else cell_value sheet r c).
Proof.
  induction rows as [| r0 rest IH]; intros Hnd sheet s.
  - exists sheet, s, []. cbn [for_rows]. rewrite app_nil_r.
    split; [reflexivity |]. split; [reflexivity |]. split; [constructor |].
    split; [intros [] |].
    intros r. cbn. split; [intros [] |]. split; [reflexivity |]. split.
    + intros c x. split; [intros [] | intros [_ H]; discriminate H].
    + intros c. destruct (Z.eqb_spec c month_col_idx) as [-> |]; reflexivity.
  - apply NoDup_cons in Hnd as [Hr0 Hnd]. rewrite list_elem_of_In in Hr0.
    destruct (row_body_facts r0 sheet s) as (s1 & t1 & E1 & T1 & F1 & N1 & Y1 & W1).
    cbv zeta in E1, N1, Y1, W1.
    set (sheet1 := match results_for r0 t1 with
                   | [Some v] => set_cell sheet r0 month_col_idx (PFloat v) "0.00"
                   | _ => sheet
                   end) in *.
    destruct (IH Hnd sheet1 s1) as (sheet' & s' & t2 & E2 & T2 & F2 & S2 & R2).
    assert (Hcell : forall r c, r <> r0 -> cell_value sheet1 r c = cell_value sheet r c).
    { intros r c Hne. subst sheet1.
      destruct (results_for r0 t1) as [| [v |] [| ? ?]]; try reflexivity.
      rewrite cell_value_set_cell.
      destruct (Z.eqb_spec r r0); [congruence | reflexivity]. }
    assert (Hcell0 : forall c, cell_value sheet1 r0 c
                               = if c =? month_col_idx
                                 then cell_after (results_for r0 t1)
                                                 (cell_value sheet r0 month_col_idx)
                                 else cell_value sheet r0 c).
    { intros c. subst sheet1. unfold cell_after.
      destruct (results_for r0 t1) as [| [v |] [| ? ?]];
        try (destruct (Z.eqb_spec c month_col_idx) as [-> |]; reflexivity).
      rewrite cell_value_set_cell, Z.eqb_refl. cbn [andb].
      destruct (c =? month_col_idx); reflexivity. }
    exists sheet', s', (t1 ++ t2).
    split; [cbn [for_rows]; rewrite E1; exact E2 |].
    split; [rewrite T2, T1; now rewrite app_assoc |].
    destruct (row_event_posts_window _ _ _ _ F1) as [P1 S1].
    split; [apply Forall_app; split; assumption |].
    split; [rewrite in_app_iff; tauto |].
    intros r. cbv zeta. rewrite results_for_app.
    destruct (R2 r) as (Y2 & N2 & W2 & C2). cbv zeta in Y2, N2, W2, C2.
    destruct (Z.eq_dec r r0) as [-> | Hne].
    + (* the row of this pass: the later passes leave it alone *)
      rewrite (N2 (or_introl Hr0)) in *. rewrite app_nil_r.
      split; [intros _ H; eexists; exact (Y1 H) |].
      split; [intros [H | H]; [exfalso; apply H; now left | exact (N1 H)] |].
      split.
      * intros c x. rewrite in_app_iff, W1, W2. split; [| tauto].
        intros [H | [_ H]]; [exact H | discriminate H].
      * intros c. rewrite C2, !Hcell0. cbn [cell_after].
        destruct (c =? month_col_idx); [| reflexivity].
        now rewrite Z.eqb_refl.
    + (* another row: this pass leaves it alone *)
      destruct (other_row_untouched _ _ _ _ r F1 Hne) as [R1 NW1].
      rewrite R1. cbn [app].
      assert (Hf : fetched sheet1 r = fetched sheet r).
      { unfold eligible. now rewrite !Hcell. }
      rewrite Hf in *.
      split; [intros [H | H]; [congruence | exact (Y2 H)] |].
      split; [intros [H | H]; [apply N2; left; intros H'; apply H; now right
                             | apply N2; now right] |].
      split.
      * intros c x. rewrite in_app_iff, W2. split; [| tauto].
        intros [H | H]; [destruct (NW1 c x H) | exact H].
      * intros c. rewrite C2, !Hcell by exact Hne. reflexivity.
Qed.

End RowBody.

(* ===================================================================== *)
(** * The retry ceiling                                                   *)
(* ===================================================================== *)

Section Ceiling.

Variable w : world.
Variables (url : string) (headers : list (string * string)) (payload : payload).
Variables (delay : spec_float) (verify_ssl : bool).
Hypothesis delay_ok : check_sleep (PFloat delay) = Ok tt.

Local Abbreviation req := (mk_request url headers payload 30 verify_ssl).
Local Abbreviation fetch := (make_api_request w url headers payload delay verify_ssl false).



End Ceiling.

(** A row whose fetch returns nothing is left as it was, and nothing is
    written for it. *)
Lemma row_body_unwritten (w : world) (mock_api : bool) (month : string)
    (force_update : bool) (delay : spec_float) (verify_ssl : bool)
    (id_col_idx month_col_idx : Z) (headers : list (string * string))
    (row : Z) (sheet : worksheet) (s : io) :
  (forall (id_value name : pyval) (p : payload) (s0 : io),
      posts s0 = posts s ->
      fst (process_row w row id_value name month_col_idx
                       analytics_url headers p mock_api delay verify_ssl s0)
      = None) ->
  exists (s' : io) (t : list event),
    row_body w mock_api month force_update delay verify_ssl
             id_col_idx month_col_idx headers row sheet s
    = (Ok sheet, s')
    /\ trace s' = trace s ++ t
    /\ forall r c x, ~ In (EWrite r c x) t.
Proof.
  intros Hnone.
  destruct (window_2025_total month) as (r1 & r2 & Hw).
  destruct (row_body_facts w mock_api month force_update delay verify_ssl
              id_col_idx month_col_idx headers _ Hw row sheet s)
    as (s' & t & E & T & F & N & Y & W).
  cbv zeta in E, N, Y, W.
  assert (R : results_for row t = [] \/ results_for row t = [None]).
  { destruct (eligible force_update id_col_idx month_col_idx sheet row).
    - right. rewrite (Y eq_refl). now rewrite Hnone.
    - left. now apply N. }
  exists s', t. split; [| split; [exact T |]].
  - rewrite E. now destruct R as [-> | ->].
  - intros r c x Hin. destruct (Z.eq_dec r row) as [-> | Hne].
    + apply W in Hin as [_ Hin]. destruct R as [R | R]; rewrite R in Hin; discriminate Hin.
    + now apply (other_row_untouched _ _ _ _ r F Hne) in Hin.
Qed.



(* ===================================================================== *)
(** * Rate limiting                                                       *)
(* ===================================================================== *)

Section RateLimit.

Variable w : world.
Variables (url : string) (headers : list (string * string)) (payload : payload).
Variables (delay : spec_float) (verify_ssl : bool).
Hypothesis delay_ok : check_sleep (PFloat delay) = Ok tt.


Lemma retry_after_absent (r : response) (rd : Z) :
  retry_after_header r = None -> retry_after_of r rd = Ok rd.
Proof. intros H. unfold retry_after_of. now rewrite H. Qed.

End RateLimit.

(** Nothing but 429 without a header: seven attempts, with the pauses
    3, 6, 12, 24, 48, 96 and 120 seconds, and then the fetch fails. *)
Lemma rate_limited_seven_times :
  let result := make_api_request world_429 analytics_url [] example_payload
                                 default_delay true false io0 in
  fst result = Raise (RequestException "Failed after 7 retries")
  /\ posts (snd result) = 7%nat
  /\ omap (fun e => match e with
                    | EPrint (MsgRateLimited n) => Some n
                    | _ => None
                    end) (trace (snd result))
     = [3; 6; 12; 24; 48; 96; 120].
Proof. vm_compute. auto. Qed.

(** C3, at an input where the code departs from it: when the
    [Retry-After] of a 429 is an HTTP date, [int(...)] raises a
    [ValueError] that no [except] clause of the loop catches; the fetch
    raises after a single POST, without the retry sleep and without
    another attempt, and the row gets no value. *)
Theorem retry_after_http_date_raises (url : string)
    (headers : list (string * string)) (payload : payload) (verify_ssl : bool)
    (row : Z) (id_value name : pyval) (month_col_idx : Z) :
  int_of_str "Wed, 21 Oct 2015 07:28:00 GMT"
  = Raise (ValueError "invalid literal for int() with base 10")
  /\ make_api_request world_429_date url headers payload default_delay verify_ssl false io0
     = (Raise (ValueError "invalid literal for int() with base 10"),
        posted url headers payload default_delay verify_ssl io0)
  /\ posts (posted url headers payload default_delay verify_ssl io0) = 1%nat
  /\ is_request_exception (ValueError "invalid literal for int() with base 10") = false
  /\ fst (process_row world_429_date row id_value name month_col_idx
                      url headers payload false default_delay verify_ssl io0)
     = None.
Proof.
  assert (E : make_api_request world_429_date url headers payload default_delay verify_ssl false io0
              = (Raise (ValueError "invalid literal for int() with base 10"),
                 posted url headers payload default_delay verify_ssl io0)).
  { unfold make_api_request. change (Z.to_nat max_retries) with 7%nat.
    cbn [retry_loop]. change (0 <? max_retries) with true. cbv iota.
    unfold bind at 1.
    rewrite (pass_unfold world_429_date url headers payload default_delay verify_ssl eq_refl).
    reflexivity. }
  split; [reflexivity |]. split; [exact E |].
  split; [reflexivity |]. split; [reflexivity |].
  eapply process_row_fetch_failed. exact E.
Qed.

(* ===================================================================== *)
(** * A whole run                                                         *)
(* ===================================================================== *)

Lemma rows_of_NoDup (first_row last_row : Z) : NoDup (rows_of first_row last_row).
Proof. apply NoDup_seqZ. Qed.

Lemma in_rows_of (first_row last_row row : Z) :
  In row (rows_of first_row last_row) <-> first_row <= row <= last_row.
Proof.
  unfold rows_of. rewrite <- list_elem_of_In, elem_of_seqZ. lia.
Qed.

Lemma results_for_prints (row : Z) (t : list event) :
  Forall is_print t -> results_for row t = [].
Proof.
  intros H. apply results_for_fetch_io.
  eapply Forall_impl; [exact H |]. intros []; cbn; auto.
Qed.

Lemma trace_log (e : event) (s : io) : trace (log e s) = trace s ++ [e].
Proof. reflexivity. Qed.

(** A run whose preconditions hold goes through the rows and saves. *)
Lemma run_completes (w : world) (mock_api : bool) (month : string)
    (force_update : bool) (delay : spec_float) (start_row end_row : option Z)
    (verify_ssl : bool) (env : environment) (s : io)
    (sheet : worksheet) (i j : Z) (window : string * string) :
  excel_file env = Some sheet ->
  index_of "id" (header_row sheet) = Some i ->
  index_of month (header_row sheet) = Some j ->
  token_set (PAGERDUTY_API_TOKEN env) = true \/ mock_api = true ->
  get_date_range_for_month month 2025 = Ok window ->
  exists (sheet' : worksheet) (s1 : io) (m1 m2 : message) (t : list event),
    fetch_and_update_pagerduty_metrics w mock_api month force_update delay
      start_row end_row verify_ssl env s
    = mk_run_result Completed (Some sheet') (log (EPrint MsgSaved) (log ESave s1))
    /\ for_rows w mock_api month force_update delay verify_ssl (i + 1) (j + 1)
                (api_headers (PAGERDUTY_API_TOKEN env))
                (rows_of (fst (row_range start_row end_row (max_row sheet)))
                         (snd (row_range start_row end_row (max_row sheet))))
                sheet
                (log (EPrint m2) (log (EPrint m1) (log (EPrint MsgLoading) s)))
       = (Ok sheet', s1)
    /\ trace s1 = trace s ++ [EPrint MsgLoading; EPrint m1; EPrint m2] ++ t
    /\ Forall (posts_window window) t
    /\ ~ In ESave t
    /\ forall r,
        let results := results_for r t in
        (In r (rows_of (fst (row_range start_row end_row (max_row sheet)))
                       (snd (row_range start_row end_row (max_row sheet)))) ->
         eligible force_update (i + 1) (j + 1) sheet r = true -> exists v, results = [v])
        /\ (eligible force_update (i + 1) (j + 1) sheet r = false -> results = [])
        /\ (forall c x, In (EWrite r c x) t <-> c = j + 1 /\ results = [Some x])
        /\ (forall c, cell_value sheet' r c
                      = if c =? j + 1
                        then cell_after results (cell_value sheet r (j + 1))
                        else cell_value sheet r c).
Proof.
  intros Hfile Hid Hmonth Htoken Hwin.
  unfold fetch_and_update_pagerduty_metrics. rewrite Hfile, Hid, Hmonth.
  assert (Eabort : negb (token_set (PAGERDUTY_API_TOKEN env)) && negb mock_api = false).
  { destruct Htoken as [-> | ->]; [reflexivity | apply andb_false_r]. }
  rewrite Eabort.
  destruct (row_range start_row end_row (max_row sheet)) as [first_row last_row].
  cbn [fst snd].
  set (m1 := if token_set (PAGERDUTY_API_TOKEN env)
             then MsgUsingToken (String.substring 0 4 (default "" (PAGERDUTY_API_TOKEN env)))
             else MsgNoToken).
  set (m2 := MsgRowRange first_row last_row (last_row - first_row + 1)).
  set (s0 := log (EPrint m2) (log (EPrint m1) (log (EPrint MsgLoading) s))).
  assert (Es0 : (log (EPrint m2)
                   (if token_set (PAGERDUTY_API_TOKEN env)
                    then log (EPrint (MsgUsingToken
                                        (String.substring 0 4
                                           (default "" (PAGERDUTY_API_TOKEN env)))))
                             (log (EPrint MsgLoading) s)
                    else log (EPrint MsgNoToken) (log (EPrint MsgLoading) s))) = s0).
  { subst s0 m1. now destruct (token_set _). }
  rewrite Es0.
  destruct (for_rows_facts w mock_api month force_update delay verify_ssl
              (i + 1) (j + 1) (api_headers (PAGERDUTY_API_TOKEN env)) window Hwin
              (rows_of first_row last_row) (rows_of_NoDup _ _) sheet s0)
    as (sheet' & s1 & t & E & T & F & S & R).
  exists sheet', s1, m1, m2, t.
  split; [now rewrite E |]. split; [exact E |].
  split; [rewrite T; subst s0; rewrite !trace_log, <- !app_assoc; reflexivity |].
  split; [exact F |]. split; [exact S |].
  intros r. destruct (R r) as (Y & N & W & C). cbv zeta in *.
  split; [exact Y |]. split; [intros H; apply N; now right |].
  split; [exact W | exact C].
Qed.

(** C1. In a run whose preconditions hold, for every row of the range:
    the month cell is overwritten if and only if an update is forced or the
    cell holds no value, and the fetch for the row gave a number; a cell
    that holds a value is, without force, neither fetched for nor changed;
    with force a row that has an id is fetched for exactly once whatever
    the cell holds; and when the fetch gives nothing the cell keeps what it
    held.  [results_for row t] lists what the calls of [process_row] for
    the row returned: it is empty when no fetch was made for the row and
    has one element when exactly one was. *)
Theorem stored_value_overwrite_policy (w : world) (mock_api : bool)
    (month : string) (force_update : bool) (delay : spec_float)
    (start_row end_row : option Z) (verify_ssl : bool)
    (env : environment) (s : io) (sheet : worksheet) (i j : Z)
    (Hfile : excel_file env = Some sheet)
    (Hid : index_of "id" (header_row sheet) = Some i)
    (Hmonth : index_of month (header_row sheet) = Some j)
    (Htoken : token_set (PAGERDUTY_API_TOKEN env) = true \/ mock_api = true) :
  let run := fetch_and_update_pagerduty_metrics w mock_api month force_update
               delay start_row end_row verify_ssl env s in
  exists (sheet' : worksheet) (t : list event),
    outcome run = Completed
    /\ disk run = Some sheet'
    /\ trace (final run) = trace s ++ t
    /\ forall row,
        fst (row_range start_row end_row (max_row sheet)) <= row
          <= snd (row_range start_row end_row (max_row sheet)) ->
        let id_value := cell_value sheet row (i + 1) in
        let existing := cell_value sheet row (j + 1) in
        let results := results_for row t in
        ((exists x, In (EWrite row (j + 1) x) t)
         <-> (force_update = true \/ has_value existing = false)
             /\ exists x, results = [Some x])
        /\ (has_value existing = true -> force_update = false ->
            results = [] /\ cell_value sheet' row (j + 1) = existing)
        /\ (force_update = true -> truthy id_value = true -> exists v, results = [v])
        /\ cell_value sheet' row (j + 1) = cell_after results existing
        /\ ((forall x, results <> [Some x]) -> cell_value sheet' row (j + 1) = existing)
        /\ (forall c x, In (EWrite row c x) t ->
                        c = j + 1 /\ results = [Some x]
                        /\ cell_value sheet' row (j + 1) = PFloat x).
Proof.
  destruct (window_2025_total month) as (r1 & r2 & Hw).
  destruct (run_completes w mock_api month force_update delay start_row end_row
              verify_ssl env s sheet i j _ Hfile Hid Hmonth Htoken Hw)
    as (sheet' & s1 & m1 & m2 & t & Erun & _ & T & _ & _ & R).
  cbv zeta. rewrite Erun. cbn [outcome disk final].
  exists sheet', ([EPrint MsgLoading; EPrint m1; EPrint m2] ++ t ++ [ESave; EPrint MsgSaved]).
  split; [reflexivity |]. split; [reflexivity |].
  split; [rewrite !trace_log, T, <- !app_assoc; reflexivity |].
  intros row Hrow. apply in_rows_of in Hrow.
  destruct (R row) as (Y & N & W & C). cbv zeta in Y, N, W, C.
  specialize (Y Hrow). specialize (C (j + 1)). rewrite Z.eqb_refl in C.
  assert (Eres : results_for row ([EPrint MsgLoading; EPrint m1; EPrint m2]
                                    ++ t ++ [ESave; EPrint MsgSaved])
                 = results_for row t).
  { rewrite !results_for_app. cbn. now rewrite app_nil_r. }
  assert (Ein : forall c x,
             In (EWrite row c x) ([EPrint MsgLoading; EPrint m1; EPrint m2]
                                    ++ t ++ [ESave; EPrint MsgSaved])
             <-> In (EWrite row c x) t).
  { intros c x. rewrite !in_app_iff. cbn. split; [| tauto].
    intros [[H | [H | [H | []]]] | [H | [H | [H | []]]]]; try discriminate H; exact H. }
  rewrite Eres.
  set (results := results_for row t) in *.
  unfold eligible in Y, N.
  set (id_value := cell_value sheet row (i + 1)) in *.
  set (existing := cell_value sheet row (j + 1)) in *.
  assert (Hnum : forall x, results = [Some x] ->
                           truthy id_value = true
                           /\ (force_update = true \/ has_value existing = false)).
  { intros x Hx.
    destruct (truthy id_value); [| rewrite N in Hx by reflexivity; discriminate Hx].
    destruct force_update; [auto |].
    destruct (has_value existing); [| auto].
    rewrite N in Hx by reflexivity. discriminate Hx. }
  split; [| split; [| split; [| split; [| split]]]].
  - split.
    + intros [x Hx]. apply Ein, W in Hx as [_ Hx].
      split; [exact (proj2 (Hnum x Hx)) | eauto].
    + intros [_ [x Hx]]. exists x. apply Ein, W. auto.
  - intros Hhas Hforce.
    assert (E : results = []).
    { apply N. rewrite Hhas, Hforce. apply andb_false_r. }
    split; [exact E |]. rewrite C, E. reflexivity.
  - intros Hforce Hid'. apply Y. rewrite Hid', Hforce. reflexivity.
  - exact C.
  - intros Hno. rewrite C. unfold cell_after.
    destruct results as [| [x |] [| ? ?]]; try reflexivity.
    destruct (Hno x eq_refl).
  - intros c x Hin. apply Ein, W in Hin as [-> Hx].
    split; [reflexivity |]. split; [exact Hx |]. rewrite C, Hx. reflexivity.
Qed.

Lemma stored_value_overwrite_policy_witness :
  exists (sheet' : worksheet) (t : list event),
    disk (fetch_and_update_pagerduty_metrics world_down true "Jan" false default_delay
            None None true example_env io0) = Some sheet'
    /\ results_for 2 t = []
    /\ cell_value sheet' 2 3 = PFloat (hundredths_literal 450)
    /\ results_for 3 t = [Some (hundredths_literal 200)]
    /\ cell_value sheet' 3 3 = PFloat (hundredths_literal 200).
Proof.
  destruct (stored_value_overwrite_policy world_down true "Jan" false default_delay
              None None true example_env io0 example_sheet 1 2
              eq_refl eq_refl eq_refl (or_intror eq_refl))
    as (sheet' & t & _ & Hd & Ht & Hrows).
  exists sheet', t. split; [exact Hd |].
  assert (H2 : fst (row_range None None (max_row example_sheet)) <= 2
               <= snd (row_range None None (max_row example_sheet))) by (cbn; lia).
  assert (H3 : fst (row_range None None (max_row example_sheet)) <= 3
               <= snd (row_range None None (max_row example_sheet))) by (cbn; lia).
  destruct (Hrows 2 H2) as (_ & Hkeep & _).
  destruct (Hkeep eq_refl eq_refl) as [R2 C2].
  split; [exact R2 |]. split; [exact C2 |].
  destruct (Hrows 3 H3) as (_ & _ & _ & C3 & _).
  vm_compute in Ht. subst t.
  split; [vm_compute; reflexivity |].
  change (2 + 1) with 3 in C3. rewrite C3. vm_compute. reflexivity.
Defined.

(* ===================================================================== *)
(** * The year of the window                                              *)
(* ===================================================================== *)

Lemma prints_post_no_window (window : string * string) (t : list event) :
  Forall is_print t -> Forall (posts_window window) t.
Proof. intros H. eapply Forall_impl; [exact H |]. intros []; cbn; tauto. Qed.

(** Every request of a run, however the run ends, asks for the window
    of [month] in 2025. *)
Lemma run_posts_window (w : world) (mock_api : bool) (month : string)
    (force_update : bool) (delay : spec_float) (start_row end_row : option Z)
    (verify_ssl : bool) (env : environment) (s : io) (window : string * string) :
  get_date_range_for_month month 2025 = Ok window ->
  exists t : list event,
    trace (final (fetch_and_update_pagerduty_metrics w mock_api month force_update
                    delay start_row end_row verify_ssl env s))
    = trace s ++ t
    /\ Forall (posts_window window) t.
Proof.
  intros Hw.
  destruct (excel_file env) as [sheet |] eqn:Hfile.
  2:{ unfold fetch_and_update_pagerduty_metrics. rewrite Hfile.
      eexists. split; [reflexivity |]. repeat constructor. }
  destruct (index_of "id" (header_row sheet)) as [i |] eqn:Hid.
  2:{ unfold fetch_and_update_pagerduty_metrics. rewrite Hfile, Hid.
      eexists. split; [reflexivity |]. repeat constructor. }
  destruct (index_of month (header_row sheet)) as [j |] eqn:Hmonth.
  2:{ unfold fetch_and_update_pagerduty_metrics. rewrite Hfile, Hid, Hmonth.
      cbn [final]. rewrite !trace_log, <- !app_assoc.
      eexists. split; [reflexivity |]. repeat constructor. }
  destruct (negb (token_set (PAGERDUTY_API_TOKEN env)) && negb mock_api) eqn:Htok.
  { unfold fetch_and_update_pagerduty_metrics. rewrite Hfile, Hid, Hmonth, Htok.
    cbn [final]. rewrite !trace_log, <- !app_assoc.
    eexists. split; [reflexivity |]. repeat constructor. }
  assert (Htoken : token_set (PAGERDUTY_API_TOKEN env) = true \/ mock_api = true).
  { destruct (token_set _), mock_api; auto; discriminate Htok. }
  destruct (run_completes w mock_api month force_update delay start_row end_row
              verify_ssl env s sheet i j window Hfile Hid Hmonth Htoken Hw)
    as (sheet' & s1 & m1 & m2 & t & Erun & _ & T & F & _).
  rewrite Erun. cbn [final]. rewrite !trace_log, T, <- !app_assoc.
  eexists. split; [reflexivity |].
  cbn [app]. repeat (constructor; [exact I |]).
  apply Forall_app. split; [exact F |]. repeat constructor.
Qed.

(** C5. The year given on the command line never reaches the date
    window: a run is the same whatever the year, and every request it
    sends asks for the window of the month in 2025. *)
Theorem year_flag_is_ignored (w : world) (a : args) (env : environment)
    (s : io) (year : Z) :
  main w (with_year year a) env s = main w a env s
  /\ exists (rest1 rest2 : string) (t : list event),
       get_date_range_for_month (arg_month a) 2025
       = Ok ("2025-" +:+ rest1, "2025-" +:+ rest2)
       /\ trace (final (main w (with_year year a) env s)) = trace s ++ t
       /\ Forall (posts_window ("2025-" +:+ rest1, "2025-" +:+ rest2)) t.
Proof.
  split; [reflexivity |].
  destruct (window_2025_total (arg_month a)) as (r1 & r2 & Hw).
  exists r1, r2.
  unfold main. cbn [with_year arg_mock arg_month arg_force arg_delay
                              arg_start_row arg_end_row arg_no_verify_ssl].
  match goal with
  | |- context [fetch_and_update_pagerduty_metrics ?w ?mk ?mo ?f ?d ?sr ?er ?v ?e ?st] =>
      destruct (run_posts_window w mk mo f d sr er v e st _ Hw) as (t & T & F);
      assert (Hs : exists t0, trace st = trace s ++ t0 /\ Forall is_print t0)
  end.
  { destruct (arg_mock a), (arg_no_verify_ssl a); rewrite ?trace_log, <- ?app_assoc;
      eexists; (split; [reflexivity | repeat constructor]). }
  destruct Hs as (t0 & T0 & F0).
  exists (t0 ++ t). split; [exact Hw |]. split.
  - rewrite T, T0. now rewrite app_assoc.
  - apply Forall_app. split; [now apply prints_post_no_window | exact F].
Qed.

(* ===================================================================== *)
(** * The rows a run goes through                                         *)
(* ===================================================================== *)

Lemma rows_visited_app (t1 t2 : list event) :
  rows_visited (t1 ++ t2) = rows_visited t1 ++ rows_visited t2.
Proof. unfold rows_visited. apply omap_app. Qed.

Lemma rows_visited_none (t : list event) :
  Forall (fun e => row_of_event e = None) t -> rows_visited t = [].
Proof.
  induction 1 as [| e t He _ IH]; [reflexivity |].
  unfold rows_visited in *. cbn. rewrite He. exact IH.
Qed.

Section RowsVisited.

Variable w : world.
Variables (mock_api : bool) (month : string) (force_update : bool).
Variables (delay : spec_float) (verify_ssl : bool).
Variables (id_col_idx month_col_idx : Z) (headers : list (string * string)).
Variable window : string * string.
Hypothesis window_ok : get_date_range_for_month month 2025 = Ok window.

Local Abbreviation body :=
  (row_body w mock_api month force_update delay verify_ssl
            id_col_idx month_col_idx headers).

Local Abbreviation loop :=
  (for_rows w mock_api month force_update delay verify_ssl
            id_col_idx month_col_idx headers).

(** A pass of the loop leaves the mark of its row, once, whatever it
    does with the row. *)
Lemma row_body_visits (row : Z) (sheet : worksheet) (s : io) :
  rows_visited (trace (snd (body row sheet s))) = rows_visited (trace s) ++ [row].
Proof.
  unfold row_body.
  destruct (truthy (cell_value sheet row id_col_idx)); cbn [negb];
    [| cbn [snd]; rewrite trace_log, rows_visited_app; reflexivity].
  destruct (has_value (cell_value sheet row month_col_idx) && negb force_update);
    [cbn [snd]; rewrite trace_log, rows_visited_app; reflexivity |].
  rewrite window_ok. destruct window as [sd ed].
  match goal with
  | |- context [process_row ?w ?r ?i ?n ?m ?u ?h ?p ?mk ?d ?v ?st] =>
      destruct (process_row_emits (fun e => row_of_event e = None) w u h p d v
                  ltac:(intros [] H; first [discriminate H | reflexivity])
                  ltac:(intros; reflexivity) eq_refl
                  r i n m mk st) as (tf & Etf & Ftf);
      destruct (process_row w r i n m u h p mk d v st) as [[x |] s2]
  end; cbn [snd] in Etf |- *.
  - rewrite !trace_log, Etf, trace_log, !rows_visited_app,
      (rows_visited_none tf Ftf). cbn. now rewrite !app_nil_r.
  - assert (E : rows_visited (trace (log (EPrint (MsgFailedUpdate month
                                                    (cell_value sheet row 1)))
                                        (log (EProcessed row None) s2)))
                = rows_visited (trace s) ++ [row]).
    { rewrite !trace_log, Etf, trace_log, !rows_visited_app,
        (rows_visited_none tf Ftf). cbn. now rewrite !app_nil_r. }
    destruct (truthy (cell_value sheet row month_col_idx)); [| exact E].
    rewrite trace_log, rows_visited_app, E. cbn. now rewrite app_nil_r.
Qed.

(** The loop goes through its rows in order, each once. *)
Lemma for_rows_visits (rows : list Z) :
  forall (sheet : worksheet) (s : io),
    rows_visited (trace (snd (loop rows sheet s))) = rows_visited (trace s) ++ rows.
Proof.
  induction rows as [| row rest IH]; intros sheet s; cbn [for_rows].
  - cbn [snd]. now rewrite app_nil_r.
  - pose proof (row_body_visits row sheet s) as Hv.
    destruct (row_body_facts w mock_api month force_update delay verify_ssl
                id_col_idx month_col_idx headers window window_ok row sheet s)
      as (s' & t & E & _).
    cbv zeta in E. rewrite E in Hv |- *. cbn [snd] in Hv.
    rewrite IH, Hv, <- app_assoc. reflexivity.
Qed.

End RowsVisited.

(** C8. A run whose preconditions hold goes through the rows from
    [first_row] to [last_row] in order, each once, and prints that range
    before it starts.  [first_row] is 2 unless a start bound above 2 is
    given, and then it is that bound; [last_row] is the last row of the
    sheet unless an end bound below it is given, and then it is that bound:
    a bound only ever narrows the range.  A bound of 0 is falsy and counts
    as not given, so that with an end bound of 0 the run goes up to the
    last row.  With both bounds 5 on a sheet whose last row is 100 the run
    goes through row 5 and no other. *)
Theorem row_range_clamps (w : world) (mock_api : bool) (month : string)
    (force_update : bool) (delay : spec_float) (start_row end_row : option Z)
    (verify_ssl : bool) (env : environment) (s : io) (sheet : worksheet) (i j : Z)
    (Hfile : excel_file env = Some sheet)
    (Hid : index_of "id" (header_row sheet) = Some i)
    (Hmonth : index_of month (header_row sheet) = Some j)
    (Htoken : token_set (PAGERDUTY_API_TOKEN env) = true \/ mock_api = true) :
  let run := fetch_and_update_pagerduty_metrics w mock_api month force_update
               delay start_row end_row verify_ssl env s in
  let first_row := Z.max 2 (default 2 start_row) in
  let last_row :=
    match end_row with
    | Some r => if r =? 0 then max_row sheet else Z.min (max_row sheet) r
    | None => max_row sheet
    end in
  outcome run = Completed
  /\ In (EPrint (MsgRowRange first_row last_row (last_row - first_row + 1)))
        (trace (final run))
  /\ rows_visited (trace (final run))
     = rows_visited (trace s) ++ seqZ first_row (last_row + 1 - first_row)
  /\ (start_row = None -> end_row = None -> first_row = 2 /\ last_row = max_row sheet)
  /\ (first_row = 2 \/ (start_row = Some first_row /\ 2 < first_row))
  /\ (last_row = max_row sheet
      \/ (end_row = Some last_row /\ last_row < max_row sheet))
  /\ (start_row = Some 5 -> end_row = Some 5 -> max_row sheet = 100 ->
      rows_visited (trace (final run)) = rows_visited (trace s) ++ [5]).
Proof.
  cbv zeta.
  set (first_row := Z.max 2 (default 2 start_row)).
  set (last_row := match end_row with
                   | Some r => if r =? 0 then max_row sheet else Z.min (max_row sheet) r
                   | None => max_row sheet
                   end).
  destruct (window_2025_total month) as (r1 & r2 & Hw).
  assert (Hrun : outcome (fetch_and_update_pagerduty_metrics w mock_api month force_update
                            delay start_row end_row verify_ssl env s) = Completed
                 /\ In (EPrint (MsgRowRange first_row last_row (last_row - first_row + 1)))
                       (trace (final (fetch_and_update_pagerduty_metrics w mock_api month
                                        force_update delay start_row end_row verify_ssl
                                        env s)))
                 /\ rows_visited
                      (trace (final (fetch_and_update_pagerduty_metrics w mock_api month
                                       force_update delay start_row end_row verify_ssl
                                       env s)))
                    = rows_visited (trace s) ++ seqZ first_row (last_row + 1 - first_row)).
  { unfold fetch_and_update_pagerduty_metrics. rewrite Hfile, Hid, Hmonth.
    assert (Eabort : negb (token_set (PAGERDUTY_API_TOKEN env)) && negb mock_api = false).
    { destruct Htoken as [-> | ->]; [reflexivity | apply andb_false_r]. }
    rewrite Eabort, row_range_eq. fold first_row last_row.
    set (m1 := if token_set (PAGERDUTY_API_TOKEN env)
               then MsgUsingToken (String.substring 0 4
                                     (default "" (PAGERDUTY_API_TOKEN env)))
               else MsgNoToken).
    set (m2 := MsgRowRange first_row last_row (last_row - first_row + 1)).
    set (s0 := log (EPrint m2) (log (EPrint m1) (log (EPrint MsgLoading) s))).
    assert (Es0 : (log (EPrint m2)
                     (if token_set (PAGERDUTY_API_TOKEN env)
                      then log (EPrint (MsgUsingToken
                                          (String.substring 0 4
                                             (default "" (PAGERDUTY_API_TOKEN env)))))
                               (log (EPrint MsgLoading) s)
                      else log (EPrint MsgNoToken) (log (EPrint MsgLoading) s))) = s0).
    { subst s0 m1. now destruct (token_set _). }
    rewrite Es0.
    pose proof (for_rows_visits w mock_api month force_update delay verify_ssl
                  (i + 1) (j + 1) (api_headers (PAGERDUTY_API_TOKEN env)) _ Hw
                  (rows_of first_row last_row) sheet s0) as Hv.
    destruct (for_rows_facts w mock_api month force_update delay verify_ssl
                (i + 1) (j + 1) (api_headers (PAGERDUTY_API_TOKEN env)) _ Hw
                (rows_of first_row last_row) (rows_of_NoDup _ _) sheet s0)
      as (sheet' & s1 & t & E & T & _).
    rewrite E in Hv |- *. cbn [snd] in Hv. cbn [outcome final].
    split; [reflexivity |]. split.
    - rewrite !trace_log, T. subst s0. rewrite !trace_log.
      rewrite !in_app_iff. cbn. tauto.
    - rewrite !trace_log, !rows_visited_app, Hv. subst s0.
      rewrite !trace_log, !rows_visited_app. subst m1 m2.
      destruct (token_set _); cbn; now rewrite !app_nil_r. }
  destruct Hrun as (Ho & Hprint & Hrows).
  split; [exact Ho |]. split; [exact Hprint |]. split; [exact Hrows |].
  split; [intros -> ->; subst first_row last_row; cbn; lia |].
  split.
  { subst first_row. destruct start_row as [a |]; cbn [default]; unfold id;
      [| left; reflexivity].
    destruct (Z.max_spec 2 a) as [[H ->] | [H ->]];
      [right; split; [reflexivity | lia] | left; reflexivity]. }
  split.
  - subst last_row. destruct end_row as [b |]; [| now left].
    destruct (Z.eqb_spec b 0); [now left |].
    destruct (Z.min_spec (max_row sheet) b) as [[H ->] | [H ->]]; [now left |].
    destruct (Z.eq_dec b (max_row sheet)) as [Hb | Hb];
      [now left | right; split; [reflexivity | lia]].
  - intros Hs He Hmax. rewrite Hrows. subst first_row last_row.
    rewrite Hs, He, Hmax. reflexivity.
Qed.

Lemma row_range_clamps_witness :
  rows_visited
    (trace (final (fetch_and_update_pagerduty_metrics world_down true "Jan" false
                     default_delay (Some 5) (Some 5) true
                     (mk_environment (Some sheet_100_rows) None) io0)))
  = [5].
Proof.
  destruct (row_range_clamps world_down true "Jan" false default_delay (Some 5) (Some 5)
              true (mk_environment (Some sheet_100_rows) None) io0 sheet_100_rows 1 2)
    as (_ & _ & _ & _ & _ & _ & H).
  - reflexivity.
  - reflexivity.
  - reflexivity.
  - now right.
  - exact (H eq_refl eq_refl eq_refl).
Defined.

(* ===================================================================== *)
(** * Run-level preconditions                                             *)
(* ===================================================================== *)

(** Only a run that reaches its end replaces the file. *)
Lemma only_completed_run_saves (w : world) (mock_api : bool) (month : string)
    (force_update : bool) (delay : spec_float) (start_row end_row : option Z)
    (verify_ssl : bool) (env : environment) (s : io) :
  let run := fetch_and_update_pagerduty_metrics w mock_api month force_update
               delay start_row end_row verify_ssl env s in
  outcome run = Completed \/ disk run = excel_file env.
Proof.
  cbv zeta. unfold fetch_and_update_pagerduty_metrics.
  destruct (excel_file env) as [sheet |]; [| now right].
  destruct (index_of "id" (header_row sheet)); [| now right].
  destruct (index_of month (header_row sheet)); [| now right].
  destruct (negb (token_set (PAGERDUTY_API_TOKEN env)) && negb mock_api); [now right |].
  destruct (row_range start_row end_row (max_row sheet)) as [first_row last_row].
  destruct (for_rows _ _ _ _ _ _ _ _ _ _ _ _) as [[sheet' | e] s1]; [now left | now right].
Qed.

(** C7. On a sheet whose header row has neither an [id] column nor the
    month asked for, a precondition of the run fails, yet the run does not
    abort with its diagnostic: [headers.index('id')] stands outside the
    [try] that guards the lookup of the month next to it, so its
    [ValueError] leaves the run right after the file is loaded, whatever
    the credential and the mode, and the line "Column ... not found" is
    never printed.  Nothing is requested and the file on disk stays as it
    was.  With an [id] column on the same kind of sheet the lookup of the
    month aborts the run with the two lines of its diagnostic. *)
Theorem missing_id_column_preempts_diagnostic (w : world) (mock_api : bool)
    (force_update : bool) (delay : spec_float) (start_row end_row : option Z)
    (verify_ssl : bool) (token : option string) (s : io) :
  let run := fetch_and_update_pagerduty_metrics w mock_api "Jan" force_update
               delay start_row end_row verify_ssl
               (mk_environment (Some sheet_without_id) token) s in
  let guarded := fetch_and_update_pagerduty_metrics w mock_api "Jan" force_update
                   delay start_row end_row verify_ssl
                   (mk_environment (Some sheet_without_month) token) s in
  index_of "Jan" (header_row sheet_without_id) = None
  /\ outcome run = Crashed (ValueError "'id' is not in list")
  /\ final run = log (EPrint MsgLoading) s
  /\ disk run = Some sheet_without_id
  /\ index_of "Jan" (header_row sheet_without_month) = None
  /\ outcome guarded = AbortColumnNotFound
  /\ final guarded
     = log (EPrint (MsgAvailableColumns (header_row sheet_without_month)))
           (log (EPrint (MsgColumnNotFound "Jan")) (log (EPrint MsgLoading) s))
  /\ disk guarded = Some sheet_without_month.
Proof. cbv zeta. repeat split. Qed.

(** X23. In a run whose sheet, when the file is there, has an [id]
    column: when the spreadsheet file is missing, or the month is not
    among the headers, or no credential is set outside simulate mode, the
    run ends at once: it prints its diagnostic and nothing else happens, no
    request, no sleep, no row, no save, and the file on disk is the one
    that was there. *)
Theorem failed_precondition_aborts_unwritten (w : world) (mock_api : bool)
    (month : string) (force_update : bool) (delay : spec_float)
    (start_row end_row : option Z) (verify_ssl : bool)
    (env : environment) (s : io)
    (Hid : forall sheet, excel_file env = Some sheet ->
                         index_of "id" (header_row sheet) <> None)
    (Hpre : excel_file env = None
            \/ (exists sheet, excel_file env = Some sheet
                              /\ index_of month (header_row sheet) = None)
            \/ (token_set (PAGERDUTY_API_TOKEN env) = false /\ mock_api = false)) :
  let run := fetch_and_update_pagerduty_metrics w mock_api month force_update
               delay start_row end_row verify_ssl env s in
  disk run = excel_file env
  /\ posts (final run) = posts s
  /\ exists t : list event,
       trace (final run) = trace s ++ t
       /\ Forall is_print t
       /\ ((outcome run = AbortFileNotFound /\ In (EPrint MsgFileNotFound) t)
           \/ (outcome run = AbortColumnNotFound /\ In (EPrint (MsgColumnNotFound month)) t)
           \/ (outcome run = AbortTokenNotSet /\ In (EPrint MsgTokenNotSet) t)).
Proof.
  cbv zeta. unfold fetch_and_update_pagerduty_metrics.
  destruct (excel_file env) as [sheet |] eqn:Hfile.
  2:{ split; [reflexivity |]. split; [reflexivity |].
      exists [EPrint MsgFileNotFound]. split; [reflexivity |].
      split; [repeat constructor |]. left. split; [reflexivity | now left]. }
  destruct (index_of "id" (header_row sheet)) as [i |] eqn:Ei;
    [| destruct (Hid sheet eq_refl Ei)].
  destruct (index_of month (header_row sheet)) as [j |] eqn:Ej.
  2:{ split; [reflexivity |]. split; [reflexivity |].
      exists [EPrint MsgLoading; EPrint (MsgColumnNotFound month);
              EPrint (MsgAvailableColumns (header_row sheet))].
      split; [cbn [final]; rewrite !trace_log, <- !app_assoc; reflexivity |].
      split; [repeat constructor |].
      right; left. split; [reflexivity | right; now left]. }
  destruct Hpre as [Hpre | [(sheet0 & Hs0 & Hm0) | [Htok Hmock]]].
  - discriminate Hpre.
  - injection Hs0 as <-. rewrite Ej in Hm0. discriminate Hm0.
  - rewrite Htok, Hmock. cbn [negb andb].
    split; [reflexivity |]. split; [reflexivity |].
    exists [EPrint MsgLoading; EPrint MsgTokenNotSet].
    split; [cbn [final]; rewrite !trace_log, <- !app_assoc; reflexivity |].
    split; [repeat constructor |].
    right; right. split; [reflexivity | right; now left].
Qed.

Lemma failed_precondition_aborts_unwritten_witness :
  let run := fetch_and_update_pagerduty_metrics world_down false "Jan" false default_delay
               None None true
               (mk_environment (Some sheet_without_month) (Some "u+Abcdefgh")) io0 in
  outcome run = AbortColumnNotFound
  /\ disk run = Some sheet_without_month
  /\ posts (final run) = 0%nat.
Proof.
  destruct (failed_precondition_aborts_unwritten world_down false "Jan" false default_delay
              None None true
              (mk_environment (Some sheet_without_month) (Some "u+Abcdefgh")) io0)
    as (Hd & Hp & _).
  - intros sheet H. injection H as <-. discriminate.
  - right; left. exists sheet_without_month. split; reflexivity.
  - cbv zeta. split; [reflexivity |]. split; [exact Hd | exact Hp].
Defined.

(* ===================================================================== *)
(** * How many requests a fetch sends                                     *)
(* ===================================================================== *)

Lemma count_posts_app (t1 t2 : list event) :
  count_posts (t1 ++ t2) = (count_posts t1 + count_posts t2)%nat.
Proof.
  induction t1 as [| e t1 IH]; [reflexivity |].
  destruct e; cbn; rewrite IH; reflexivity.
Qed.

Section Sends.

Lemma sends_weaken {A} (n n' : nat) (m : M A) :
  (n <= n')%nat -> sends_at_most n m -> sends_at_most n' m.
Proof.
  intros Hn H s. destruct (H s) as (t & E & P & C). exists t. repeat split; auto. lia.
Qed.

Lemma sends_ret {A} (a : A) : sends_at_most 0 (ret a).
Proof. intros s. exists []. cbn. rewrite app_nil_r. repeat split; lia. Qed.

Lemma sends_raise {A} (e : exn) : sends_at_most 0 (@raise A e).
Proof. intros s. exists []. cbn. rewrite app_nil_r. repeat split; lia. Qed.

Lemma sends_lift {A} (r : res A) : sends_at_most 0 (lift r).
Proof. intros s. exists []. cbn. rewrite app_nil_r. repeat split; lia. Qed.

Lemma sends_print (m : message) : sends_at_most 0 (print m).
Proof. intros s. exists [EPrint m]. cbn. repeat split; lia. Qed.

Lemma sends_sleep (secs : pyval) : sends_at_most 0 (sleep secs).
Proof.
  intros s. unfold sleep. destruct (check_sleep secs).
  - exists [ESleep secs]. cbn. repeat split; lia.
  - exists []. cbn. rewrite app_nil_r. repeat split; lia.
Qed.

Lemma sends_uniform (w : world) (a b : Z) : sends_at_most 0 (uniform w a b).
Proof.
  intros s. exists []. unfold uniform, random. cbv [bind draw ret lift].
  destruct (Float64.int_mul _ _); [destruct (Float64.int_add _ _) |];
    cbn; rewrite app_nil_r; repeat split; lia.
Qed.

Lemma sends_randint (w : world) (a b : Z) : sends_at_most 0 (randint w a b).
Proof. intros s. exists []. cbn. rewrite app_nil_r. repeat split; lia. Qed.

Lemma sends_post (w : world) (r : request) : sends_at_most 1 (post w r).
Proof.
  intros s. exists [EPost r]. unfold post.
  destruct (http w (posts s) r); cbn; repeat split; lia.
Qed.

Lemma sends_bind {A B} (n1 n2 : nat) (m : M A) (k : A -> M B) :
  sends_at_most n1 m -> (forall a, sends_at_most n2 (k a)) ->
  sends_at_most (n1 + n2) (bind m k).
Proof.
  intros Hm Hk s. unfold bind. destruct (Hm s) as (t1 & E1 & P1 & C1).
  destruct (m s) as [[a | e] s1]; cbn [snd] in *.
  - destruct (Hk a s1) as (t2 & E2 & P2 & C2). exists (t1 ++ t2).
    rewrite E2, E1, P2, P1, count_posts_app, <- app_assoc. repeat split; lia.
  - exists t1. repeat split; auto. lia.
Qed.

Lemma sends_try_catch {A} (n1 n2 : nat) (body : M A) (handler : exn -> M A) :
  sends_at_most n1 body -> (forall e, sends_at_most n2 (handler e)) ->
  sends_at_most (n1 + n2) (try_catch body handler).
Proof.
  intros Hm Hk s. unfold try_catch. destruct (Hm s) as (t1 & E1 & P1 & C1).
  destruct (body s) as [[a | e] s1]; cbn [snd] in *.
  - exists t1. repeat split; auto. lia.
  - destruct (Hk e s1) as (t2 & E2 & P2 & C2). exists (t1 ++ t2).
    rewrite E2, E1, P2, P1, count_posts_app, <- app_assoc. repeat split; lia.
Qed.

End Sends.

(** Rules for code that sends nothing: a sum of zeros is found by [apply]. *)
Ltac sends_nothing :=
  repeat lazymatch goal with
    | |- sends_at_most 0 (bind _ _) => apply (sends_bind 0 0); [| intros ?]
    | |- sends_at_most 0 (ret _) => apply sends_ret
    | |- sends_at_most 0 (raise _) => apply sends_raise
    | |- sends_at_most 0 (lift _) => apply sends_lift
    | |- sends_at_most 0 (print _) => apply sends_print
    | |- sends_at_most 0 (emit (EPrint _)) => apply sends_print
    | |- sends_at_most 0 (sleep _) => apply sends_sleep
    | |- sends_at_most 0 (uniform _ _ _) => apply sends_uniform
    | |- sends_at_most 0 (randint _ _ _) => apply sends_randint
    | |- sends_at_most 0 (if ?b then _ else _) => destruct b
    | |- sends_at_most 0 (match ?x with _ => _ end) => destruct x
    end.

Section FetchSends.

Variable w : world.
Variables (url : string) (headers : list (string * string)) (payload : payload).
Variables (delay : spec_float) (verify_ssl : bool).

Lemma on_response_sends (r : response) (rc rd : Z) :
  sends_at_most 0 (on_response r rc rd).
Proof. unfold on_response, raise_for_status, response_json. sends_nothing. Qed.

Lemma handlers_sends (rc rd : Z) (e : exn) : sends_at_most 0 (handlers w rc rd e).
Proof. unfold handlers. sends_nothing. Qed.

Lemma pass_sends (rc rd : Z) :
  sends_at_most 1 (pass w url headers payload delay verify_ssl rc rd).
Proof.
  unfold pass. apply (sends_try_catch 1 0); [| apply handlers_sends].
  unfold try_body.
  apply (sends_bind 0 1); [apply sends_sleep | intros _].
  apply (sends_bind 0 1); [apply sends_print | intros _].
  apply (sends_bind 0 1); [apply sends_print | intros _].
  apply (sends_bind 1 0); [apply sends_post | intros r; apply on_response_sends].
Qed.

Lemma retry_loop_sends (fuel : nat) :
  forall rc rd,
    sends_at_most (Z.to_nat (max_retries - rc))
                  (retry_loop w url headers payload delay verify_ssl fuel rc rd).
Proof.
  induction fuel as [| fuel IH]; intros rc rd; cbn [retry_loop].
  - destruct (rc <? max_retries);
      (eapply sends_weaken; [| apply sends_raise]); lia.
  - destruct (Z.ltb_spec rc max_retries) as [Hlt | Hge];
      [| eapply sends_weaken; [| apply sends_raise]; lia].
    replace (Z.to_nat (max_retries - rc))
      with (1 + Z.to_nat (max_retries - (rc + 1)))%nat by lia.
    intros s. unfold bind.
    destruct (pass_sends rc rd s) as (t1 & E1 & P1 & C1).
    destruct (pass w url headers payload delay verify_ssl rc rd s)
      as [[[data | rc' rd'] | e] s1] eqn:Ep; cbn [snd] in *.
    + exists t1. repeat split; auto. lia.
    + apply pass_counts_one in Ep. cbn in Ep. subst rc'.
      destruct (IH (rc + 1) rd' s1) as (t2 & E2 & P2 & C2). exists (t1 ++ t2).
      rewrite E2, E1, P2, P1, count_posts_app, <- app_assoc. repeat split; lia.
    + exists t1. repeat split; auto. lia.
Qed.

End FetchSends.

(** X1. Whatever the network does and whatever the delay is, one call
    of the fetch sends at most seven requests, and in simulate mode it
    sends none: the requests it adds to the trace are counted by the
    counter of the requests sent. *)
Theorem fetch_sends_at_most_seven (w : world) (url : string)
    (headers : list (string * string)) (payload : payload)
    (delay : spec_float) (verify_ssl mock_api : bool) (s : io) :
  exists t : list event,
    trace (snd (make_api_request w url headers payload delay verify_ssl mock_api s))
    = trace s ++ t
    /\ posts (snd (make_api_request w url headers payload delay verify_ssl mock_api s))
       = (posts s + count_posts t)%nat
    /\ (count_posts t <= if mock_api then 0 else 7)%nat.
Proof.
  unfold make_api_request. destruct mock_api.
  - assert (H : sends_at_most 0
                  (bind (print MsgUsingMock)
                     (fun _ => bind (randint w 120 7200)
                        (fun mean_seconds => bind (randint w 5 20)
                           (fun total => ret (mock_response mean_seconds total))))))
      by sends_nothing.
    exact (H s).
  - exact (retry_loop_sends w url headers payload delay verify_ssl _ 0 3 s).
Qed.

(* ===================================================================== *)
(** * Failures before the ceiling, and the failure at the ceiling         *)
(* ===================================================================== *)

Section Prefix.

Variable w : world.
Variables (url : string) (headers : list (string * string)) (payload : payload).
Variables (delay : spec_float) (verify_ssl : bool).
Hypothesis delay_ok : check_sleep (PFloat delay) = Ok tt.

Local Abbreviation req := (mk_request url headers payload 30 verify_ssl).
Local Abbreviation loop := (retry_loop w url headers payload delay verify_ssl).



End Prefix.





(* ===================================================================== *)
(** * What a run can do to the trace                                      *)
(* ===================================================================== *)

Lemma advances_refl (P : event -> Prop) (n : nat) (s : io) : advances P n s s.
Proof. exists []. rewrite app_nil_r. cbn. repeat split; auto; lia. Qed.

Lemma advances_trans (P : event -> Prop) (n1 n2 : nat) (s1 s2 s3 : io) :
  advances P n1 s1 s2 -> advances P n2 s2 s3 -> advances P (n1 + n2) s1 s3.
Proof.
  intros (t1 & E1 & F1 & P1 & C1) (t2 & E2 & F2 & P2 & C2). exists (t1 ++ t2).
  rewrite E2, E1, P2, P1, count_posts_app, <- app_assoc.
  repeat split; auto; try lia. now apply Forall_app.
Qed.

Lemma advances_weaken (P : event -> Prop) (n n' : nat) (s s' : io) :
  (n <= n')%nat -> advances P n s s' -> advances P n' s s'.
Proof. intros Hn (t & E & F & Pt & C). exists t. repeat split; auto. lia. Qed.

Lemma advances_log (P : event -> Prop) (e : event) (s : io) :
  P e -> count_posts [e] = 0%nat -> advances P 0 s (log e s).
Proof.
  intros He Hc. exists [e]. cbn [log trace posts]. rewrite Hc.
  repeat split; auto; lia.
Qed.

Lemma advances_log_r (P : event -> Prop) (n : nat) (e : event) (s s' : io) :
  P e -> count_posts [e] = 0%nat -> advances P n s s' -> advances P n s (log e s').
Proof.
  intros He Hc H. replace n with (n + 0)%nat by lia.
  eapply advances_trans; [exact H | now apply advances_log].
Qed.

(** [emits] and [sends_at_most] speak of the same events. *)
Lemma emits_sends_advances {A} (P : event -> Prop) (n : nat) (m : M A) (s : io) :
  emits P m -> sends_at_most n m -> advances P n s (snd (m s)).
Proof.
  intros He Hs. destruct (He s) as (t & E & F). destruct (Hs s) as (t' & E' & Pt & C).
  rewrite E in E'. apply app_inv_head in E'. subst t'. exists t. auto.
Qed.

Lemma make_api_request_sends (w : world) (url : string)
    (headers : list (string * string)) (payload : payload)
    (delay : spec_float) (verify_ssl mock_api : bool) :
  sends_at_most (if mock_api then 0 else 7)
                (make_api_request w url headers payload delay verify_ssl mock_api).
Proof.
  unfold make_api_request. destruct mock_api.
  - sends_nothing.
  - exact (retry_loop_sends w url headers payload delay verify_ssl _ 0 3).
Qed.

Lemma extract_minutes_sends (data : pyval) : sends_at_most 0 (extract_minutes data).
Proof. unfold extract_minutes. sends_nothing. Qed.

Section RunAdvances.

Variable w : world.
Variables (mock_api : bool) (month : string) (force_update : bool).
Variables (delay : spec_float) (verify_ssl : bool).
Variables (id_col_idx month_col_idx : Z) (headers : list (string * string)).
Variable P : event -> Prop.
Variable n : nat.

Hypothesis P_print : forall m, P (EPrint m).
Hypothesis P_processed :
  forall (row : Z) (id_value name : pyval) (start_date end_date : string) (s : io),
    P (EProcessed row
         (fst (process_row w row id_value name month_col_idx analytics_url headers
                           (mk_payload [id_value] start_date end_date)
                           mock_api delay verify_ssl s))).
Hypothesis P_write : forall r c x, P (EWrite r c x).

(** What is assumed of the fetch, for every row and payload. *)
Hypothesis fetch_advances :
  forall (id_value : pyval) (start_date end_date : string) (s : io),
    advances P n s
      (snd (make_api_request w analytics_url headers
              (mk_payload [id_value] start_date end_date)
              delay verify_ssl mock_api s)).

Lemma process_row_advances (row : Z) (id_value name : pyval)
    (start_date end_date : string) (s : io) :
  advances P n s
    (snd (process_row w row id_value name month_col_idx analytics_url headers
                      (mk_payload [id_value] start_date end_date)
                      mock_api delay verify_ssl s)).
Proof.
  unfold process_row. unfold bind at 1.
  pose proof (fetch_advances id_value start_date end_date s) as Hf.
  destruct (make_api_request _ _ _ _ _ _ _ s) as [[data | e] s1]; cbn [snd] in Hf.
  - assert (He : advances P 0 s1 (snd (extract_minutes data s1))).
    { apply emits_sends_advances; [| apply extract_minutes_sends].
      unfold extract_minutes. repeat emits_step. }
    assert (H2 : advances P n s (snd (extract_minutes data s1))).
    { replace n with (n + 0)%nat by lia. eapply advances_trans; eauto. }
    destruct (extract_minutes data s1) as [[v | e] s2]; cbn [snd] in *.
    + exact H2.
    + repeat (apply advances_log_r; [auto | reflexivity |]). exact H2.
  - cbn [snd]. repeat (apply advances_log_r; [auto | reflexivity |]). exact Hf.
Qed.

Lemma row_body_advances (row : Z) (sheet : worksheet) (s : io) :
  advances P n s
    (snd (row_body w mock_api month force_update delay verify_ssl
                   id_col_idx month_col_idx headers row sheet s)).
Proof.
  assert (H0 : advances P n s s).
  { apply (advances_weaken P 0 n); [lia | apply advances_refl]. }
  unfold row_body.
  destruct (truthy (cell_value sheet row id_col_idx)); cbn [negb].
  2:{ cbn [snd]. now apply advances_log_r. }
  destruct (has_value _ && negb force_update).
  { cbn [snd]. now apply advances_log_r. }
  destruct (get_date_range_for_month month 2025) as [[sd ed] | e].
  2:{ cbn [snd]. now apply advances_log_r. }
  match goal with
  | |- context [process_row ?w ?r ?i ?nm ?m ?u ?h (mk_payload [?i] ?a ?b) ?mk ?d ?v ?st] =>
      pose proof (process_row_advances r i nm a b st) as Hp;
      pose proof (P_processed r i nm a b st) as Hv;
      assert (Hs : advances P n s
                     (snd (process_row w r i nm m u h (mk_payload [i] a b) mk d v st)));
      [ replace n with (0 + n)%nat by lia;
        eapply advances_trans; [apply advances_log; [auto | reflexivity] | exact Hp] |];
      clear Hp;
      destruct (process_row w r i nm m u h (mk_payload [i] a b) mk d v st) as [[x |] s2]
  end; cbn [snd] in *.
  - repeat (apply advances_log_r; [first [exact Hv | auto] | reflexivity |]). exact Hs.
  - destruct (truthy _);
      repeat (apply advances_log_r; [first [exact Hv | auto] | reflexivity |]); exact Hs.
Qed.

Lemma for_rows_advances (rows : list Z) :
  forall (sheet : worksheet) (s : io),
    advances P (n * length rows) s
      (snd (for_rows w mock_api month force_update delay verify_ssl
                     id_col_idx month_col_idx headers rows sheet s)).
Proof.
  induction rows as [| r0 rest IH]; intros sheet s; cbn [for_rows length].
  - rewrite Nat.mul_0_r. apply advances_refl.
  - pose proof (row_body_advances r0 sheet s) as Hb.
    destruct (row_body _ _ _ _ _ _ _ _ _ r0 sheet s) as [[sheet1 | e] s1]; cbn [snd] in Hb.
    + replace (n * S (length rest))%nat with (n + n * length rest)%nat by lia.
      eapply advances_trans; [exact Hb | apply IH].
    + apply (advances_weaken P n); [lia | exact Hb].
Qed.

End RunAdvances.

Lemma run_advances (w : world) (mock_api : bool) (month : string)
    (force_update : bool) (delay : spec_float) (start_row end_row : option Z)
    (verify_ssl : bool) (env : environment) (s : io)
    (P : event -> Prop) (n : nat) :
  (forall m, P (EPrint m)) ->
  P ESave ->
  (forall r c x, P (EWrite r c x)) ->
  (forall (mc row : Z) (id_value name : pyval) (start_date end_date : string) (s0 : io),
      P (EProcessed row
           (fst (process_row w row id_value name mc analytics_url
                             (api_headers (PAGERDUTY_API_TOKEN env))
                             (mk_payload [id_value] start_date end_date)
                             mock_api delay verify_ssl s0)))) ->
  (forall (id_value : pyval) (start_date end_date : string) (s0 : io),
      advances P n s0
        (snd (make_api_request w analytics_url (api_headers (PAGERDUTY_API_TOKEN env))
                (mk_payload [id_value] start_date end_date)
                delay verify_ssl mock_api s0))) ->
  advances P (n * rows_in_range env start_row end_row) s
    (final (fetch_and_update_pagerduty_metrics w mock_api month force_update delay
              start_row end_row verify_ssl env s)).
Proof.
  intros Pp Ps Pw Pr Pf.
  assert (H0 : forall k, advances P k s s).
  { intros k. apply (advances_weaken P 0 k); [lia | apply advances_refl]. }
  unfold fetch_and_update_pagerduty_metrics, rows_in_range.
  destruct (excel_file env) as [sheet |]; cbn [final].
  2:{ now apply advances_log_r. }
  destruct (index_of "id" (header_row sheet)) as [i |]; cbn [final].
  2:{ now apply advances_log_r. }
  destruct (index_of month (header_row sheet)) as [j |]; cbn [final].
  2:{ repeat (apply advances_log_r; [auto | reflexivity |]). apply H0. }
  destruct (negb (token_set (PAGERDUTY_API_TOKEN env)) && negb mock_api); cbn [final].
  { repeat (apply advances_log_r; [auto | reflexivity |]). apply H0. }
  destruct (row_range start_row end_row (max_row sheet)) as [first_row last_row].
  cbn [fst snd].
  match goal with
  | |- context [for_rows ?w ?mk ?mo ?f ?d ?v ?ic ?mc ?h ?rows ?sh ?st] =>
      pose proof (for_rows_advances w mk mo f d v ic mc h P n Pp
                    (Pr mc) Pw Pf rows sh st) as Hl;
      assert (Hs : advances P (n * length rows) s
                     (snd (for_rows w mk mo f d v ic mc h rows sh st)));
      [ replace (n * length rows)%nat with (0 + n * length rows)%nat by lia;
        eapply advances_trans; [| exact Hl];
        destruct (token_set _);
        repeat (apply advances_log_r; [auto | reflexivity |]); apply advances_refl |];
      clear Hl;
      destruct (for_rows w mk mo f d v ic mc h rows sh st) as [[sheet' | e] s1]
  end; cbn [snd final] in *.
  - repeat (apply advances_log_r; [auto | reflexivity |]). exact Hs.
  - exact Hs.
Qed.

Lemma rows_in_range_bound (env : environment) (start_row end_row : option Z)
    (sheet : worksheet) :
  excel_file env = Some sheet ->
  (rows_in_range env start_row end_row <= Z.to_nat (max_row sheet - 1))%nat.
Proof.
  intros H. unfold rows_in_range, rows_of. rewrite H, length_seqZ.
  unfold row_range.
  destruct start_row as [a |], end_row as [b |]; cbn [fst snd];
    repeat match goal with
           | |- context [?x =? ?y] => destruct (Z.eqb_spec x y)
           | |- context [?x >? ?y] => destruct (Z.gtb_spec x y)
           | |- context [?x <? ?y] => destruct (Z.ltb_spec x y)
           end; cbn [negb andb fst snd]; lia.
Qed.

(** X4. A run sends at most seven requests for each row it goes
    through, whatever the network does: the requests on its trace, which
    the counter of the requests sent counts, are at most seven times the
    rows of the range, and the range has at most as many rows as the sheet
    has below its header. *)
Theorem run_request_budget (w : world) (mock_api : bool) (month : string)
    (force_update : bool) (delay : spec_float) (start_row end_row : option Z)
    (verify_ssl : bool) (env : environment) (s : io) :
  exists t : list event,
    trace (final (fetch_and_update_pagerduty_metrics w mock_api month force_update
                    delay start_row end_row verify_ssl env s))
    = trace s ++ t
    /\ posts (final (fetch_and_update_pagerduty_metrics w mock_api month force_update
                       delay start_row end_row verify_ssl env s))
       = (posts s + count_posts t)%nat
    /\ (count_posts t <= 7 * rows_in_range env start_row end_row)%nat
    /\ (rows_in_range env start_row end_row
        <= match excel_file env with
           | Some sheet => Z.to_nat (max_row sheet - 1)
           | None => 0
           end)%nat.
Proof.
  destruct (run_advances w mock_api month force_update delay start_row end_row
              verify_ssl env s (fun _ => True) 7) as (t & E & _ & Hp & Hc); auto.
  { intros idv sd ed s0. apply emits_sends_advances.
    - apply emits_make_api_request; auto.
    - eapply sends_weaken; [| apply make_api_request_sends]. destruct mock_api; lia. }
  exists t. split; [exact E |]. split; [exact Hp |]. split; [exact Hc |].
  destruct (excel_file env) as [sheet |] eqn:Hf.
  - now apply rows_in_range_bound.
  - unfold rows_in_range. now rewrite Hf.
Qed.

(** X5. Every request a run sends is composed the same way: it goes
    to the analytics endpoint with the four headers built from the
    credential, a timeout of 30 seconds and the TLS flag of the run, and
    its filter names exactly one policy id. *)
Theorem run_requests_well_composed (w : world) (mock_api : bool) (month : string)
    (force_update : bool) (delay : spec_float) (start_row end_row : option Z)
    (verify_ssl : bool) (env : environment) (s : io) :
  exists t : list event,
    trace (final (fetch_and_update_pagerduty_metrics w mock_api month force_update
                    delay start_row end_row verify_ssl env s))
    = trace s ++ t
    /\ Forall (well_composed (PAGERDUTY_API_TOKEN env) verify_ssl) t.
Proof.
  destruct (run_advances w mock_api month force_update delay start_row end_row
              verify_ssl env s (well_composed (PAGERDUTY_API_TOKEN env) verify_ssl) 7)
    as (t & E & F & _); try (intros; exact I); [| eauto].
  intros idv sd ed s0. apply emits_sends_advances.
  - apply emits_make_api_request; try (intros; exact I). cbn. auto.
  - eapply sends_weaken; [| apply make_api_request_sends]. destruct mock_api; lia.
Qed.

(* ===================================================================== *)
(** * A run in simulate mode                                              *)
(* ===================================================================== *)

(** Every mean the simulation can draw converts to a number of minutes
    from 2 to 120: checked on each of the 7081 values. *)
Lemma simulated_minutes_in_range (mean_seconds : Z) :
  120 <= mean_seconds <= 7200 ->
  exists x, seconds_to_minutes (PInt mean_seconds) = Ok (Some x)
            /\ minutes_between 2 120 x = true.
Proof.
  intros H.
  assert (Hall : forallb (fun n => match seconds_to_minutes (PInt n) with
                                   | Ok (Some x) => minutes_between 2 120 x
                                   | _ => false
                                   end) (seqZ 120 7081) = true)
    by (vm_compute; reflexivity).
  rewrite List.forallb_forall in Hall.
  specialize (Hall mean_seconds).
  destruct (seconds_to_minutes (PInt mean_seconds)) as [[x |] | e].
  - exists x. split; [reflexivity |]. apply Hall.
    apply list_elem_of_In, elem_of_seqZ. lia.
  - exfalso. assert (Hf : false = true); [| discriminate Hf].
    apply Hall. apply list_elem_of_In, elem_of_seqZ. lia.
  - exfalso. assert (Hf : false = true); [| discriminate Hf].
    apply Hall. apply list_elem_of_In, elem_of_seqZ. lia.
Qed.

Lemma minutes_of_mock_response (mean_seconds total : Z) :
  minutes_of (mock_response mean_seconds total)
  = match seconds_to_minutes (PInt mean_seconds) with
    | Ok v => v
    | Raise _ => None
    end.
Proof.
  unfold minutes_of. cbv -[seconds_to_minutes].
  destruct (seconds_to_minutes (PInt mean_seconds)) as [v | e]; reflexivity.
Qed.

Lemma mock_fetch_returns (w : world) (url : string)
    (headers : list (string * string)) (payload : payload)
    (delay : spec_float) (verify_ssl : bool) (s : io) :
  exists mean_seconds total : Z,
    make_api_request w url headers payload delay verify_ssl true s
    = (Ok (mock_response mean_seconds total),
       mk_io (posts s) (S (S (draws s))) (trace s ++ [EPrint MsgUsingMock]))
    /\ 120 <= mean_seconds <= 7200.
Proof.
  unfold make_api_request, print, emit.
  set (s1 := log (EPrint MsgUsingMock) s).
  destruct (randint_bounds w 120 7200 s1) as (ms & E1 & B1); [lia |].
  set (s2 := mk_io (posts s1) (S (draws s1)) (trace s1)) in *.
  destruct (randint_bounds w 5 20 s2) as (tic & E2 & _); [lia |].
  exists ms, tic. split; [| exact B1].
  unfold bind at 1. fold s1. unfold bind at 1. rewrite E1. fold s2.
  unfold bind at 1. rewrite E2. reflexivity.
Qed.

Lemma process_row_simulated (w : world) (row : Z) (id_value name : pyval)
    (month_col_idx : Z) (url : string) (headers : list (string * string))
    (payload : payload) (delay : spec_float) (verify_ssl : bool) (s : io) :
  exists x,
    fst (process_row w row id_value name month_col_idx url headers payload
                     true delay verify_ssl s) = Some x
    /\ minutes_between 2 120 x = true.
Proof.
  destruct (mock_fetch_returns w url headers payload delay verify_ssl s)
    as (ms & tic & E & B).
  destruct (simulated_minutes_in_range ms B) as (x & Ex & Hx).
  exists x. split; [| exact Hx].
  rewrite (process_row_fetched w row id_value name month_col_idx url headers payload
             true delay verify_ssl _ s _ E).
  now rewrite minutes_of_mock_response, Ex.
Qed.

Lemma results_for_In (row : Z) (v : option spec_float) (t : list event) :
  In v (results_for row t) -> In (EProcessed row v) t.
Proof.
  induction t as [| e t IH]; [intros [] |].
  destruct e; cbn; auto.
  destruct (Z.eqb_spec row0 row) as [-> |]; cbn; [| auto].
  intros [<- | H]; auto.
Qed.

Lemma simulated_offline (t : list event) :
  Forall is_simulated t -> Forall is_offline t.
Proof.
  intros H. eapply Forall_impl; [exact H |]. intros []; cbn; auto.
Qed.

(** What a run in simulate mode makes of the sheet. *)
Lemma simulated_run_values (w : world) (month : string)
    (force_update : bool) (delay : spec_float) (start_row end_row : option Z)
    (verify_ssl : bool) (env : environment) (s : io)
    (sheet : worksheet) (i j : Z) :
  excel_file env = Some sheet ->
  index_of "id" (header_row sheet) = Some i ->
  index_of month (header_row sheet) = Some j ->
  exists (sheet' : worksheet) (s1 : io) (t : list event),
    fetch_and_update_pagerduty_metrics w true month force_update
      delay start_row end_row verify_ssl env s
    = mk_run_result Completed (Some sheet') s1
    /\ trace s1 = trace s ++ t
    /\ posts s1 = posts s
    /\ Forall is_offline t
    /\ forall row,
        (fst (row_range start_row end_row (max_row sheet)) <= row
           <= snd (row_range start_row end_row (max_row sheet)) ->
         eligible force_update (i + 1) (j + 1) sheet row = true ->
         exists x, cell_value sheet' row (j + 1) = PFloat x
                   /\ minutes_between 2 120 x = true)
        /\ (eligible force_update (i + 1) (j + 1) sheet row = false ->
            forall c, cell_value sheet' row c = cell_value sheet row c).
Proof.
  intros Hfile Hid Hmonth.
  destruct (window_2025_total month) as (r1 & r2 & Hw).
  destruct (run_completes w true month force_update delay start_row end_row
              verify_ssl env s sheet i j _ Hfile Hid Hmonth (or_intror eq_refl) Hw)
    as (sheet' & s1 & m1 & m2 & t & Erun & _ & T & _ & _ & R).
  destruct (run_advances w true month force_update delay start_row end_row
              verify_ssl env s is_simulated 0) as (t' & E' & F' & Hp & Hc);
    try (intros; exact I).
  { intros. apply process_row_simulated. }
  { intros idv sd ed s0.
    destruct (mock_fetch_returns w analytics_url (api_headers (PAGERDUTY_API_TOKEN env))
                (mk_payload [idv] sd ed) delay verify_ssl s0) as (ms & tic & E & _).
    rewrite E. exists [EPrint MsgUsingMock]. cbn.
    split; [reflexivity |]. split; [repeat constructor |]. split; lia. }
  rewrite Erun in *. cbn [final] in *.
  eexists sheet', _, t'.
  split; [reflexivity |]. split; [exact E' |].
  split; [lia |]. split; [now apply simulated_offline |].
  intros row. destruct (R row) as (Y & N & _ & C). cbv zeta in Y, N, C. split.
  - intros Hrow Hel. apply in_rows_of in Hrow.
    destruct (Y Hrow Hel) as [v Hv].
    specialize (C (j + 1)). rewrite Z.eqb_refl, Hv in C.
    assert (Hin : In (EProcessed row v) t').
    { rewrite !trace_log, T, <- !app_assoc in E'.
      apply app_inv_head in E'. subst t'.
      rewrite !in_app_iff. right. left.
      apply results_for_In. rewrite Hv. now left. }
    rewrite Forall_forall in F'. apply list_elem_of_In, F' in Hin.
    destruct Hin as (x & -> & Hx).
    exists x. split; [exact C | exact Hx].
  - intros Hel c. rewrite C, (N Hel). cbn [cell_after].
    destruct (Z.eqb_spec c (j + 1)) as [-> |]; reflexivity.
Qed.

(** X6. A run in simulate mode on a sheet that has the [id] and the
    month column completes without a request and without a pause, whether
    or not a credential is set, and every row of the range that has an id
    and is due for an update ends with a number of minutes from 2.00 to
    120.00 in its month cell. *)
Theorem simulated_run_fills_in_range (w : world) (month : string)
    (force_update : bool) (delay : spec_float) (start_row end_row : option Z)
    (verify_ssl : bool) (env : environment) (s : io)
    (sheet : worksheet) (i j : Z)
    (Hfile : excel_file env = Some sheet)
    (Hid : index_of "id" (header_row sheet) = Some i)
    (Hmonth : index_of month (header_row sheet) = Some j) :
  let run := fetch_and_update_pagerduty_metrics w true month force_update
               delay start_row end_row verify_ssl env s in
  exists (sheet' : worksheet) (t : list event),
    outcome run = Completed
    /\ disk run = Some sheet'
    /\ trace (final run) = trace s ++ t
    /\ posts (final run) = posts s
    /\ Forall is_offline t
    /\ forall row,
        fst (row_range start_row end_row (max_row sheet)) <= row
          <= snd (row_range start_row end_row (max_row sheet)) ->
        eligible force_update (i + 1) (j + 1) sheet row = true ->
        exists x, cell_value sheet' row (j + 1) = PFloat x
                  /\ minutes_between 2 120 x = true.
Proof.
  destruct (simulated_run_values w month force_update delay start_row end_row
              verify_ssl env s sheet i j Hfile Hid Hmonth)
    as (sheet' & s1 & t & Erun & T & Hp & F & Hrows).
  cbv zeta. rewrite Erun. cbn [outcome disk final].
  exists sheet', t.
  split; [reflexivity |]. split; [reflexivity |]. split; [exact T |].
  split; [exact Hp |]. split; [exact F |].
  intros row Hrow Hel. now apply (Hrows row).
Qed.

Lemma simulated_run_fills_in_range_witness :
  exists x, cell_value
              (default example_sheet
                 (disk (fetch_and_update_pagerduty_metrics world_down true "Jan" false
                          default_delay None None true example_env io0))) 3 3 = PFloat x
            /\ minutes_between 2 120 x = true.
Proof.
  destruct (simulated_run_fills_in_range world_down "Jan" false default_delay None None true
              example_env io0 example_sheet 1 2 eq_refl eq_refl eq_refl)
    as (sheet' & t & _ & Hd & _ & _ & _ & Hrows).
  destruct (Hrows 3) as (x & Hx & Hb); [cbn; lia | reflexivity |].
  exists x. rewrite Hd. cbn [default from_option id]. split; [exact Hx | exact Hb].
Defined.

(* ===================================================================== *)
(** * What a run leaves alone                                             *)
(* ===================================================================== *)

Lemma index_of_bound (name : string) (headers : list pyval) (j : Z) :
  index_of name headers = Some j -> 0 <= j < Z.of_nat (length headers).
Proof.
  revert j. induction headers as [| v rest IH]; intros j; cbn [index_of].
  - discriminate.
  - destruct (eq_str v name).
    + intros [= <-]. cbn [length]. lia.
    + destruct (index_of name rest) as [k |]; [| discriminate].
      cbn. intros [= <-]. specialize (IH k eq_refl). cbn [length]. lia.
Qed.

Lemma header_row_length (sheet : worksheet) :
  Z.of_nat (length (header_row sheet)) = Z.max 0 (max_column sheet).
Proof. unfold header_row. rewrite length_fmap, length_seqZ. lia. Qed.

Lemma row_range_within (start_row end_row : option Z) (sheet_max_row : Z) :
  2 <= fst (row_range start_row end_row sheet_max_row)
  /\ snd (row_range start_row end_row sheet_max_row) <= sheet_max_row.
Proof.
  unfold row_range.
  destruct start_row as [a |], end_row as [b |]; cbn [fst snd];
    repeat match goal with
           | |- context [?x =? ?y] => destruct (Z.eqb_spec x y)
           | |- context [?x >? ?y] => destruct (Z.gtb_spec x y)
           | |- context [?x <? ?y] => destruct (Z.ltb_spec x y)
           end; cbn [negb andb fst snd]; lia.
Qed.

Lemma touched_only_refl (rows : list Z) (column : Z) (sheet : worksheet) :
  touched_only rows column sheet sheet.
Proof. split; [reflexivity |]. split; [reflexivity |]. intros r c. now left. Qed.

Lemma touched_only_set_cell (row column : Z) (rest : list Z) (sheet : worksheet)
    (v : spec_float) :
  row <= max_row sheet -> column <= max_column sheet ->
  touched_only (row :: rest) column sheet
               (set_cell sheet row column (PFloat v) "0.00").
Proof.
  intros Hr Hc. unfold touched_only, set_cell. cbn [max_row max_column cells number_formats].
  split; [lia |]. split; [lia |].
  intros r c. destruct (decide ((row, column) = (r, c))) as [[= <- <-] | Hne].
  - right. rewrite !lookup_insert_eq. split; [now left |]. eauto.
  - left. now rewrite !lookup_insert_ne.
Qed.

Lemma touched_only_trans (row column : Z) (rest : list Z)
    (sheet sheet1 sheet' : worksheet) :
  touched_only [row] column sheet sheet1 ->
  touched_only rest column sheet1 sheet' ->
  touched_only (row :: rest) column sheet sheet'.
Proof.
  intros (R1 & C1 & H1) (R2 & C2 & H2).
  split; [congruence |]. split; [congruence |].
  intros r c. destruct (H2 r c) as [[Ec Ef] | (Hin & -> & Hx & Hf)].
  - destruct (H1 r c) as [[Ec1 Ef1] | ([<- | []] & -> & Hx & Hf)].
    + left. split; congruence.
    + right. rewrite Ec, Ef. split; [now left | auto].
  - right. split; [now right | auto].
Qed.

Section Frame.

Variable w : world.
Variables (mock_api : bool) (month : string) (force_update : bool).
Variables (delay : spec_float) (verify_ssl : bool).
Variables (id_col_idx month_col_idx : Z) (headers : list (string * string)).

Lemma row_body_touched (row : Z) (rest : list Z) (sheet : worksheet) (s : io) :
  row <= max_row sheet -> month_col_idx <= max_column sheet ->
  exists sheet' s',
    row_body w mock_api month force_update delay verify_ssl
             id_col_idx month_col_idx headers row sheet s = (Ok sheet', s')
    /\ touched_only (row :: rest) month_col_idx sheet sheet'.
Proof.
  intros Hr Hc.
  destruct (window_2025_total month) as (r1 & r2 & Hw).
  destruct (row_body_facts w mock_api month force_update delay verify_ssl
              id_col_idx month_col_idx headers _ Hw row sheet s)
    as (s' & t & E & _).
  cbv zeta in E. eexists _, s'. split; [exact E |].
  destruct (results_for row t) as [| [v |] [| ? ?]];
    try apply touched_only_refl.
  now apply touched_only_set_cell.
Qed.

Lemma for_rows_touched (rows : list Z) :
  forall (sheet : worksheet) (s : io),
    Forall (fun r => r <= max_row sheet) rows ->
    month_col_idx <= max_column sheet ->
    exists sheet' s',
      for_rows w mock_api month force_update delay verify_ssl
               id_col_idx month_col_idx headers rows sheet s = (Ok sheet', s')
      /\ touched_only rows month_col_idx sheet sheet'.
Proof.
  induction rows as [| row rest IH]; intros sheet s Hrows Hc.
  - exists sheet, s. split; [reflexivity | apply touched_only_refl].
  - apply Forall_cons in Hrows as [Hr Hrest].
    destruct (row_body_touched row [] sheet s Hr Hc) as (sheet1 & s1 & E1 & T1).
    destruct (IH sheet1 s1) as (sheet' & s' & E2 & T2).
    + destruct T1 as (-> & _). exact Hrest.
    + destruct T1 as (_ & -> & _). exact Hc.
    + exists sheet', s'. cbn [for_rows]. rewrite E1.
      split; [exact E2 |]. eapply touched_only_trans; eassumption.
Qed.

End Frame.

(** X7. Whatever a run does, the sheet on disk afterwards has the
    dimensions and the header row of the sheet before, and every cell keeps
    its value and its number format but for cells of the month column in
    rows of the range: such a cell either is as before or holds a float
    with the number format [0.00]. *)
Theorem run_touches_month_column_only (w : world) (mock_api : bool)
    (month : string) (force_update : bool) (delay : spec_float)
    (start_row end_row : option Z) (verify_ssl : bool)
    (env : environment) (s : io) (sheet : worksheet)
    (Hfile : excel_file env = Some sheet) :
  exists sheet' : worksheet,
    disk (fetch_and_update_pagerduty_metrics w mock_api month force_update delay
            start_row end_row verify_ssl env s) = Some sheet'
    /\ max_row sheet' = max_row sheet
    /\ max_column sheet' = max_column sheet
    /\ header_row sheet' = header_row sheet
    /\ forall r c,
        (cell_value sheet' r c = cell_value sheet r c
         /\ number_formats sheet' !! (r, c) = number_formats sheet !! (r, c))
        \/ (fst (row_range start_row end_row (max_row sheet)) <= r
              <= snd (row_range start_row end_row (max_row sheet))
            /\ index_of month (header_row sheet) = Some (c - 1)
            /\ (exists x, cell_value sheet' r c = PFloat x)
            /\ number_formats sheet' !! (r, c) = Some "0.00").
Proof.
  assert (Hsame : exists sheet' : worksheet,
             Some sheet = Some sheet'
             /\ max_row sheet' = max_row sheet
             /\ max_column sheet' = max_column sheet
             /\ header_row sheet' = header_row sheet
             /\ forall r c,
                 (cell_value sheet' r c = cell_value sheet r c
                  /\ number_formats sheet' !! (r, c) = number_formats sheet !! (r, c))
                 \/ (fst (row_range start_row end_row (max_row sheet)) <= r
                       <= snd (row_range start_row end_row (max_row sheet))
                     /\ index_of month (header_row sheet) = Some (c - 1)
                     /\ (exists x, cell_value sheet' r c = PFloat x)
                     /\ number_formats sheet' !! (r, c) = Some "0.00")).
  { exists sheet. repeat split; auto. }
  unfold fetch_and_update_pagerduty_metrics. rewrite Hfile.
  destruct (index_of "id" (header_row sheet)) as [i |]; cbn [disk]; [| exact Hsame].
  destruct (index_of month (header_row sheet)) as [j |] eqn:Hj; cbn [disk];
    [| exact Hsame].
  destruct (negb (token_set (PAGERDUTY_API_TOKEN env)) && negb mock_api); cbn [disk];
    [exact Hsame |].
  clear Hsame.
  pose proof (row_range_within start_row end_row (max_row sheet)) as [Hfirst Hlast].
  destruct (row_range start_row end_row (max_row sheet)) as [first_row last_row].
  cbn [fst snd] in *.
  pose proof (index_of_bound _ _ _ Hj) as Hjb. rewrite header_row_length in Hjb.
  match goal with
  | |- context [for_rows ?w ?mk ?mo ?f ?d ?v ?ic ?mc ?h ?rows ?sh ?st] =>
      destruct (for_rows_touched w mk mo f d v ic mc h rows sh st)
        as (sheet' & s' & E & Hr & Hc & T)
  end.
  { apply Forall_forall. intros r Hr. apply list_elem_of_In, in_rows_of in Hr. lia. }
  { lia. }
  rewrite E. cbn [disk]. exists sheet'.
  split; [reflexivity |]. split; [exact Hr |]. split; [exact Hc |].
  assert (Hcells : forall r c,
             (cell_value sheet' r c = cell_value sheet r c
              /\ number_formats sheet' !! (r, c) = number_formats sheet !! (r, c))
             \/ (first_row <= r <= last_row
                 /\ Some j = Some (c - 1)
                 /\ (exists x, cell_value sheet' r c = PFloat x)
                 /\ number_formats sheet' !! (r, c) = Some "0.00")).
  { intros r c. unfold cell_value.
    destruct (T r c) as [[Ec Ef] | (Hin & -> & [x Hx] & Hf)].
    - left. now rewrite Ec.
    - right. apply in_rows_of in Hin. split; [exact Hin |].
      split; [f_equal; lia |]. rewrite Hx. eauto. }
  split; [| exact Hcells].
  unfold header_row. rewrite Hc. apply list_fmap_ext. intros k c _.
  destruct (Hcells 1 c) as [[Ec _] | (Hin & _)]; [exact Ec | lia].
Qed.

Lemma run_touches_month_column_only_witness :
  exists sheet' : worksheet,
    disk (fetch_and_update_pagerduty_metrics world_down true "Jan" false default_delay
            None None true example_env io0) = Some sheet'
    /\ max_row sheet' = max_row example_sheet
    /\ header_row sheet' = header_row example_sheet
    /\ cell_value sheet' 3 2 = cell_value example_sheet 3 2.
Proof.
  destruct (run_touches_month_column_only world_down true "Jan" false default_delay
              None None true example_env io0 example_sheet eq_refl)
    as (sheet' & Hd & Hr & _ & Hh & Hcells).
  exists sheet'. split; [exact Hd |]. split; [exact Hr |]. split; [exact Hh |].
  destruct (Hcells 3 2) as [[Ec _] | (_ & Hi & _)]; [exact Ec | discriminate Hi].
Defined.

(* ===================================================================== *)
(** * A throttle delay that [time.sleep] refuses                           *)
(* ===================================================================== *)

Lemma for_rows_unwritten (w : world) (mock_api : bool) (month : string)
    (force_update : bool) (delay : spec_float) (verify_ssl : bool)
    (id_col_idx month_col_idx : Z) (headers : list (string * string))
    (rows : list Z) :
  (forall (row : Z) (id_value name : pyval) (p : payload) (s0 : io),
      fst (process_row w row id_value name month_col_idx
                       analytics_url headers p mock_api delay verify_ssl s0)
      = None) ->
  forall (sheet : worksheet) (s : io),
  exists s' : io,
    for_rows w mock_api month force_update delay verify_ssl
             id_col_idx month_col_idx headers rows sheet s
    = (Ok sheet, s').
Proof.
  intros Hnone. induction rows as [| row rest IH]; intros sheet s.
  - exists s. reflexivity.
  - destruct (row_body_unwritten w mock_api month force_update delay verify_ssl
                id_col_idx month_col_idx headers row sheet s) as (s1 & t & E & _).
    { intros idv nm p s0 _. apply Hnone. }
    destruct (IH sheet s1) as (s' & E').
    exists s'. cbn [for_rows]. now rewrite E.
Qed.

Lemma handlers_reraise (w : world) (rc rd : Z) (e : exn) (s : io) :
  is_request_exception e = false -> handlers w rc rd e s = (Raise e, s).
Proof. intros H. destruct e; try discriminate H; reflexivity. Qed.

(** What [time.sleep] raises is a [ValueError], an [OverflowError] or a
    [TypeError], and for a [float] one of the first two: nothing the retry
    loop handles. *)
Lemma check_sleep_raises (secs : pyval) (e : exn) :
  check_sleep secs = Raise e -> is_request_exception e = false.
Proof.
  unfold check_sleep. intros E.
  repeat match type of E with
         | (if ?b then _ else _) = _ => destruct b
         | match ?x with _ => _ end = _ => destruct x
         end;
    first [discriminate E | injection E as <-; reflexivity].
Qed.

Lemma check_sleep_float_raises (f : spec_float) (e : exn) :
  check_sleep (PFloat f) = Raise e ->
  e = OverflowError \/ exists msg, e = ValueError msg.
Proof.
  unfold check_sleep. intros E.
  repeat match type of E with
         | (if ?b then _ else _) = _ => destruct b
         end;
    first [discriminate E | injection E as <-; eauto].
Qed.

Section RefusedDelay.

Variable w : world.
Variable delay : spec_float.
Variable e : exn.
Hypothesis delay_refused : check_sleep (PFloat delay) = Raise e.

Lemma fetch_refused_delay (url : string) (headers : list (string * string))
    (payload : payload) (verify_ssl : bool) (s : io) :
  make_api_request w url headers payload delay verify_ssl false s = (Raise e, s).
Proof.
  unfold make_api_request. change (Z.to_nat max_retries) with 7%nat.
  cbn [retry_loop]. change (0 <? max_retries) with true. cbv iota.
  unfold bind at 1, pass, try_catch, try_body.
  unfold bind at 1, sleep. rewrite delay_refused.
  rewrite handlers_reraise by exact (check_sleep_raises _ _ delay_refused).
  reflexivity.
Qed.

End RefusedDelay.

(** X8. With real requests and a throttle delay that [time.sleep]
    refuses with the exception [e] (a [ValueError] for a negative delay or
    a NaN, an [OverflowError] for one of more than about 9.2e9 seconds in
    size), the pause before the first attempt raises [e], which the retry
    loop does not handle: every fetch fails at once with [e], so a run
    sends no request, never pauses, and leaves on disk exactly the sheet
    it found, whatever the network would have answered. *)
Theorem refused_delay_run_is_idle (w : world) (month : string)
    (force_update : bool) (delay : spec_float) (start_row end_row : option Z)
    (verify_ssl : bool) (env : environment) (s : io) (e : exn)
    (Hdelay : check_sleep (PFloat delay) = Raise e) :
  let run := fetch_and_update_pagerduty_metrics w false month force_update
               delay start_row end_row verify_ssl env s in
  (e = OverflowError \/ exists msg, e = ValueError msg)
  /\ (forall url headers payload s0,
      make_api_request w url headers payload delay verify_ssl false s0
      = (Raise e, s0))
  /\ disk run = excel_file env
  /\ posts (final run) = posts s
  /\ exists t, trace (final run) = trace s ++ t /\ Forall is_offline t.
Proof.
  cbv zeta. split; [exact (check_sleep_float_raises _ _ Hdelay) |].
  split; [intros; exact (fetch_refused_delay w delay e Hdelay _ _ _ _ _) |].
  assert (Hnone : forall headers mc (row : Z) (id_value name : pyval) (p : payload)
                         (s0 : io),
             fst (process_row w row id_value name mc analytics_url headers p
                              false delay verify_ssl s0) = None).
  { intros. eapply process_row_fetch_failed.
    exact (fetch_refused_delay w delay e Hdelay _ _ _ _ _). }
  split; [| split].
  - unfold fetch_and_update_pagerduty_metrics.
    destruct (excel_file env) as [sheet |]; [| reflexivity].
    destruct (index_of "id" (header_row sheet)) as [i |]; [| reflexivity].
    destruct (index_of month (header_row sheet)) as [j |]; [| reflexivity].
    destruct (negb (token_set (PAGERDUTY_API_TOKEN env)) && negb false); [reflexivity |].
    destruct (row_range start_row end_row (max_row sheet)) as [first_row last_row].
    match goal with
    | |- context [for_rows ?w ?mk ?mo ?f ?d ?v ?ic ?mc ?h ?rows ?sh ?st] =>
        destruct (for_rows_unwritten w mk mo f d v ic mc h rows (Hnone h mc) sh st)
          as (s' & E)
    end.
    rewrite E. reflexivity.
  - destruct (run_advances w false month force_update delay start_row end_row
                verify_ssl env s is_offline 0) as (t & _ & _ & Hp & Hc);
      try (intros; exact I); [| lia].
    intros. rewrite (fetch_refused_delay w delay e Hdelay). apply advances_refl.
  - destruct (run_advances w false month force_update delay start_row end_row
                verify_ssl env s is_offline 0) as (t & E & F & _);
      try (intros; exact I); [| eauto].
    intros. rewrite (fetch_refused_delay w delay e Hdelay). apply advances_refl.
Qed.

Lemma refused_delay_run_is_idle_witness :
  check_sleep (PFloat (SFopp default_delay))
  = Raise (ValueError "sleep length must be non-negative")
  /\ disk (fetch_and_update_pagerduty_metrics world_six_errors false "Jan" true
             (SFopp default_delay) None None true example_env io0) = Some example_sheet
  /\ posts (final (fetch_and_update_pagerduty_metrics world_six_errors false "Jan" true
                     (SFopp default_delay) None None true example_env io0)) = 0%nat.
Proof.
  split; [reflexivity |].
  destruct (refused_delay_run_is_idle world_six_errors "Jan" true (SFopp default_delay)
              None None true example_env io0
              (ValueError "sleep length must be non-negative") eq_refl)
    as (_ & _ & Hd & Hp & _).
  split; [exact Hd | exact Hp].
Defined.

(* ===================================================================== *)
(** * Failures the loop does not handle                                   *)
(* ===================================================================== *)


Section Unhandled.

Variable w : world.
Variables (url : string) (headers : list (string * string)) (payload : payload).
Variables (delay : spec_float) (verify_ssl : bool).
Hypothesis delay_ok : check_sleep (PFloat delay) = Ok tt.

Local Abbreviation req := (mk_request url headers payload 30 verify_ssl).


End Unhandled.



(* ===================================================================== *)
(** * The pauses between attempts                                         *)
(* ===================================================================== *)



Section Pauses.

Variable w : world.
Variables (url : string) (headers : list (string * string)) (payload : payload).
Variables (delay : spec_float) (verify_ssl : bool).
Hypothesis delay_ok : check_sleep (PFloat delay) = Ok tt.

Local Abbreviation req := (mk_request url headers payload 30 verify_ssl).
Local Abbreviation after_post := (posted url headers payload delay verify_ssl).






End Pauses.





(* ===================================================================== *)
(** * The number of requests of a run                                     *)
(* ===================================================================== *)

Section ExactCount.

Variable w : world.
Variables (mock_api : bool) (month : string) (force_update : bool).
Variables (delay : spec_float) (verify_ssl : bool).
Variables (id_col_idx month_col_idx : Z) (headers : list (string * string)).
Variable n : nat.

(** Every fetch of the run costs [n] requests. *)
Hypothesis fetch_costs :
  forall (id_value : pyval) (start_date end_date : string) (s0 : io),
    posts (snd (make_api_request w analytics_url headers
                  (mk_payload [id_value] start_date end_date)
                  delay verify_ssl mock_api s0))
    = (posts s0 + n)%nat.




End ExactCount.






(* ===================================================================== *)
(** * Which answers give a row a value                                    *)
(* ===================================================================== *)

Lemma minutes_of_cases (data : pyval) :
  minutes_of data
  = match data with
    | PDict kv =>
        match dict_get kv "data" with
        | Some (PList (PDict first :: _)) =>
            match seconds_to_minutes
                    (default PNone (dict_get first "mean_seconds_to_first_ack")) with
            | Ok v => v
            | Raise _ => None
            end
        | _ => None
        end
    | _ => None
    end.
Proof.
  assert (Hpos : forall k : nat, (Z.of_nat (S k) >? 0) = true)
    by (intros k; apply Z.gtb_lt; lia).
  unfold minutes_of, extract_minutes.
  destruct data as [| b | z | f | str | l | kv]; try reflexivity.
  - cbv [py_contains lift bind]. destruct (has_substring "data" str); reflexivity.
  - cbv [py_contains lift bind].
    destruct (existsb (fun v => eq_str v "data") l); reflexivity.
  - cbv [py_contains py_getitem_str lift bind].
    destruct (dict_get kv "data") as [items |]; [| reflexivity].
    replace (bool_decide (is_Some (Some items))) with true
      by (symmetry; apply bool_decide_eq_true; eauto).
    destruct items as [| b | z | f | str | l | kv2]; try reflexivity.
    + destruct str as [| c str]; [reflexivity |].
      cbn [py_len String.length]. 
      rewrite Hpos.
      reflexivity.
    + destruct l as [| first rest]; [reflexivity |].
      cbn [py_len length].
      rewrite Hpos.
      cbn [py_getitem_0].
      destruct first as [| b | z | f | str | l | kv2]; reflexivity.
    + destruct kv2 as [| p kv2]; [reflexivity |].
      cbn [py_len length].
      rewrite Hpos.
      reflexivity.
Qed.

(** X14. Whatever the body of the answer, a row gets a value only
    from the first element of [data]: when the fetch returns [data], the
    row processor returns the number [x] if and only if [data] is an object
    whose [data] member is a list, the first element of that list is an
    object, and its [mean_seconds_to_first_ack] converts to [x].  Any other
    shape (no [data] member, an empty list, a first element that is not an
    object, a mean that is absent, null or not a number) gives [None], and
    the elements after the first are never looked at. *)
Theorem value_comes_from_first_datum (w : world) (row : Z) (id_value name : pyval)
    (month_col_idx : Z) (url : string) (headers : list (string * string))
    (payload : payload) (mock_api : bool) (delay : spec_float) (verify_ssl : bool)
    (data : pyval) (s s1 : io) (x : spec_float)
    (Hfetch : make_api_request w url headers payload delay verify_ssl mock_api s
              = (Ok data, s1)) :
  fst (process_row w row id_value name month_col_idx url headers payload
                   mock_api delay verify_ssl s) = Some x
  <-> exists kv first rest,
        data = PDict kv
        /\ dict_get kv "data" = Some (PList (PDict first :: rest))
        /\ seconds_to_minutes (default PNone (dict_get first "mean_seconds_to_first_ack"))
           = Ok (Some x).
Proof.
  rewrite (process_row_fetched w row id_value name month_col_idx url headers payload
             mock_api delay verify_ssl data s s1 Hfetch).
  rewrite minutes_of_cases. split.
  - destruct data as [| | | | | | kv]; try discriminate.
    destruct (dict_get kv "data") as [[| | | | | [| [| | | | | | first] rest] |] |] eqn:Ed;
      try discriminate.
    destruct (seconds_to_minutes _) as [v | e] eqn:Es; [| discriminate].
    intros ->. exists kv, first, rest.
    split; [reflexivity |]. split; [exact Ed | exact Es].
  - intros (kv & first & rest & -> & -> & ->). reflexivity.
Qed.

Lemma value_comes_from_first_datum_witness :
  fst (process_row world_down 3 (PStr "P2") (PStr "Bravo") 3 analytics_url []
                   example_payload true default_delay true io0)
  = Some (hundredths_literal 200).
Proof.
  apply (value_comes_from_first_datum world_down 3 (PStr "P2") (PStr "Bravo") 3
           analytics_url [] example_payload true default_delay true
           (mock_response 120 5) io0
           (mk_io 0 2 [EPrint MsgUsingMock]) (hundredths_literal 200) eq_refl).
  exists [("data", PList [PDict [("mean_seconds_to_first_ack", PInt 120);
                                 ("total_incident_count", PInt 5)]])],
    [("mean_seconds_to_first_ack", PInt 120); ("total_incident_count", PInt 5)], [].
  split; [reflexivity |]. split; [reflexivity |]. vm_compute. reflexivity.
Defined.

(* ===================================================================== *)
(** * The columns a run looks up                                          *)
(* ===================================================================== *)

Lemma index_of_leftmost (name : string) (headers : list pyval) :
  match index_of name headers with
  | Some j =>
      0 <= j
      /\ (exists v, headers !! Z.to_nat j = Some v /\ eq_str v name = true)
      /\ forall k v, (k < Z.to_nat j)%nat -> headers !! k = Some v ->
                     eq_str v name = false
  | None => forall k v, headers !! k = Some v -> eq_str v name = false
  end.
Proof.
  induction headers as [| h rest IH]; cbn [index_of].
  - intros k v H. discriminate H.
  - destruct (eq_str h name) eqn:Eh.
    + split; [lia |]. split; [exists h; auto |]. intros k v Hk. cbn in Hk. lia.
    + destruct (index_of name rest) as [j |]; cbn.
      * destruct IH as (Hj & (v & Hv & Ev) & Hbefore).
        split; [lia |]. split.
        -- exists v. split; [| exact Ev].
           replace (Z.to_nat (Z.succ j)) with (S (Z.to_nat j)) by lia. exact Hv.
        -- intros [| k] v' Hk Hv'.
           ++ injection Hv' as <-. exact Eh.
           ++ apply (Hbefore k v'); [lia | exact Hv'].
      * intros [| k] v Hv.
        -- injection Hv as <-. exact Eh.
        -- exact (IH k v Hv).
Qed.

Lemma header_row_lookup (sheet : worksheet) (k : nat) :
  (Z.of_nat k < max_column sheet) ->
  header_row sheet !! k = Some (cell_value sheet 1 (1 + Z.of_nat k)).
Proof.
  intros Hk. unfold header_row. rewrite list_lookup_fmap.
  rewrite (lookup_seqZ_lt 1 (max_column sheet) k) by lia. reflexivity.
Qed.

(** X15. The column a run takes for a header name is the leftmost
    column of the sheet whose first cell is a string equal to the name: the
    lookup gives a column within the width of the sheet whose first cell
    equals the name, no column to its left does, and the lookup fails
    exactly when no column of the sheet does. *)
Theorem header_lookup_is_leftmost (sheet : worksheet) (name : string) :
  match index_of name (header_row sheet) with
  | Some j =>
      1 <= j + 1 <= max_column sheet
      /\ eq_str (cell_value sheet 1 (j + 1)) name = true
      /\ forall c, 1 <= c < j + 1 -> eq_str (cell_value sheet 1 c) name = false
  | None =>
      forall c, 1 <= c <= max_column sheet -> eq_str (cell_value sheet 1 c) name = false
  end.
Proof.
  pose proof (index_of_leftmost name (header_row sheet)) as H.
  pose proof (index_of_bound name (header_row sheet)) as Hb.
  rewrite header_row_length in Hb.
  destruct (index_of name (header_row sheet)) as [j |].
  - specialize (Hb j eq_refl). destruct H as (Hj & (v & Hv & Ev) & Hbefore).
    split; [lia |]. split.
    + rewrite header_row_lookup in Hv by lia. injection Hv as <-.
      replace (j + 1) with (1 + Z.of_nat (Z.to_nat j)) by lia. exact Ev.
    + intros c Hc. apply (Hbefore (Z.to_nat (c - 1))); [lia |].
      rewrite header_row_lookup by lia. f_equal. f_equal. lia.
  - intros c Hc. apply (H (Z.to_nat (c - 1))).
    rewrite header_row_lookup by lia. f_equal. f_equal. lia.
Qed.

(* ===================================================================== *)
(** * The years a window exists for                                       *)
(* ===================================================================== *)

(** X16. The date window is defined exactly for the years 1 to 9999,
    whatever the month name, known or not: for such a year the function
    returns a window; for any other year that fits a C [int] the
    [datetime] constructor raises the [ValueError] of a year out of range,
    and for a year that does not fit one (below [-2^31], or [2^31] and
    above) it raises an [OverflowError]. *)
Theorem window_defined_iff_year_in_range (month_name : string) (year : Z) :
  match get_date_range_for_month month_name year with
  | Ok _ => 1 <= year <= 9999
  | Raise e =>
      (e = ValueError "year is out of range"
       /\ - 2 ^ 31 <= year < 2 ^ 31 /\ ~ (1 <= year <= 9999))
      \/ (e = OverflowError /\ ~ (- 2 ^ 31 <= year < 2 ^ 31))
  end.
Proof.
  assert (Hm : 1 <= month_num_of month_name <= 12).
  { unfold month_num_of. destruct (month_map !! month_name) as [m |] eqn:E.
    - now apply (month_map_range month_name).
    - cbn. lia. }
  destruct (Z.le_gt_cases 1 year) as [Hlo | Hlo];
    [destruct (Z.le_gt_cases year 9999) as [Hhi | Hhi] |].
  - destruct (date_range_of_month_num month_name year _ eq_refl Hm (conj Hlo Hhi))
      as (_ & _ & ->). lia.
  - unfold get_date_range_for_month, first_day_of, new_datetime.
    cbn [forallb]. unfold fits_c_int at 1.
    destruct (Z.ltb_spec year (2 ^ 31)) as [Hfit | Hfit].
    + replace (- 2 ^ 31 <=? year) with true by lia.
      replace (fits_c_int (month_num_of month_name)) with true
        by (unfold fits_c_int; lia).
      cbn [andb negb fits_c_int Z.leb Z.ltb Z.compare Z.pow Z.pow_pos Pos.iter
           Z.mul Pos.mul Z.opp Pos.compare Pos.compare_cont].
      unfold in_range, MINYEAR, MAXYEAR.
      replace (year <=? 9999) with false by lia. rewrite andb_false_r. cbn [negb].
      left. split; [reflexivity | lia].
    + rewrite andb_false_r. cbn [andb negb]. right. split; [reflexivity | lia].
  - unfold get_date_range_for_month, first_day_of, new_datetime.
    cbn [forallb]. unfold fits_c_int at 1.
    destruct (Z.leb_spec (- 2 ^ 31) year) as [Hfit | Hfit].
    + replace (year <? 2 ^ 31) with true by lia.
      replace (fits_c_int (month_num_of month_name)) with true
        by (unfold fits_c_int; lia).
      cbn [andb negb fits_c_int Z.leb Z.ltb Z.compare Z.pow Z.pow_pos Pos.iter
           Z.mul Pos.mul Z.opp Pos.compare Pos.compare_cont].
      unfold in_range, MINYEAR, MAXYEAR.
      replace (1 <=? year) with false by lia. cbn [andb negb].
      left. split; [reflexivity | lia].
    + cbn [andb negb]. right. split; [reflexivity | lia].
Qed.

(* ===================================================================== *)
(** * Running again                                                       *)
(* ===================================================================== *)

Lemma touched_only_header_row (rows : list Z) (column : Z) (sheet sheet' : worksheet) :
  touched_only rows column sheet sheet' ->
  (forall r, In r rows -> 2 <= r) ->
  header_row sheet' = header_row sheet.
Proof.
  intros (_ & Hc & T) Hrows. unfold header_row. rewrite Hc.
  apply list_fmap_ext. intros k c _. unfold cell_value.
  destruct (T 1 c) as [[-> _] | (Hin & _)]; [reflexivity |].
  apply Hrows in Hin. lia.
Qed.

(** Rows that are not due are passed over: no request, no pause, and
    the sheet stays as it is. *)
Lemma for_rows_ineligible (w : world) (mock_api : bool) (month : string)
    (force_update : bool) (delay : spec_float) (verify_ssl : bool)
    (id_col_idx month_col_idx : Z) (headers : list (string * string))
    (sheet : worksheet) (rows : list Z) :
  (forall r, In r rows ->
             eligible force_update id_col_idx month_col_idx sheet r = false) ->
  forall s : io,
  exists s' : io,
    for_rows w mock_api month force_update delay verify_ssl
             id_col_idx month_col_idx headers rows sheet s = (Ok sheet, s')
    /\ advances is_offline 0 s s'.
Proof.
  induction rows as [| row rest IH]; intros Hrows s.
  - exists s. split; [reflexivity | apply advances_refl].
  - assert (E : exists m,
               row_body w mock_api month force_update delay verify_ssl
                        id_col_idx month_col_idx headers row sheet s
               = (Ok sheet, log (EPrint m) s)).
    { specialize (Hrows row (or_introl eq_refl)).
      unfold row_body, eligible in *.
      destruct (truthy (cell_value sheet row id_col_idx)); cbn [negb andb] in *;
        [| eexists; reflexivity].
      destruct (has_value (cell_value sheet row month_col_idx)), force_update;
        cbn [negb andb orb] in *; try discriminate Hrows.
      eexists; reflexivity. }
    destruct E as [m E].
    destruct (IH (fun r Hr => Hrows r (or_intror Hr)) (log (EPrint m) s)) as (s' & E' & A).
    exists s'. cbn [for_rows]. rewrite E. split; [exact E' |].
    change 0%nat with (0 + 0)%nat. eapply advances_trans; [| exact A].
    apply advances_log; [exact I | reflexivity].
Qed.

(** X17. Running again after a run in simulate mode is idle: when
    the second run is for the same month and the same range of rows and
    does not force updates, then, whatever its mode, its network and its
    delay, it sends no request, never pauses, and leaves on disk exactly
    the sheet the first run saved. *)
Theorem rerun_after_simulation_is_idle (w1 w2 : world) (month : string)
    (force_update mock_api : bool) (delay1 delay2 : spec_float)
    (start_row end_row : option Z) (verify_ssl1 verify_ssl2 : bool)
    (env : environment) (s1 s2 : io) (sheet : worksheet) (i j : Z)
    (Hfile : excel_file env = Some sheet)
    (Hid : index_of "id" (header_row sheet) = Some i)
    (Hmonth : index_of month (header_row sheet) = Some j) :
  exists saved : worksheet,
    disk (fetch_and_update_pagerduty_metrics w1 true month force_update delay1
            start_row end_row verify_ssl1 env s1) = Some saved
    /\ let again :=
         fetch_and_update_pagerduty_metrics w2 mock_api month false delay2
           start_row end_row verify_ssl2
           (mk_environment (Some saved) (PAGERDUTY_API_TOKEN env)) s2 in
       disk again = Some saved
       /\ posts (final again) = posts s2
       /\ exists t, trace (final again) = trace s2 ++ t /\ Forall is_offline t.
Proof.
  destruct (simulated_run_values w1 month force_update delay1 start_row end_row
              verify_ssl1 env s1 sheet i j Hfile Hid Hmonth)
    as (saved & s1' & t1 & Erun & _ & _ & _ & Hrows).
  exists saved. rewrite Erun. cbn [disk]. split; [reflexivity |].
  (* the saved sheet has the header row and the height of the first one *)
  pose proof (row_range_within start_row end_row (max_row sheet)) as [Hfirst Hlast].
  pose proof (index_of_bound _ _ _ Hmonth) as Hjb. rewrite header_row_length in Hjb.
  assert (Hshape : header_row saved = header_row sheet /\ max_row saved = max_row sheet).
  { revert Erun. unfold fetch_and_update_pagerduty_metrics.
    rewrite Hfile, Hid, Hmonth. rewrite andb_false_r.
    destruct (row_range start_row end_row (max_row sheet)) as [first_row last_row].
    cbn [fst snd] in *.
    match goal with
    | |- context [for_rows ?w ?mk ?mo ?f ?d ?v ?ic ?mc ?h ?rows ?sh ?st] =>
        destruct (for_rows_touched w mk mo f d v ic mc h rows sh st)
          as (sheet' & s' & E & T)
    end.
    { apply Forall_forall. intros r Hr. apply list_elem_of_In, in_rows_of in Hr. lia. }
    { lia. }
    rewrite E. intros [= <- _]. split.
    - apply (touched_only_header_row _ _ _ _ T).
      intros r Hr. apply in_rows_of in Hr. lia.
    - apply T. }
  destruct Hshape as [Hh Hm].
  (* no row of the range is due any more *)
  assert (Hdone : forall r,
             In r (rows_of (fst (row_range start_row end_row (max_row sheet)))
                           (snd (row_range start_row end_row (max_row sheet)))) ->
             eligible false (i + 1) (j + 1) saved r = false).
  { intros r Hr. apply in_rows_of in Hr.
    destruct (Hrows r) as [Hval Hkeep]. unfold eligible in *.
    destruct (truthy (cell_value sheet r (i + 1))
              && (force_update || negb (has_value (cell_value sheet r (j + 1))))) eqn:El.
    - destruct (Hval Hr eq_refl) as (x & -> & _). apply andb_false_r.
    - specialize (Hkeep eq_refl). rewrite !Hkeep.
      destruct (truthy (cell_value sheet r (i + 1))); [| reflexivity].
      cbn [andb orb] in *. apply orb_false_iff in El as [_ El]. exact El. }
  cbv zeta. unfold fetch_and_update_pagerduty_metrics.
  cbn [excel_file PAGERDUTY_API_TOKEN]. rewrite Hh, Hid, Hmonth, Hm.
  assert (Hpost : forall (s s' : io), advances is_offline 0 s s' ->
             posts s' = posts s
             /\ exists t, trace s' = trace s ++ t /\ Forall is_offline t).
  { intros s s' (t & E & F & Hp & Hc). split; [lia | eauto]. }
  destruct (negb (token_set (PAGERDUTY_API_TOKEN env)) && negb mock_api); cbn [disk final].
  { split; [reflexivity |]. apply Hpost.
    repeat (apply advances_log_r; [exact I | reflexivity |]). apply advances_refl. }
  destruct (row_range start_row end_row (max_row sheet)) as [first_row last_row].
  cbn [fst snd] in *.
  match goal with
  | |- context [for_rows ?w ?mk ?mo ?f ?d ?v ?ic ?mc ?h ?rows ?sh ?st] =>
      destruct (for_rows_ineligible w mk mo f d v ic mc h sh rows Hdone st)
        as (s' & E & A)
  end.
  rewrite E. cbn [disk final]. split; [reflexivity |]. apply Hpost.
  repeat (apply advances_log_r; [exact I | reflexivity |]).
  change 0%nat with (0 + 0)%nat. eapply advances_trans; [| exact A].
  destruct (token_set (PAGERDUTY_API_TOKEN env));
    repeat (apply advances_log_r; [exact I | reflexivity |]); apply advances_refl.
Qed.

Lemma rerun_after_simulation_is_idle_witness :
  exists saved : worksheet,
    disk (fetch_and_update_pagerduty_metrics world_down true "Jan" false default_delay
            None None true example_env io0) = Some saved
    /\ posts (final (fetch_and_update_pagerduty_metrics world_six_errors false "Jan" false
                       default_delay None None true
                       (mk_environment (Some saved) (Some "u+Abcdefgh")) io0)) = 0%nat.
Proof.
  destruct (rerun_after_simulation_is_idle world_down world_six_errors "Jan" false false
              default_delay default_delay None None true true example_env io0 io0 example_sheet 1 2
              eq_refl eq_refl eq_refl) as (saved & Hd & _ & Hp & _).
  exists saved. split; [exact Hd | exact Hp].
Defined.

(* ===================================================================== *)
(** * A numeric [Retry-After]                                             *)
(* ===================================================================== *)
















Section Step.

Variable w : world.
Variables (url : string) (headers : list (string * string)) (payload : payload).
Variables (delay : spec_float) (verify_ssl : bool).



End Step.



(* ===================================================================== *)
(** * The command line                                                    *)
(* ===================================================================== *)

(** X19. From the command line, every request verifies TLS
    certificates unless [--no-verify-ssl] is given, in which case none
    does; each goes to the analytics endpoint with the headers built from
    the credential and a timeout of 30 seconds.  With [--mock] no request
    is sent at all, and otherwise at most seven for each row of the range. *)
Theorem main_requests_follow_flags (w : world) (a : args) (env : environment) (s : io) :
  exists t : list event,
    trace (final (main w a env s)) = trace s ++ t
    /\ Forall (well_composed (PAGERDUTY_API_TOKEN env) (negb (arg_no_verify_ssl a))) t
    /\ (count_posts t
        <= if arg_mock a then 0
           else 7 * rows_in_range env (arg_start_row a) (arg_end_row a))%nat.
Proof.
  unfold main.
  set (P := well_composed (PAGERDUTY_API_TOKEN env) (negb (arg_no_verify_ssl a))).
  set (n := if arg_mock a then 0%nat else 7%nat).
  match goal with
  | |- context [fetch_and_update_pagerduty_metrics _ _ _ _ _ _ _ _ _ ?s0] =>
      assert (A0 : advances P 0 s s0);
      [| pose proof (run_advances w (arg_mock a) (arg_month a) (arg_force a) (arg_delay a)
                       (arg_start_row a) (arg_end_row a) (negb (arg_no_verify_ssl a))
                       env s0 P n) as A1 ]
  end.
  { destruct (arg_mock a), (arg_no_verify_ssl a);
      repeat (apply advances_log_r; [exact I | reflexivity |]); apply advances_refl. }
  assert (Hf : forall (id_value : pyval) (start_date end_date : string) (s0 : io),
             advances P n s0
               (snd (make_api_request w analytics_url
                       (api_headers (PAGERDUTY_API_TOKEN env))
                       (mk_payload [id_value] start_date end_date)
                       (arg_delay a) (negb (arg_no_verify_ssl a)) (arg_mock a) s0))).
  { intros idv sd ed s0. apply emits_sends_advances.
    - apply emits_make_api_request; try (intros; exact I). cbn. auto.
    - subst n. apply make_api_request_sends. }
  specialize (A1 ltac:(intros; exact I) I ltac:(intros; exact I)
                 ltac:(intros; exact I) Hf).
  destruct (advances_trans _ _ _ _ _ _ A0 A1) as (t & E & F & _ & C).
  exists t. split; [exact E |]. split; [exact F |].
  subst n. destruct (arg_mock a); lia.
Qed.

(* ===================================================================== *)
(** * Answers that are not failures                                       *)
(* ===================================================================== *)



(* ===================================================================== *)
(** * Whole seconds                                                       *)
(* ===================================================================== *)

Lemma sf_same_eq (x y : spec_float) : sf_same x y = true -> x = y.
Proof.
  destruct x as [a | a | | a m e], y as [b | b | | b m' e']; cbn [sf_same];
    try discriminate; try reflexivity.
  - intros H. apply Bool.eqb_prop in H. now subst.
  - intros H. apply Bool.eqb_prop in H. now subst.
  - intros H. apply andb_true_iff in H as [H He]. apply andb_true_iff in H as [Hs Hm].
    apply Bool.eqb_prop in Hs. apply Pos.eqb_eq in Hm. apply Z.eqb_eq in He. now subst.
Qed.

(** X21. For a whole number of seconds up to two hours, the two
    roundings of the conversion (of the quotient to a double, then of that
    double to two decimals) never add up to an error: the result is the
    double nearest to the exact quotient [seconds / 60] rounded half to even
    to hundredths.  Checked on each of the 7201 values. *)
Theorem whole_seconds_round_exactly (seconds : Z) (Hrange : 0 <= seconds <= 7200) :
  seconds_to_minutes (PInt seconds)
  = Ok (Some (hundredths_literal (Float64.round_half_even (100 * seconds) 60))).
Proof.
  assert (Hall : forallb (fun n =>
                   match seconds_to_minutes (PInt n) with
                   | Ok (Some x) =>
                       sf_same x (hundredths_literal
                                    (Float64.round_half_even (100 * n) 60))
                   | _ => false
                   end) (seqZ 0 7201) = true)
    by (vm_compute; reflexivity).
  rewrite List.forallb_forall in Hall.
  specialize (Hall seconds).
  destruct (seconds_to_minutes (PInt seconds)) as [[x |] | e].
  - do 2 f_equal. apply sf_same_eq, Hall, list_elem_of_In, elem_of_seqZ. lia.
  - exfalso. assert (Hf : false = true); [| discriminate Hf].
    apply Hall, list_elem_of_In, elem_of_seqZ. lia.
  - exfalso. assert (Hf : false = true); [| discriminate Hf].
    apply Hall, list_elem_of_In, elem_of_seqZ. lia.
Qed.

Lemma whole_seconds_round_exactly_witness :
  seconds_to_minutes (PInt 100) = Ok (Some (hundredths_literal 167)).
Proof. apply (whole_seconds_round_exactly 100). lia. Defined.

(* ===================================================================== *)
(** * The exception that can leave a run                                  *)
(* ===================================================================== *)

(** X22. The only exception that leaves a run is the [ValueError] of
    a sheet without an [id] column: a run ends with an exception if and
    only if the file is there and no header is [id], whatever the month,
    the credential, the mode and the network; the exception is raised right
    after the file is loaded, before the month column and the credential
    are looked at, and nothing is requested or saved. *)
Theorem only_missing_id_column_crashes (w : world) (mock_api : bool)
    (month : string) (force_update : bool) (delay : spec_float)
    (start_row end_row : option Z) (verify_ssl : bool)
    (env : environment) (s : io) :
  let run := fetch_and_update_pagerduty_metrics w mock_api month force_update
               delay start_row end_row verify_ssl env s in
  (forall e,
      outcome run = Crashed e
      <-> exists sheet,
            excel_file env = Some sheet
            /\ index_of "id" (header_row sheet) = None
            /\ e = ValueError "'id' is not in list")
  /\ (forall e, outcome run = Crashed e ->
                disk run = excel_file env
                /\ final run = log (EPrint MsgLoading) s).
Proof.
  cbv zeta.
  destruct (excel_file env) as [sheet |] eqn:Hfile.
  2:{ unfold fetch_and_update_pagerduty_metrics. rewrite Hfile. cbn [outcome].
      split; [| intros e H; discriminate H].
      intros e. split; [intros H; discriminate H | intros (sh & H & _); discriminate H]. }
  destruct (index_of "id" (header_row sheet)) as [i |] eqn:Hid.
  2:{ unfold fetch_and_update_pagerduty_metrics. rewrite Hfile, Hid.
      cbn [outcome disk final]. split; [| auto].
      intros e. split.
      - intros [= <-]. exists sheet. auto.
      - intros (sh & _ & _ & ->). reflexivity. }
  assert (Hno : forall e,
             outcome (fetch_and_update_pagerduty_metrics w mock_api month force_update
                        delay start_row end_row verify_ssl env s) <> Crashed e).
  { intros e.
    destruct (index_of month (header_row sheet)) as [j |] eqn:Hmonth.
    2:{ unfold fetch_and_update_pagerduty_metrics. rewrite Hfile, Hid, Hmonth.
        discriminate. }
    destruct (negb (token_set (PAGERDUTY_API_TOKEN env)) && negb mock_api) eqn:Htok.
    { unfold fetch_and_update_pagerduty_metrics. rewrite Hfile, Hid, Hmonth, Htok.
      discriminate. }
    destruct (window_2025_total month) as (r1 & r2 & Hw).
    assert (Htoken : token_set (PAGERDUTY_API_TOKEN env) = true \/ mock_api = true).
    { destruct (token_set (PAGERDUTY_API_TOKEN env)), mock_api; auto; discriminate Htok. }
    destruct (run_completes w mock_api month force_update delay start_row end_row
                verify_ssl env s sheet i j _ Hfile Hid Hmonth Htoken Hw)
      as (sheet' & s1 & m1 & m2 & t & Erun & _).
    rewrite Erun. discriminate. }
  split.
  - intros e. split; [intros H; destruct (Hno e H) |].
    intros (sh & [= <-] & H & _). rewrite Hid in H. discriminate H.
  - intros e H. destruct (Hno e H).
Qed.
